(** * Dr.Jit Python front end: array construction and switch/dispatch

    A shallow embedding of [src/python/init.cpp] (array and tensor
    constructors, [full] and its bindings, [arange], [linspace]) and
    [src/python/switch.cpp] ([extract_mask], [switch_impl],
    [dispatch_impl]), with the properties of the specification, and
    further properties of the code, stated and proved over it.

    Python objects are a tree-shaped inductive type, Python exceptions an
    error value, and the calls a function makes into the capability table
    of a type (sequence protocol, element assignment, backend primitives)
    are recorded in a log, so that statements such as "before any element
    is imported" or "exactly once" are statements about that log. *)

From Stdlib Require Import ZArith Lia List Bool String SpecFloat.
From stdpp Require Import base option list gmap strings.

Set Warnings "-register-all".

Local Open Scope string_scope.
Local Open Scope list_scope.

(** ** Results, logs and the monad that threads them *)

Inductive result (E A : Type) : Type :=
| Ok (a : A)
| Raise (e : E).
Arguments Ok {E A} a.
Arguments Raise {E A} e.

(** A computation returns the calls it made, oldest first, and either a
    value or the exception that ended it. *)
Definition Run (Ev E A : Type) : Type := (list Ev * result E A)%type.

Definition ret {Ev E A} (a : A) : Run Ev E A := ([], Ok a).
Definition raise {Ev E A} (e : E) : Run Ev E A := ([], Raise e).
Definition emit {Ev E} (ev : Ev) : Run Ev E unit := ([ev], Ok tt).

Definition bind {Ev E A B} (c : Run Ev E A) (k : A -> Run Ev E B) : Run Ev E B :=
  match c with
  | (l, Ok a) => let '(l', r) := k a in (l ++ l', r)
  | (l, Raise e) => (l, Raise e)
  end.

Global Arguments bind : simpl never.

(** [raise_if cond msg] of the source. *)
Definition raise_if {Ev E} (cond : bool) (e : E) : Run Ev E unit :=
  if cond then raise e else ret tt.

Declare Scope run_scope.
Delimit Scope run_scope with run.
Notation "x <- c ;; k" := (bind c (fun x => k))
  (at level 100, c at next level, right associativity) : run_scope.
Notation "c ;;; k" := (bind c (fun _ => k))
  (at level 100, right associativity) : run_scope.

Definition log_of {Ev E A} (c : Run Ev E A) : list Ev := fst c.
Definition outcome {Ev E A} (c : Run Ev E A) : result E A := snd c.

(** ** Type descriptors *)

(** The enumerators of [JitBackend] and [VarType] that the two source
    files name; [BackendOther] and [VarOther] stand for the remaining
    ones, which the code only ever compares against. *)
Inductive JitBackend := BackendNone | BackendInvalid | BackendOther (id : nat).

Inductive VarType :=
| VtBool | VtInt32 | VtUInt32 | VtInt64 | VtUInt64
| VtFloat16 | VtFloat32 | VtFloat64 | VtPointer | VarOther (id : nat).

(** One entry of [shape]: a fixed extent, or the sentinel
    [DRJIT_DYNAMIC]. *)
Inductive extent := Fixed (n : nat) | DRJIT_DYNAMIC.

Global Instance JitBackend_eq_dec : EqDecision JitBackend.
Proof. solve_decision. Defined.
Global Instance VarType_eq_dec : EqDecision VarType.
Proof. solve_decision. Defined.
Global Instance extent_eq_dec : EqDecision extent.
Proof. solve_decision. Defined.

(** [ArrayMeta]: the fields of the descriptor that the two files read. *)
Record ArrayMeta := {
  backend : JitBackend;
  type : VarType;
  ndim : nat;
  is_vector : bool;
  is_complex : bool;
  is_quaternion : bool;
  is_matrix : bool;
  is_class : bool;
  shape : list extent
}.

Global Instance ArrayMeta_eq_dec : EqDecision ArrayMeta.
Proof. solve_decision. Defined.

Definition set_type (m : ArrayMeta) (t : VarType) : ArrayMeta :=
  {| backend := backend m; type := t; ndim := ndim m;
     is_vector := is_vector m; is_complex := is_complex m;
     is_quaternion := is_quaternion m; is_matrix := is_matrix m;
     is_class := is_class m; shape := shape m |}.

Definition set_backend_vector (m : ArrayMeta) (b : JitBackend) (v : bool) : ArrayMeta :=
  {| backend := b; type := type m; ndim := ndim m;
     is_vector := v; is_complex := is_complex m;
     is_quaternion := is_quaternion m; is_matrix := is_matrix m;
     is_class := is_class m; shape := shape m |}.

(** [ArraySupplement]: the meta data and, for every nullable function
    pointer of the table that the code tests, whether it is set. *)
Record ArraySupplement := {
  meta :> ArrayMeta;
  has_cast : bool;
  has_data : bool;
  has_init : bool;
  has_init_const : bool;
  has_init_data : bool;
  has_init_counter : bool
}.

Global Instance ArraySupplement_eq_dec : EqDecision ArraySupplement.
Proof. solve_decision. Defined.

(** [s.shape[0]]; the C array is zero-filled past [ndim]. *)
Definition shape0 (m : ArrayMeta) : extent := nth 0 (shape m) (Fixed 0).

(** Python types. A Dr.Jit array type carries its supplement and its
    [value] type; a record type carries its [DRJIT_STRUCT] dictionary,
    whose values are types or, when ill-formed, something else
    ([None]). Two types are the same object iff they are equal here. *)
Inductive pytype :=
| PyBool_Type
| PyLong_Type
| PyFloat_Type
| PyNone_Type
| PyStr_Type
| PyList_Type
| PyTuple_Type
| PyGen_Type
| ArrayType (name : string) (s : ArraySupplement) (value : pytype)
| StructType (name : string) (DRJIT_STRUCT : list (string * option pytype))
| OtherType (name : string).

Fixpoint pytype_eqb (a b : pytype) {struct a} : bool :=
  match a, b with
  | PyBool_Type, PyBool_Type | PyLong_Type, PyLong_Type
  | PyFloat_Type, PyFloat_Type | PyNone_Type, PyNone_Type
  | PyStr_Type, PyStr_Type | PyList_Type, PyList_Type
  | PyTuple_Type, PyTuple_Type | PyGen_Type, PyGen_Type => true
  | ArrayType n1 s1 v1, ArrayType n2 s2 v2 =>
      bool_decide (n1 = n2) && bool_decide (s1 = s2) && pytype_eqb v1 v2
  | StructType n1 f1, StructType n2 f2 =>
      bool_decide (n1 = n2) &&
      (fix fields (x y : list (string * option pytype)) : bool :=
         match x, y with
         | [], [] => true
         | (k1, t1) :: x', (k2, t2) :: y' =>
             bool_decide (k1 = k2) &&
             match t1, t2 with
             | Some u1, Some u2 => pytype_eqb u1 u2
             | None, None => true
             | _, _ => false
             end && fields x' y'
         | _, _ => false
         end) f1 f2
  | OtherType n1, OtherType n2 => bool_decide (n1 = n2)
  | _, _ => false
  end.

Definition is_drjit_type (tp : pytype) : bool :=
  match tp with ArrayType _ _ _ => true | _ => false end.

(** [supp(tp)] for a Dr.Jit type. *)
Definition supp (tp : pytype) : option ArraySupplement :=
  match tp with ArrayType _ s _ => Some s | _ => None end.

(** [supp(tp).value]. The constructor's chain walk also applies [supp] to
    the host type that ends the chain; the model reads a null [value]
    there. *)
Definition supp_value (tp : pytype) : option pytype :=
  match tp with ArrayType _ _ v => Some v | _ => None end.

(** ** Python objects *)

(** The objects the constructors see. A Dr.Jit array instance is its type
    and its entries (for a JIT leaf array: its lanes); [PyGen] is an
    iterable that offers iteration only ([PyBadGen]: one whose iteration
    raises); [PyCustomSeq] is a user-defined
    sequence whose length slot reports [sq_len] (negative: the slot
    failed) and whose item slot serves [items]. *)
Inductive pyobj :=
| PyNone
| PyBool (b : bool)
| PyLong (z : Z)
| PyFloat (f : spec_float)
| PyStr (str : string)
| PyList (items : list pyobj)
| PyTuple (items : list pyobj)
| PyGen (items : list pyobj)
| PyBadGen
| PyCustomSeq (sq_len : Z) (items : list pyobj)
| PyArray (tp : pytype) (items : list pyobj)
| PyStruct (tp : pytype) (attrs : list (string * pyobj)).

Definition Py_TYPE (o : pyobj) : pytype :=
  match o with
  | PyNone => PyNone_Type
  | PyBool _ => PyBool_Type
  | PyLong _ => PyLong_Type
  | PyFloat _ => PyFloat_Type
  | PyStr _ => PyStr_Type
  | PyList _ => PyList_Type
  | PyTuple _ => PyTuple_Type
  | PyGen _ | PyBadGen => PyGen_Type
  | PyCustomSeq _ _ => OtherType "sequence"
  | PyArray tp _ => tp
  | PyStruct tp _ => tp
  end.

(** The sequence slots of an object's type: [sq_length] and [sq_item]
    both set, or only [tp_iter], or neither. *)
Inductive seq_slots :=
| Slots (sq_length : Z) (sq_item : nat -> option pyobj)
| IterOnly (PySequence_List : option (list pyobj))
| NoSlots.

Fixpoint str_items (s : string) : list pyobj :=
  match s with
  | EmptyString => []
  | String c r => PyStr (String c EmptyString) :: str_items r
  end.

Definition slots_of_list (items : list pyobj) : seq_slots :=
  Slots (Z.of_nat (length items)) (fun i => items !! i).

Definition slots_of (o : pyobj) : seq_slots :=
  match o with
  | PyList items | PyTuple items | PyArray _ items => slots_of_list items
  | PyStr s => slots_of_list (str_items s)
  | PyCustomSeq n items => Slots n (fun i => items !! i)
  | PyGen items => IterOnly (Some items)
  | PyBadGen => IterOnly None
  | _ => NoSlots
  end.

(** What lies outside the two files and is not fixed by them: calling a
    host type on one argument ([float(x)], [int(x)], [bool(x)], or any
    other non-Dr.Jit type), nanobind's conversion of an object to the
    native scalar of a [VarType], the scalar kernels behind the [cast]
    primitive and behind [fma] (one lane each), the type registry
    [meta_get_type], and what an uninitialised slot reads as. *)
Class Host := {
  host_call : pytype -> pyobj -> option pyobj;
  from_python : VarType -> pyobj -> option pyobj;
  cast_lane : VarType -> VarType -> pyobj -> pyobj;
  fma_lane : VarType -> pyobj -> pyobj -> pyobj -> pyobj;
  meta_get_type : ArrayMeta -> pytype;
  uninitialized : pyobj
}.

(** ** Calls and errors of the constructors *)

(** Calls into the sequence protocol and the capability table. *)
Inductive call :=
| sq_length_call
| sq_item_call (i : nat)
| PySequence_List_call
| nb_inst_zero_call
| nb_inst_copy_call
| cast_call
| init_call (n : nat)
| init_const_call (n : nat) (v : pyobj)
| init_data_call (n : nat)
| init_counter_call (n : nat)
| set_item_call (i : nat) (v : pyobj)
| item_call (i : nat)
| value_type_call (tp : pytype) (arg : pyobj)
| setattr_call (k : string).

(** The exceptions of [init.cpp], one constructor per message. *)
Inductive error :=
| E_kwargs              (* Constructor does not take keyword arguments. *)
| E_arglist             (* Could not initialize array from argument list. *)
| E_wrong_size (expected : nat) (got : Z)
                        (* Input has the wrong size (expected %u elements, got %zd). *)
| E_broadcast (refused : bool)
                        (* Broadcast from type '%s' failed.[ Refused to perform
                           an inefficient element-by-element copy.] *)
| E_item_assignment     (* Item assignment failed. *)
| E_item_retrieval      (* Item retrival failed. / Item retrieval failed. *)
| E_seq_size            (* Unable to determine the size of the given sequence. *)
| E_iterable            (* Could not convert iterable into a sequence. *)
| E_invalid_type        (* Could not construct from sequence (invalid type in input). *)
| E_shape_dtype         (* The provided 'shape' and 'dtype' parameters are incompatible. *)
| E_struct_invalid      (* DRJIT_STRUCT invalid, expected type keys. *)
| E_unsupported_dtype   (* Unsupported dtype. *)
| E_arange_dtype_shape  (* drjit.arange(): unsupported dtype -- must be a
                           dynamically sized 1D array. *)
| E_arange_dtype_arith  (* drjit.arange(): unsupported dtype -- must be an
                           arithmetic type. *)
| E_arange_dtype        (* drjit.arange(): unsupported dtype. *)
| E_arange_negative     (* drjit.arange(): size cannot be negative. *)
| E_python              (* an exception raised by host code *)
| E_undefined_division. (* no exception: the behaviour of the C++ code is
                           undefined from here on (a division by zero) *)

Abbreviation M := (Run call error).

Local Open Scope run_scope.

(** ** Capability-table primitives *)

(** [nb::inst_zero]: the all-zero instance of a type. A dynamically
    sized array is then empty, a fixed-size one holds [shape[0]] zero
    entries. *)
Fixpoint zero_value (tp : pytype) : pyobj :=
  match tp with
  | PyBool_Type => PyBool false
  | PyLong_Type => PyLong 0
  | PyFloat_Type => PyFloat (S754_zero false)
  | ArrayType _ s v =>
      match shape0 s with
      | Fixed n => PyArray tp (replicate n (zero_value v))
      | DRJIT_DYNAMIC => PyArray tp []
      end
  | _ => PyNone
  end.

(** Modelled from the spec: [set(i, v)], the element-set operation of the
    capability table, which is declared outside the two files. It stores
    [v] in slot [i] and fails (nonzero return) when there is no such
    slot. *)
Definition set_item (self : pyobj) (i : nat) (v : pyobj) : option pyobj :=
  match self with
  | PyArray tp items =>
      if decide (i < length items)%nat then Some (PyArray tp (<[i:=v]> items))
      else None
  | _ => None
  end.

(** Modelled from the spec: [get(i)], the element-get operation. *)
Definition item (self : pyobj) (i : nat) : option pyobj :=
  match self with
  | PyArray _ items => items !! i
  | _ => None
  end.

(** Modelled from the spec: [cast(src_kind, dst)], "reinterpret
    element-wise without a shape change". *)
Definition cast {host : Host} (src dst : VarType) (items : list pyobj) : list pyobj :=
  map (cast_lane src dst) items.

(** [raise_if(set_item(self, i, v), "Item assignment failed.")]. *)
Definition set_item_or_raise (self : pyobj) (i : nat) (v : pyobj) : M pyobj :=
  emit (set_item_call i v) ;;;
  match set_item self i v with
  | Some self' => ret self'
  | None => raise E_item_assignment
  end.

(** ** [array_init_seq] *)

Section Constructors.
Context {host : Host}.

(** The loop of [FROM_SEQ_IMPL]: fetch item [i], convert it to the native
    scalar, stop with [fail = true] ([None]) at the first item that cannot
    be fetched or converted. [n] items remain. *)
Fixpoint FROM_SEQ_IMPL (vt : VarType) (sq_item : nat -> option pyobj)
    (i n : nat) : M (option (list pyobj)) :=
  match n with
  | O => ret (Some [])
  | S n' =>
      emit (sq_item_call i) ;;;
      match sq_item i with
      | None => ret None
      | Some o =>
          match from_python vt o with
          | None => ret None
          | Some x =>
              r <- FROM_SEQ_IMPL vt sq_item (S i) n' ;;
              ret (match r with Some xs => Some (x :: xs) | None => None end)
          end
      end
  end.

(** The element kinds of the [switch] over [s.type]; every other kind
    takes [default: fail = true]. *)
Definition from_seq_supported (vt : VarType) : bool :=
  match vt with
  | VtBool | VtFloat32 | VtFloat64 | VtInt32 | VtUInt32 | VtInt64 | VtUInt64 => true
  | _ => false
  end.

(** The final loop: fetch item [i] and assign it to slot [i]. *)
Fixpoint assign_items (sq_item : nat -> option pyobj) (self : pyobj)
    (i n : nat) : M pyobj :=
  match n with
  | O => ret self
  | S n' =>
      emit (sq_item_call i) ;;;
      match sq_item i with
      | None => raise E_item_retrieval
      | Some o =>
          self' <- set_item_or_raise self i o ;;
          assign_items sq_item self' (S i) n'
      end
  end.

(** The part of [array_init_seq] that follows the slot lookup (from
    [Py_ssize_t size = sq_length(seq)] on). It returns the initialised
    [self]. *)
Definition array_init_seq_slots (self_tp : pytype) (s : ArraySupplement)
    (sq_length : Z) (sq_item : nat -> option pyobj) : M pyobj :=
  emit sq_length_call ;;;
  let size := sq_length in
  raise_if (size <? 0)%Z E_seq_size ;;;
  let is_dynamic := bool_decide (shape0 s = DRJIT_DYNAMIC) in
  match shape0 s with
  | Fixed n => raise_if (negb (Z.of_nat n =? size)%Z) (E_wrong_size n size)
  | DRJIT_DYNAMIC => ret tt
  end ;;;
  if (size =? 1)%Z && has_init_const s then
    emit (sq_item_call 0) ;;;
    match sq_item 0%nat with
    | None => raise E_item_retrieval
    | Some o =>
        emit (init_const_call 1 o) ;;;
        ret (PyArray self_tp (replicate 1 o))
    end
  else if bool_decide (ndim s = 1%nat) && has_init_data s then
    r <- (if from_seq_supported (type s)
          then FROM_SEQ_IMPL (type s) sq_item 0 (Z.to_nat size)
          else ret None) ;;
    match r with
    | None => raise E_invalid_type
    | Some storage =>
        emit (init_data_call (Z.to_nat size)) ;;;
        ret (PyArray self_tp storage)
    end
  else
    self <- (if is_dynamic
             then emit (init_call (Z.to_nat size)) ;;;
                  ret (PyArray self_tp (replicate (Z.to_nat size) uninitialized))
             else emit nb_inst_zero_call ;;; ret (zero_value self_tp)) ;;
    assign_items sq_item self 0 (Z.to_nat size).

(** [array_init_seq]: [None] is the source's [return false] (not a
    sequence), [Some self] its [return true]. An iterable is first turned
    into a list, which has both sequence slots, so the recursive call of
    the source lands in [array_init_seq_slots] directly. *)
Definition array_init_seq (self_tp : pytype) (s : ArraySupplement)
    (seq : pyobj) : M (option pyobj) :=
  match slots_of seq with
  | NoSlots => ret None
  | IterOnly seq2 =>
      emit PySequence_List_call ;;;
      match seq2 with
      | None => raise E_iterable
      | Some items =>
          self <- array_init_seq_slots self_tp s
                    (Z.of_nat (length items)) (fun i => items !! i) ;;
          ret (Some self)
      end
  | Slots sq_length sq_item =>
      self <- array_init_seq_slots self_tp s sq_length sq_item ;;
      ret (Some self)
  end.

(** ** [tp_init_array] *)

(** Where a single argument is routed before any sequence import or
    broadcast: the three early returns (copy, cast, host import), or the
    fall-through with the value of [try_sequence_import]. *)
Inductive route :=
| Copy
| Cast
| HostImport
| Fallthrough (try_sequence_import : bool).

(** The [while (cur_tp)] loop, started at [cur_tp]: is [arg_tp] one of the
    types reached through [value]. *)
Fixpoint in_value_chain (arg_tp cur_tp : pytype) : bool :=
  pytype_eqb arg_tp cur_tp ||
  match cur_tp with
  | ArrayType _ _ v => in_value_chain arg_tp v
  | _ => false
  end.

Definition single_arg_route (self_tp : pytype) (s : ArraySupplement)
    (value : pytype) (arg_tp : pytype) : route :=
  match arg_tp with
  | ArrayType _ s_arg _ =>
      if pytype_eqb arg_tp self_tp then Copy
      else
        let m_self : ArrayMeta := s in
        let m_arg : ArrayMeta := s_arg in
        if bool_decide (set_type s_arg (type s) = m_self) && has_cast s then Cast
        else if bool_decide (set_backend_vector s BackendInvalid true = m_arg)
                && has_init_data s && has_data s_arg then HostImport
        else if bool_decide (ndim s = 1%nat) && bool_decide (ndim s_arg = 1%nat)
                && bool_decide (shape0 s = DRJIT_DYNAMIC)
                && bool_decide (shape0 s_arg = DRJIT_DYNAMIC)
        then Fallthrough false
        else Fallthrough (negb (in_value_chain arg_tp value))
  | _ => Fallthrough true
  end.

Definition zero : pyobj := PyFloat (S754_zero false).

(** [col[j] = x] on a column obtained from [s.item]. *)
Definition col_setitem (col : pyobj) (j : nat) (x : pyobj) : M pyobj :=
  emit (set_item_call j x) ;;;
  match set_item col j x with
  | Some col' => ret col'
  | None => raise E_python
  end.

(** The inner loop over [j] of the matrix case, on column [i]. *)
Fixpoint fill_column (element : pyobj) (i : nat) (col : pyobj)
    (j n : nat) : M pyobj :=
  match n with
  | O => ret col
  | S n' =>
      col' <- col_setitem col j (if (i =? j)%nat then element else zero) ;;
      fill_column element i col' (S j) n'
  end.

(** The outer loop over [i]; the column is a view into [self], so the
    assignments to it are assignments to entry [i] of [self]. *)
Fixpoint fill_matrix (element : pyobj) (size : nat) (self : pyobj)
    (i n : nat) : M pyobj :=
  match n with
  | O => ret self
  | S n' =>
      emit (item_call i) ;;;
      match item self i, self with
      | Some col, PyArray tp items =>
          col' <- fill_column element i col 0 size ;;
          fill_matrix element size (PyArray tp (<[i:=col']> items)) (S i) n'
      | _, _ => raise E_python
      end
  end.

(** The loop of the plain case. *)
Fixpoint fill_plain (element : pyobj) (self : pyobj) (i n : nat) : M pyobj :=
  match n with
  | O => ret self
  | S n' =>
      self' <- set_item_or_raise self i element ;;
      fill_plain element self' (S i) n'
  end.

(** Lines 146-170: replicate [element] according to the structural kind. *)
Definition fill (s : ArraySupplement) (element : pyobj) (size : nat)
    (self : pyobj) : M pyobj :=
  if is_complex s then
    self <- set_item_or_raise self 0 element ;;
    set_item_or_raise self 1 zero
  else if is_quaternion s then
    self <- set_item_or_raise self 0 zero ;;
    self <- set_item_or_raise self 1 zero ;;
    self <- set_item_or_raise self 2 zero ;;
    set_item_or_raise self 3 element
  else if is_matrix s then
    fill_matrix element size self 0 size
  else
    fill_plain element self 0 size.

(** Lines 101-172, the scalar broadcast. [call_value_type] is the call
    [value_type(arg)], with [value_type] already chosen ([s.value], or for
    a matrix the [value] of that). *)
Definition broadcast (self_tp : pytype) (s : ArraySupplement) (value : pytype)
    (call_value_type : pyobj -> M pyobj) (arg : pyobj)
    (try_sequence_import : bool) : M pyobj :=
  let size := shape0 s in
  raise_if (bool_decide (size = Fixed 0)) (E_wrong_size 0 1) ;;;
  element <- (if pytype_eqb (Py_TYPE arg) value then ret arg
              else
                match call_value_type arg with
                | (l, Ok e) => (l, Ok e)
                | (l, Raise _) => (l, Raise (E_broadcast (negb try_sequence_import)))
                end) ;;
  match size with
  | DRJIT_DYNAMIC =>
      if has_init_const s then
        emit (init_const_call 1 element) ;;;
        ret (PyArray self_tp (replicate 1 element))
      else
        emit (init_call 1) ;;;
        fill s element 1 (PyArray self_tp (replicate 1 uninitialized))
  | Fixed n =>
      emit nb_inst_zero_call ;;;
      fill s element n (zero_value self_tp)
  end.

(** The case of one argument, lines 39-172. *)
Definition init_single (self_tp : pytype) (s : ArraySupplement) (value : pytype)
    (call_value_type : pyobj -> M pyobj) (arg : pyobj) : M pyobj :=
  match single_arg_route self_tp s value (Py_TYPE arg) with
  | Copy => emit nb_inst_copy_call ;;; ret arg
  | Cast =>
      emit cast_call ;;;
      match arg, supp (Py_TYPE arg) with
      | PyArray _ items, Some s_arg =>
          ret (PyArray self_tp (cast (type s_arg) (type s) items))
      | _, _ => raise E_python
      end
  | HostImport =>
      match arg with
      | PyArray _ items =>
          emit (init_data_call (length items)) ;;;
          ret (PyArray self_tp items)
      | _ => raise E_python
      end
  | Fallthrough try_sequence_import =>
      r <- (if try_sequence_import then array_init_seq self_tp s arg
            else ret None) ;;
      match r with
      | Some self => ret self
      | None => broadcast self_tp s value call_value_type arg try_sequence_import
      end
  end.

(** [tp_init_array(self, args, kwds)]: [Ok self] is [return 0] with the
    initialised instance, [Raise e] is [return -1] with the [TypeError]
    whose text is [e]. [kwds] tells whether keyword arguments were
    passed. The call [value_type(arg)] of the broadcast re-enters this
    constructor when [value_type] is a Dr.Jit type and is a host call
    otherwise. *)
Fixpoint tp_init_array (self_tp : pytype) (args : list pyobj) (kwds : bool)
    {struct self_tp} : M pyobj :=
  match self_tp with
  | ArrayType _ s value =>
      raise_if kwds E_kwargs ;;;
      match args with
      | [] => emit nb_inst_zero_call ;;; ret (zero_value self_tp)
      | [arg] =>
          let call tp (rec : pyobj -> M pyobj) (x : pyobj) : M pyobj :=
            emit (value_type_call tp x) ;;;
            if is_drjit_type tp then rec x
            else match host_call tp x with
                 | Some e => ret e
                 | None => raise E_python
                 end in
          let call_value_type :=
            if is_matrix s then
              match value with
              | ArrayType _ _ value2 =>
                  call value2 (fun x => tp_init_array value2 [x] false)
              | _ => fun _ => raise E_python
              end
            else call value (fun x => tp_init_array value [x] false) in
          init_single self_tp s value call_value_type arg
      | _ =>
          r <- array_init_seq self_tp s (PyTuple args) ;;
          match r with
          | Some self => ret self
          | None => raise E_arglist
          end
      end
  | _ => raise E_python
  end.

End Constructors.

(** Induction over types that also descends into the field types of a
    record type. *)
Section pytype_induction.
Variable P : pytype -> Prop.
Hypothesis Hbool : P PyBool_Type.
Hypothesis Hlong : P PyLong_Type.
Hypothesis Hfloat : P PyFloat_Type.
Hypothesis Hnone : P PyNone_Type.
Hypothesis Hstr : P PyStr_Type.
Hypothesis Hlist : P PyList_Type.
Hypothesis Htuple : P PyTuple_Type.
Hypothesis Hgen : P PyGen_Type.
Hypothesis Harray : forall n s v, P v -> P (ArrayType n s v).
Hypothesis Hstruct : forall n fs,
  Forall (fun kv => match snd kv with Some t => P t | None => True end) fs ->
  P (StructType n fs).
Hypothesis Hother : forall n, P (OtherType n).

Fixpoint pytype_rect_nested (t : pytype) : P t :=
  match t with
  | PyBool_Type => Hbool
  | PyLong_Type => Hlong
  | PyFloat_Type => Hfloat
  | PyNone_Type => Hnone
  | PyStr_Type => Hstr
  | PyList_Type => Hlist
  | PyTuple_Type => Htuple
  | PyGen_Type => Hgen
  | ArrayType n s v => Harray n s v (pytype_rect_nested v)
  | StructType n fs =>
      Hstruct n fs
        ((fix go (l : list (string * option pytype)) :
            Forall (fun kv => match snd kv with Some t => P t | None => True end) l :=
            match l with
            | [] => @List.Forall_nil _ _
            | (k, Some u) :: l' => @List.Forall_cons _ _ (k, Some u) l' (pytype_rect_nested u) (go l')
            | (k, None) :: l' => @List.Forall_cons _ _ (k, None) l' I (go l')
            end) fs)
  | OtherType n => Hother n
  end.
End pytype_induction.


(** ** [full] *)

Section Generators.
Context {host : Host}.

(** The Python call [tp(x)] of a type on one argument, and the call
    [value_type(arg)] that the broadcast of [tp_init_array] makes. *)
Definition type_call (tp : pytype) (x : pyobj) : M pyobj :=
  emit (value_type_call tp x) ;;;
  if is_drjit_type tp then tp_init_array tp [x] false
  else match host_call tp x with
       | Some e => ret e
       | None => raise E_python
       end.

Definition call_value_type (s : ArraySupplement) (value : pytype)
    : pyobj -> M pyobj :=
  if is_matrix s then
    match value with
    | ArrayType _ _ value2 => type_call value2
    | _ => fun _ => raise E_python
    end
  else type_call value.

(** The shape that the [size] overload of [full] derives for [dtype]. *)
Definition shape_of_size (dtype : pytype) (size : nat) : list nat :=
  match dtype with
  | ArrayType _ s _ =>
      map (fun i =>
             match nth i (shape s) (Fixed 0) with
             | Fixed k => k
             | DRJIT_DYNAMIC => if (i =? ndim s - 1)%nat then size else 1%nat
             end)
          (seq 0 (ndim s))
  | _ => [size]
  end.

(** [fail]: [s.ndim != ndim], or some fixed extent differs from the
    requested one. *)
Definition shape_mismatch (s : ArraySupplement) (shape' : list nat) : bool :=
  negb (ndim s =? length shape')%nat ||
  existsb (fun i =>
             match nth i (shape s) (Fixed 0) with
             | Fixed k => negb (k =? nth i shape' 0)%nat
             | DRJIT_DYNAMIC => false
             end)
          (seq 0 (length shape')).

(** [nb::cast<int>(value) ? Py_True : Py_False]; the cast to a C [int]
    raises when the integer does not fit. *)
Definition int_to_bool (z : Z) : M pyobj :=
  if ((-2147483648 <=? z) && (z <=? 2147483647))%Z
  then ret (PyBool (negb (z =? 0)%Z))
  else raise E_python.

(** The loop [for (i = 0; i < shape[0]; ++i)] of [full]: [o] is computed
    by [mk] at [i = 0], and again at every [i] when there is no value;
    the status that [set_item] returns is not looked at. *)
Fixpoint full_items (mk : M pyobj) (valid : bool) (result : pyobj)
    (o : pyobj) (i n : nat) : M pyobj :=
  match n with
  | O => ret result
  | S n' =>
      o' <- (if (i =? 0)%nat || negb valid then mk else ret o) ;;
      emit (set_item_call i o') ;;;
      let result' := match set_item result i o' with
                     | Some r => r
                     | None => result
                     end in
      full_items mk valid result' o' (S i) n'
  end.

(** [nb::setattr(result, k, entry)]. *)
Fixpoint set_attr (attrs : list (string * pyobj)) (k : string) (v : pyobj)
    : list (string * pyobj) :=
  match attrs with
  | [] => [(k, v)]
  | (k', v') :: r =>
      if bool_decide (k' = k) then (k, v) :: r else (k', v') :: set_attr r k v
  end.

Definition setattr (o : pyobj) (k : string) (v : pyobj) : pyobj :=
  match o with
  | PyStruct tp attrs => PyStruct tp (set_attr attrs k v)
  | _ => o
  end.

(** [full(dtype, value, ndim, shape)]; [shape'] is the array
    [shape[0..ndim)], [value = None] the invalid handle that [empty]
    passes. *)
Fixpoint full (dtype : pytype) (value : option pyobj) (shape' : list nat)
    {struct dtype} : M pyobj :=
  match dtype with
  | ArrayType _ s v =>
      raise_if (shape_mismatch s shape') E_shape_dtype ;;;
      let n := nth 0 shape' 0%nat in
      match has_init_const s, value with
      | true, Some x =>
          x' <- match type s, x with
                | VtBool, PyLong z => int_to_bool z
                | _, _ => ret x
                end ;;
          emit (init_const_call n x') ;;;
          ret (PyArray dtype (replicate n x'))
      | _, _ =>
          result <- (if bool_decide (shape0 s = DRJIT_DYNAMIC)
                     then emit (init_call n) ;;;
                          ret (PyArray dtype (replicate n uninitialized))
                     else emit nb_inst_zero_call ;;; ret (zero_value dtype)) ;;
          if negb (bool_decide (is_Some value)) && (length shape' =? 1)%nat
          then ret result
          else full_items (full v value (tl shape'))
                 (bool_decide (is_Some value)) result PyNone 0 n
      end
  | PyLong_Type | PyFloat_Type | PyBool_Type =>
      match host_call dtype (default (PyLong 0) value) with
      | Some r => ret r
      | None => raise E_python
      end
  | StructType _ dstruct =>
      (fix fields (kvs : list (string * option pytype)) (result : pyobj)
         : M pyobj :=
         match kvs with
         | [] => ret result
         | (k, None) :: _ => raise E_struct_invalid
         | (k, Some v) :: kvs' =>
             entry <- (if is_drjit_type v && (length shape' =? 1)%nat
                       then full v value (shape_of_size v (nth 0 shape' 0%nat))
                       else full v value shape') ;;
             emit (setattr_call k) ;;;
             fields kvs' (setattr result k entry)
         end) dstruct (PyStruct dtype [])
  | _ => raise E_unsupported_dtype
  end.

(** [full(dtype, value, size)]. *)
Definition full_size (dtype : pytype) (value : option pyobj) (size : nat)
    : M pyobj :=
  full dtype value (shape_of_size dtype size).

(** ** [arange] *)

(** [Py_ssize_t] is a signed 64-bit integer. Overflow of its arithmetic is
    undefined in C++; the model wraps around, and the statements about
    [arange] are made where no intermediate result leaves the range. The
    division by [step = 0] is undefined as well; [arange] ends there. *)
Definition ssize_min : Z := (- 2 ^ 63)%Z.
Definition ssize_max : Z := (2 ^ 63 - 1)%Z.
Definition ssize_wrap (z : Z) : Z := ((z + 2 ^ 63) mod 2 ^ 64 - 2 ^ 63)%Z.
Definition in_ssize (z : Z) : Prop := (ssize_min <= z <= ssize_max)%Z.

(** [(end - start + step - (step > 0 ? 1 : -1)) / step], for [step]
    other than 0; [arange] does not get here with [step = 0]. *)
Definition arange_size (start end_ step : Z) : Z :=
  let a := ssize_wrap (end_ - start) in
  let b := ssize_wrap (a + step) in
  let c := ssize_wrap (b - (if (step >? 0)%Z then 1 else -1)) in
  ssize_wrap (Z.quot c step).

(** Modelled from the spec: [counter_init(count, dst)], the unsigned
    32-bit counter [0, 1, ..., count - 1]. *)
Definition init_counter (tp : pytype) (n : nat) : pyobj :=
  PyArray tp (map (fun i => PyLong (Z.of_nat i)) (seq 0 n)).

(** Modelled from the spec: the fused multiply-add [a * b + c] on arrays,
    lane by lane, an operand of one lane being broadcast. *)
Definition lane (l : list pyobj) (i : nat) : option pyobj :=
  match l with
  | [x] => Some x
  | _ => l !! i
  end.

Definition fma (a b c : pyobj) : option pyobj :=
  match a, b, c with
  | PyArray tp la, PyArray _ lb, PyArray _ lc =>
      match supp tp with
      | Some s =>
          let n := max (length la) (max (length lb) (length lc)) in
          PyArray tp <$>
            mapM (fun i =>
                    x ← lane la i; y ← lane lb i; z ← lane lc i;
                    Some (fma_lane (type s) x y z))
                 (seq 0 n)
      | None => None
      end
  | _, _, _ => None
  end.

Definition arange (dtype : pytype) (start end_ step : Z) : M pyobj :=
  match supp dtype with
  | None => raise E_python
  | Some s =>
      raise_if (negb (bool_decide (ndim s = 1%nat)) ||
                negb (bool_decide (shape0 s = DRJIT_DYNAMIC)))
               E_arange_dtype_shape ;;;
      let vt := type s in
      raise_if (bool_decide (vt = VtBool) || bool_decide (vt = VtPointer))
               E_arange_dtype_arith ;;;
      raise_if (step =? 0)%Z E_undefined_division ;;;
      let size := arange_size start end_ step in
      let counter_tp := meta_get_type (set_type s VtUInt32) in
      match supp counter_tp with
      | None => raise E_python
      | Some counter_s =>
          raise_if (negb (has_init_counter counter_s)) E_arange_dtype ;;;
          if (size =? 0)%Z then tp_init_array dtype [] false
          else if (size <? 0)%Z then raise E_arange_negative
          else
            emit (init_counter_call (Z.to_nat size)) ;;;
            let result := init_counter counter_tp (Z.to_nat size) in
            if (start =? 0)%Z && (step =? 1)%Z then
              tp_init_array dtype [result] false
            else
              a <- tp_init_array dtype [result] false ;;
              b <- tp_init_array dtype [PyLong step] false ;;
              c <- tp_init_array dtype [PyLong start] false ;;
              match fma a b c with
              | Some r => ret r
              | None => raise E_python
              end
      end
  end.

End Generators.

(** ** A reference host *)

(** The range of an integer element kind, as offset and modulus of its
    wrap-around. *)
Definition int_kind (vt : VarType) : option (Z * Z) :=
  match vt with
  | VtInt32 => Some (2 ^ 31, 2 ^ 32)
  | VtUInt32 => Some (0, 2 ^ 32)
  | VtInt64 => Some (2 ^ 63, 2 ^ 64)
  | VtUInt64 => Some (0, 2 ^ 64)
  | _ => None
  end%Z.

Definition wrap_kind (vt : VarType) (z : Z) : Z :=
  match int_kind vt with
  | Some (off, m) => ((z + off) mod m - off)%Z
  | None => z
  end.

Definition fits_kind (vt : VarType) (z : Z) : bool :=
  match int_kind vt with
  | Some (off, m) => ((- off <=? z) && (z <? m - off))%Z
  | None => false
  end.

Definition float_of_Z (z : Z) : spec_float := binary_normalize 53 1024 z 0 false.

(** [float(z)] of Python: the nearest double, and [OverflowError] for an
    integer beyond the range of the doubles. *)
Definition float_of_int (z : Z) : option pyobj :=
  match float_of_Z z with
  | S754_infinity _ | S754_nan => None
  | f => Some (PyFloat f)
  end.

(** A host for the integer and boolean element kinds: host types convert
    booleans and integers ([float] of an integer that is too large
    raises), nanobind accepts an integer that fits, the
    kernels compute modulo the width of the kind, and [meta_get_type]
    finds a type with a counter for every descriptor. *)
Definition reference_host : Host := {|
  host_call tp x :=
    match tp, x with
    | PyBool_Type, PyBool b => Some (PyBool b)
    | PyBool_Type, PyLong z => Some (PyBool (negb (z =? 0)%Z))
    | PyLong_Type, PyBool b => Some (PyLong (if b then 1 else 0))
    | PyLong_Type, PyLong z => Some (PyLong z)
    | PyFloat_Type, PyBool b => Some (PyFloat (float_of_Z (if b then 1 else 0)))
    | PyFloat_Type, PyLong z => float_of_int z
    | PyFloat_Type, PyFloat f => Some (PyFloat f)
    | _, _ => None
    end;
  from_python vt x :=
    match vt, x with
    | VtBool, PyBool b => Some (PyBool b)
    | _, PyLong z => if fits_kind vt z then Some (PyLong z) else None
    | _, _ => None
    end;
  cast_lane src dst x :=
    match x with
    | PyLong z => PyLong (wrap_kind dst z)
    | _ => x
    end;
  fma_lane vt x y z :=
    match x, y, z with
    | PyLong a, PyLong b, PyLong c => PyLong (wrap_kind vt (a * b + c))
    | _, _, _ => PyNone
    end;
  meta_get_type m :=
    ArrayType "counter"
      {| meta := m; has_cast := true; has_data := false; has_init := true;
         has_init_const := true; has_init_data := true;
         has_init_counter := true |}
      PyLong_Type;
  uninitialized := PyNone
|}.

(** ** Notions used in the statements *)

(** A type whose first and only axis is dynamically sized. *)
Definition dynamic_1d (m : ArrayMeta) : Prop :=
  ndim m = 1%nat /\ shape0 m = DRJIT_DYNAMIC.

(** A JIT array type: one with a backend. *)
Definition is_jit (m : ArrayMeta) : Prop := backend m <> BackendNone.

(** The first call that a computation logged. *)
Definition first_call {Ev E A} (c : Run Ev E A) : option Ev := head (log_of c).

(** The descriptor of a plain array type with the given backend, element
    kind and shape, and with no optional primitive but [init]. *)
Definition plain_meta (b : JitBackend) (vt : VarType) (sh : list extent)
    : ArrayMeta :=
  {| backend := b; type := vt; ndim := length sh; is_vector := false;
     is_complex := false; is_quaternion := false; is_matrix := false;
     is_class := false; shape := sh |}.

Definition plain_supp (b : JitBackend) (vt : VarType) (sh : list extent)
    : ArraySupplement :=
  {| meta := plain_meta b vt sh; has_cast := false; has_data := false;
     has_init := true; has_init_const := false; has_init_data := false;
     has_init_counter := false |}.

(** A JIT leaf type: one dynamic axis, with the constant, bulk-import,
    cast and counter primitives. *)
Definition jit_supp (vt : VarType) : ArraySupplement :=
  {| meta := plain_meta (BackendOther 2) vt [DRJIT_DYNAMIC];
     has_cast := true; has_data := false; has_init := true;
     has_init_const := true; has_init_data := true;
     has_init_counter := true |}.

(** Dynamically sized arrays of the scalar backend (no JIT backend, no
    cast primitive): booleans and single-precision floats. *)
Definition scalar_ArrayXb : pytype :=
  ArrayType "drjit.scalar.ArrayXb"
    (plain_supp BackendNone VtBool [DRJIT_DYNAMIC]) PyBool_Type.

Definition scalar_ArrayXf : pytype :=
  ArrayType "drjit.scalar.ArrayXf"
    (plain_supp BackendNone VtFloat32 [DRJIT_DYNAMIC]) PyFloat_Type.

(** The element that the scalar broadcast replicates: the argument
    itself when it already has the value type, and [value_type(arg)]
    otherwise. *)
Definition broadcast_element {host : Host} (s : ArraySupplement)
    (value : pytype) (arg : pyobj) : result error pyobj :=
  if pytype_eqb (Py_TYPE arg) value then Ok arg
  else outcome (call_value_type s value arg).

(** A single argument reaches the scalar broadcast: no early return
    takes it, and the sequence import, where it is tried, reports that
    the argument is not a sequence. *)
Definition reaches_broadcast {host : Host} (self_tp : pytype)
    (s : ArraySupplement) (value : pytype) (arg : pyobj) (t : bool) : Prop :=
  single_arg_route self_tp s value (Py_TYPE arg) = Fallthrough t /\
  (t = true -> outcome (array_init_seq self_tp s arg) = Ok None).

(** A plain array: none of the three structural kinds. *)
Definition plain (m : ArrayMeta) : Prop :=
  is_complex m = false /\ is_quaternion m = false /\ is_matrix m = false.

(** A half-precision JIT leaf type. *)
Definition Float16 : pytype :=
  ArrayType "drjit.llvm.Float16" (jit_supp VtFloat16) PyFloat_Type.

(** A fixed-size array of three host floats. *)
Definition scalar_Array3f : pytype :=
  ArrayType "drjit.scalar.Array3f"
    (plain_supp BackendNone VtFloat32 [Fixed 3]) PyFloat_Type.

(** A two-by-two matrix of host floats and its column type. *)
Definition scalar_Array2f : pytype :=
  ArrayType "drjit.scalar.Array2f"
    (plain_supp BackendNone VtFloat32 [Fixed 2]) PyFloat_Type.

Definition matrix_supp : ArraySupplement :=
  {| meta := {| backend := BackendNone; type := VtFloat32; ndim := 2;
                is_vector := false; is_complex := false;
                is_quaternion := false; is_matrix := true;
                is_class := false; shape := [Fixed 2; Fixed 2] |};
     has_cast := false; has_data := false; has_init := true;
     has_init_const := false; has_init_data := false;
     has_init_counter := false |}.

Definition scalar_Matrix2f : pytype :=
  ArrayType "drjit.scalar.Matrix2f" matrix_supp scalar_Array2f.





(** A JIT leaf of single-precision floats, a three-column array of such
    leaves, and a record with one field of each. *)
Definition Float : pytype :=
  ArrayType "drjit.llvm.Float" (jit_supp VtFloat32) PyFloat_Type.

Definition Array3f : pytype :=
  ArrayType "drjit.llvm.Array3f"
    (plain_supp (BackendOther 2) VtFloat32 [Fixed 3; DRJIT_DYNAMIC]) Float.

Definition Ray : pytype :=
  StructType "Ray" [("o", Some Array3f); ("t", Some Float)].


(** The intermediate results of the size computation of [arange] stay
    within [Py_ssize_t]. *)
Definition arange_in_range (start end_ step : Z) : Prop :=
  let sgn := (if (step >? 0)%Z then 1 else -1)%Z in
  in_ssize start /\ in_ssize end_ /\ in_ssize step /\
  in_ssize (end_ - start) /\ in_ssize (end_ - start + step) /\
  in_ssize (end_ - start + step - sgn) /\
  in_ssize (Z.quot (end_ - start + step - sgn) step).

(** The types on which [arange] is exercised: a JIT leaf of signed 32-bit
    integers, and the counter type that the reference host's registry
    returns for it. *)
Definition Int : pytype :=
  ArrayType "drjit.llvm.Int" (jit_supp VtInt32) PyLong_Type.

Definition UInt : pytype :=
  meta_get_type (Host := reference_host) (set_type (jit_supp VtInt32) VtUInt32).

(** What [arange] needs of its [dtype]: a 1-D dynamically sized JIT leaf
    of an arithmetic kind with the cast and constant primitives, for
    which the registry knows a counter type that differs from [dtype]
    only in its element kind. *)
Definition arange_dtype {host : Host} (dtype : pytype) (s : ArraySupplement)
    (value : pytype) (counter_tp : pytype) : Prop :=
  (exists n, dtype = ArrayType n s value) /\
  dynamic_1d s /\ type s <> VtBool /\ type s <> VtPointer /\
  has_cast s = true /\ has_init_const s = true /\
  counter_tp = meta_get_type (set_type s VtUInt32) /\
  exists cn cs cv, counter_tp = ArrayType cn cs cv /\
                   meta cs = set_type s VtUInt32 /\
                   has_init_counter cs = true.

(** The lanes of a counter converted to [dtype]: copied when [dtype] is
    the counter type itself, cast otherwise. *)
Definition counter_lane {host : Host} (dtype counter_tp : pytype)
    (vt : VarType) (i : nat) : pyobj :=
  if pytype_eqb counter_tp dtype then PyLong (Z.of_nat i)
  else cast_lane VtUInt32 vt (PyLong (Z.of_nat i)).



(** * [switch.cpp] *)

(** ** Objects that cross the call boundary *)

(** Trace handles are the 64-bit indices of variables of the trace
    graph. *)
Abbreviation handle := N.

(** The containers that the traversals descend into: lists, tuples,
    dictionaries (with their keys, in order), nested Dr.Jit arrays and
    records. *)
Inductive container :=
| CList
| CTuple
| CDict (keys : list string)
| CArray (tp : pytype)
| CStruct (tp : pytype) (keys : list string).

(** Arguments and results of the callables, as the traversals see them:
    a JIT array is its type and its trace handle ([s.index]); every other
    leaf is a host object that holds no handle. *)
Inductive pytree :=
| PtNone
| PtBool (b : bool)
| PtLong (z : Z)
| PtOpaque (tp : pytype) (id : N)
| PtVar (tp : pytype) (index : handle)
| PtNode (c : container) (items : list pytree).

Definition pydict := list (string * pytree).

Definition tree_type (o : pytree) : pytype :=
  match o with
  | PtNone => PyNone_Type
  | PtBool _ => PyBool_Type
  | PtLong _ => PyLong_Type
  | PtOpaque tp _ => tp
  | PtVar tp _ => tp
  | PtNode CList _ => PyList_Type
  | PtNode CTuple _ => PyTuple_Type
  | PtNode (CDict _) _ => OtherType "dict"
  | PtNode (CArray tp) _ => tp
  | PtNode (CStruct tp _) _ => tp
  end.

Definition container_eqb (a b : container) : bool :=
  match a, b with
  | CList, CList | CTuple, CTuple => true
  | CDict k1, CDict k2 => bool_decide (k1 = k2)
  | CArray t1, CArray t2 => pytype_eqb t1 t2
  | CStruct t1 k1, CStruct t2 k2 => pytype_eqb t1 t2 && bool_decide (k1 = k2)
  | _, _ => false
  end.

(** A dictionary as a tree, and back. *)
Definition dict_tree (d : pydict) : pytree := PtNode (CDict (map fst d)) (map snd d).

(** [nb::make_tuple(args, kwargs)]. *)
Definition make_tuple (args : list pytree) (kwargs : pydict) : pytree :=
  PtNode CTuple [PtNode CList args; dict_tree kwargs].

(** The two components of such a tuple, as the unpacking operators
    yield them. *)
Definition unpack (t : pytree) : option (list pytree * pydict) :=
  match t with
  | PtNode CTuple [PtNode CList args; PtNode (CDict keys) vals] =>
      if (length keys =? length vals)%nat then Some (args, zip keys vals) else None
  | _ => None
  end.

(** Ordered dictionaries: lookup, [del d[k]], [d[k] = v]. *)
Fixpoint dict_get (d : pydict) (k : string) : option pytree :=
  match d with
  | [] => None
  | (k', v) :: r => if bool_decide (k' = k) then Some v else dict_get r k
  end.

Fixpoint dict_del (d : pydict) (k : string) : pydict :=
  match d with
  | [] => []
  | (k', v) :: r =>
      if bool_decide (k' = k) then dict_del r k else (k', v) :: dict_del r k
  end.

Fixpoint dict_set (d : pydict) (k : string) (v : pytree) : pydict :=
  match d with
  | [] => [(k, v)]
  | (k', v') :: r =>
      if bool_decide (k' = k) then (k, v) :: r else (k', v') :: dict_set r k v
  end.

(** ** Calls and errors of [switch] and [dispatch] *)

Inductive ev :=
| new_State
| delete_State
| ad_var_inc_ref (h : handle)
| ad_var_dec_ref (h : handle)
| check_compatibility_call
| callable_call (which : Z) (args : list pytree) (kwargs : pydict).

Inductive sw_error :=
| E_mask_scalar      (* the provided 'mask' argument must be scalar if
                        'index' is scalar *)
| E_index_drjit      (* the 'index' argument must be a Dr.Jit array *)
| E_index_kind       (* the 'index' argument must be a Jit-compiled 1D
                        32-bit unsigned integer array *)
| E_instances        (* 'instances' parameter must be an instance array. *)
| E_domain           (* The instance array type lacks the 'Domain' name
                        attribute. *)
| E_incompatible     (* raised by check_compatibility *)
| E_indices          (* raised by update_indices *)
| E_backend          (* a failure inside the call-recording primitive *)
| E_exception (id : nat)   (* a Python exception raised by host code *)
| E_undefined_read.  (* no exception: the behaviour of the C++ code is
                        undefined from here on (an object that is no array
                        instance is read as one) *)

Abbreviation T := (Run ev sw_error).

(** A Python callable: what it returns or raises for the positional and
    keyword arguments it is given. *)
Definition callable := list pytree -> pydict -> result sw_error pytree.

(** What lies outside [switch.cpp] and is not fixed by it: the trace
    handle ([s.index]) of a JIT array that a constructor built with the
    given lanes, the identity of a host object, the sum [index_ + 1], and
    the [Domain] attribute of a type. *)
Class Tracer := {
  var_index : pytype -> list pyobj -> handle;
  object_id : pyobj -> N;
  index_plus_one : pytree -> option pytree;
  Domain : pytype -> option string
}.

(** ** Flattening and rebuilding *)

(** Modelled from the spec: "collect" (value to Index Vector), declared in
    [misc.h], which is not among the sources. The flattened leaf trace
    handles, in traversal order. *)
Fixpoint leaves (t : pytree) : list handle :=
  match t with
  | PtVar _ h => [h]
  | PtNode _ items => flat_map leaves items
  | _ => []
  end.

(** Modelled from the spec: "acquire references when collecting". One
    reference is taken per handle that is appended to the vector. *)
Definition collect_indices (t : pytree) (v : list handle) : T (list handle) :=
  (map ad_var_inc_ref (leaves t), Ok (v ++ leaves t)).

(** Modelled from the spec: "update" (Index Vector to value): the same
    structure, with the leaf handles taken from the vector in order.
    [None] when the vector runs out. *)
Fixpoint update (t : pytree) (v : list handle) : option (pytree * list handle) :=
  match t with
  | PtVar tp _ =>
      match v with
      | h :: v' => Some (PtVar tp h, v')
      | [] => None
      end
  | PtNode c items =>
      match
        (fix go (l : list pytree) (v : list handle)
           : option (list pytree * list handle) :=
           match l with
           | [] => Some ([], v)
           | x :: l' =>
               match update x v with
               | Some (x', v') =>
                   match go l' v' with
                   | Some (l'', v'') => Some (x' :: l'', v'')
                   | None => None
                   end
               | None => None
               end
           end) items v
      with
      | Some (items', v') => Some (PtNode c items', v')
      | None => None
      end
  | _ => Some (t, v)
  end.

(** [update_indices(h, indices)]; it raises unless the vector holds
    exactly one handle per leaf. *)
Definition update_indices (t : pytree) (v : list handle) : result sw_error pytree :=
  match update t v with
  | Some (t', []) => Ok t'
  | _ => Raise E_indices
  end.

(** Modelled from the spec: the structural compatibility of two results,
    "same composite shape/type". *)
Fixpoint compatible (a b : pytree) : bool :=
  match a, b with
  | PtNone, PtNone => true
  | PtBool _, PtBool _ => true
  | PtLong _, PtLong _ => true
  | PtOpaque t1 _, PtOpaque t2 _ => pytype_eqb t1 t2
  | PtVar t1 _, PtVar t2 _ => pytype_eqb t1 t2
  | PtNode c1 l1, PtNode c2 l2 =>
      container_eqb c1 c2 &&
      (fix go (x y : list pytree) : bool :=
         match x, y with
         | [], [] => true
         | a' :: x', b' :: y' => compatible a' b' && go x' y'
         | _, _ => false
         end) l1 l2
  | _, _ => false
  end.

(** [check_compatibility(result, rv_o)]: a mismatch is an exception. *)
Definition check_compatibility (a b : pytree) : T unit :=
  emit check_compatibility_call ;;;
  raise_if (negb (compatible a b)) E_incompatible.

(** ** [extract_mask] *)

Section CallAggregator.
Context {host : Host} {tracer : Tracer}.

Definition mask_key : string := "active".

(** An object that a constructor of [init.cpp] or a host type returned,
    as the traversals see it: a JIT array with one axis is a leaf with
    its trace handle, every other array, list, tuple and record is
    traversed, and what remains is a host object. *)
Fixpoint tree_of (o : pyobj) : pytree :=
  match o with
  | PyNone => PtNone
  | PyBool b => PtBool b
  | PyLong z => PtLong z
  | PyList items => PtNode CList (map tree_of items)
  | PyTuple items => PtNode CTuple (map tree_of items)
  | PyArray tp items =>
      match tp with
      | ArrayType _ s _ =>
          if negb (bool_decide (backend s = BackendNone)) &&
             bool_decide (ndim s = 1%nat)
          then PtVar tp (var_index tp items)
          else PtNode (CArray tp) (map tree_of items)
      | _ => PtOpaque tp (object_id o)
      end
  | PyStruct tp attrs =>
      PtNode (CStruct tp (map fst attrs)) (map (fun kv => tree_of (snd kv)) attrs)
  | _ => PtOpaque (Py_TYPE o) (object_id o)
  end.

(** [tp(true)]: [bool(True)] is [True]; every other type is called on
    [True], which for a Dr.Jit array type enters the constructor
    [tp_init_array] and for any other type is a host call, and may
    raise. *)
Definition call_type_true (tp : pytype) : result sw_error pytree :=
  match tp with
  | PyBool_Type => Ok (PtBool true)
  | _ =>
      match outcome (type_call tp (PyBool true)) with
      | Ok o => Ok (tree_of o)
      | Raise _ => Raise (E_exception 0)
      end
  end.

(** The test on the type of the last positional argument. *)
Definition is_mask_type (last_tp : pytype) : bool :=
  match last_tp with
  | ArrayType _ s _ =>
      negb (bool_decide (backend s = BackendNone)) &&
      bool_decide (ndim s = 1%nat) && bool_decide (type s = VtBool)
  | PyBool_Type => true
  | _ => false
  end.

(** [extract_mask(args, kwargs)]: the mask (or none), and [args] and
    [kwargs] as the function leaves them. *)
Definition extract_mask (args : list pytree) (kwargs : pydict)
    : result sw_error (option pytree * list pytree * pydict) :=
  let argc := length args in
  match dict_get kwargs mask_key with
  | Some mask =>
      match call_type_true (tree_type mask) with
      | Ok v => Ok (Some mask, args, dict_set (dict_del kwargs mask_key) mask_key v)
      | Raise e => Raise e
      end
  | None =>
      match last args with
      | Some last_arg =>
          if is_mask_type (tree_type last_arg) then
            match call_type_true (tree_type last_arg) with
            | Ok v => Ok (Some last_arg, removelast args ++ [v], kwargs)
            | Raise e => Raise e
            end
          else Ok (None, args, kwargs)
      | None => Ok (None, args, kwargs)
      end
  end.

(** [mask.is_valid() ? ((uint32_t) s.index(inst_ptr(mask))) : 0u], an
    argument of [ad_call]: the mask is read as an array instance, through
    the [index] slot of the supplement of the selector. For a JIT array
    that is its trace handle, cut to 32 bits; for any other object (a
    Python boolean that was the last positional argument, or whatever
    was passed as [active]) the read is undefined ([None]). *)
Definition mask_index (mask : option pytree) : option handle :=
  match mask with
  | None => Some 0%N
  | Some (PtVar _ h) => Some (h mod 2 ^ 32)%N
  | Some _ => None
  end.

(** ** The call-recording primitive *)

(** Modelled from the spec: [ad_call], the backend call-recording
    primitive, which is declared outside the sources. One run of it is
    described by what the backend decides: the targets it visits, in its
    order, each with the lane-narrowed argument vector it hands to the
    callback; whether it fails after the callbacks; what it has written
    to the output vector when it returns or throws; and the flag it
    returns. An exception of the callback leaves the primitive as an
    exception. When it returns [false], the backend runs the cleanup
    callback later, once, when the recorded call is finalised. *)
Record ad_call_run := {
  groups : list (N * list handle);
  fails : bool;
  rv : list handle;
  done : bool
}.

Section Shared.
Context {S : Type}.
Variable func : S -> N -> list handle -> list handle -> T (S * list handle).
Variable get_rv_o : S -> option pytree.
Variable get_args_o : S -> pytree.

(** The callback is entered once per visited target, with an empty
    result vector of the primitive's own. *)
Fixpoint run_groups (state : S) (gs : list (N * list handle)) : T S :=
  match gs with
  | [] => ret state
  | (self, args_i) :: gs' =>
      r <- func state self args_i [] ;;
      run_groups (fst r) gs'
  end.

Definition ad_call (b : ad_call_run) (state : S) : T (S * bool) :=
  state' <- run_groups state (groups b) ;;
  raise_if (fails b) E_backend ;;;
  ret (state', done b).

(** How an invocation ends: what it returns or raises, and whether the
    Call State is still in the hands of the backend, whose cleanup
    callback is yet to run. *)
Record exit := {
  returned : result sw_error pytree;
  deferred : bool
}.

(** [~dr_index_vector()]. *)
Definition dr_index_vector_dtor (v : list handle) : list ev :=
  map ad_var_dec_ref v.

(** [update_indices(state->rv_o, rv_i)]. Modelled from the spec: when no
    callable ran there is no recorded result, and the call "yields an
    empty/default result". *)
Definition final_result (rv_o : option pytree) (rv_i : list handle)
    : result sw_error pytree :=
  match rv_o with
  | Some t => update_indices t rv_i
  | None => Ok PtNone
  end.

(** The common tail of [switch_impl] and [dispatch_impl], from
    [new State] to [return result]. [args_i] is a plain vector; [rv_i]
    is a [dr_index_vector], destroyed when the block is left, by
    [return] or by an exception. *)
Definition record_call (b : ad_call_run) (state : S) : list ev * exit :=
  let '(l1, _) := collect_indices (get_args_o state) [] in
  let '(l2, r) := ad_call b state in
  let rv_i := rv b in
  match r with
  | Raise e =>
      ([new_State] ++ l1 ++ l2 ++ dr_index_vector_dtor rv_i,
       {| returned := Raise e; deferred := false |})
  | Ok (state', done) =>
      match final_result (get_rv_o state') rv_i with
      | Raise e =>
          ([new_State] ++ l1 ++ l2 ++ dr_index_vector_dtor rv_i,
           {| returned := Raise e; deferred := negb done |})
      | Ok result =>
          ([new_State] ++ l1 ++ l2 ++
           (if done then [delete_State] else []) ++
           dr_index_vector_dtor rv_i,
           {| returned := Ok result; deferred := negb done |})
      end
  end.

(** The same with the mask that [extract_mask] found. The arguments of
    [ad_call] are evaluated once the Call State exists and the arguments
    are flattened; where the read of the mask is undefined, the model
    ends the invocation there, with nothing destroyed or released. *)
Definition record_call_masked (mask : option pytree) (b : ad_call_run)
    (state : S) : list ev * exit :=
  match mask_index mask with
  | Some _ => record_call b state
  | None =>
      let '(l1, _) := collect_indices (get_args_o state) [] in
      ([new_State] ++ l1,
       {| returned := Raise E_undefined_read; deferred := false |})
  end.

End Shared.

(** The events of an invocation up to the finalisation of the recorded
    call: those of the call itself, then the deferred cleanup if the
    backend owes it. *)
Definition lifetime (r : list ev * exit) : list ev :=
  fst r ++ (if deferred (snd r) then [delete_State] else []).

(** An exit that never reached [new State]. *)
Definition early (l : list ev) (r : result sw_error pytree) : list ev * exit :=
  (l, {| returned := r; deferred := false |}).

(** ** [switch_impl] *)

Record State := {
  args_o : pytree;
  callables_o : list callable;
  rv_o : option pytree
}.

(** [callables[i]] for a Python integer: negative indices count from the
    end. *)
Definition getitem {A} (l : list A) (i : Z) : option A :=
  if (0 <=? i)%Z then l !! Z.to_nat i
  else if (- Z.of_nat (length l) <=? i)%Z
       then l !! Z.to_nat (Z.of_nat (length l) + i)
       else None.

(** The call of [f] on the unpacked tuple: positional arguments from
    [t[0]], keyword arguments from [t[1]]. *)
Definition call_unpacked (which : Z) (f : callable) (t : pytree) : T pytree :=
  match unpack t with
  | Some (args, kwargs) =>
      (emit (callable_call which args kwargs) ;;; ([], f args kwargs))%run
  | None => raise (E_exception 0)
  end.

(** The per-group callback [func] of [switch_impl]. *)
Definition switch_func (state : State) (self : N) (args_i rv_i : list handle)
    : T (State * list handle) :=
  a <- ([], update_indices (args_o state) args_i) ;;
  let state := {| args_o := a; callables_o := callables_o state;
                  rv_o := rv_o state |} in
  let index := self in
  match callables_o state !! N.to_nat index with
  | None => raise (E_exception 0)
  | Some f =>
      result <- call_unpacked (Z.of_N index) f (args_o state) ;;
      match rv_o state with
      | Some prev => check_compatibility result prev
      | None => ret tt
      end ;;;
      let state := {| args_o := args_o state; callables_o := callables_o state;
                      rv_o := Some result |} in
      rv_i' <- collect_indices result rv_i ;;
      ret (state, rv_i')
  end.

(** [nb::try_cast<bool>]. *)
Definition try_cast_bool (o : pytree) : option bool :=
  match o with PtBool b => Some b | _ => None end.

(** The general path of [switch_impl], from the shift of the index on;
    [b] is what the backend does once the call reaches [ad_call]. The
    trace handles of the index and of the mask go to the primitive; that
    of the index is read from an array that passed the tests. *)
Definition switch_traced (b : ad_call_run) (index_ : pytree)
    (mask : option pytree)
    (callables : list callable) (args : list pytree) (kwargs : pydict)
    : list ev * exit :=
  match index_plus_one index_ with
  | None => early [] (Raise (E_exception 0))
  | Some index =>
      match supp (tree_type index) with
      | None => early [] (Raise E_index_drjit)
      | Some s =>
          if bool_decide (backend s = BackendNone) ||
             negb (bool_decide (type s = VtUInt32)) ||
             negb (bool_decide (ndim s = 1%nat))
          then early [] (Raise E_index_kind)
          else
            record_call_masked switch_func rv_o args_o mask b
              {| args_o := make_tuple args kwargs;
                 callables_o := callables;
                 rv_o := None |}
      end
  end.

(** [switch_impl(index_, callables, args_, kwargs)]. *)
Definition switch_impl (b : ad_call_run) (index_ : pytree)
    (callables : list callable) (args_ : list pytree) (kwargs : pydict)
    : list ev * exit :=
  match extract_mask args_ kwargs with
  | Raise e => early [] (Raise e)
  | Ok (mask, args, kwargs) =>
      match index_ with
      | PtLong i =>
          match mask, (mask ≫= try_cast_bool) with
          | Some _, None => early [] (Raise E_mask_scalar)
          | Some _, Some false => early [] (Ok PtNone)
          | _, _ =>
              match getitem callables i with
              | None => early [] (Raise (E_exception 0))
              | Some f =>
                  early [callable_call i args kwargs] (f args kwargs)
              end
          end
      | _ => switch_traced b index_ mask callables args kwargs
      end
  end.

(** ** [dispatch_impl] *)

Record DispatchState := {
  d_type : pytype;
  d_args_o : pytree;
  callable_o : callable;
  d_rv_o : option pytree
}.

(** The per-group callback of [dispatch_impl]: [self] is wrapped as an
    instance of [state.type] and passed first. *)
Definition dispatch_func (state : DispatchState) (self : N)
    (args_i rv_i : list handle) : T (DispatchState * list handle) :=
  a <- ([], update_indices (d_args_o state) args_i) ;;
  let state := {| d_type := d_type state; d_args_o := a;
                  callable_o := callable_o state; d_rv_o := d_rv_o state |} in
  let self_o := PtOpaque (d_type state) self in
  result <- call_unpacked (Z.of_N self)
              (fun args kwargs => callable_o state (self_o :: args) kwargs)
              (d_args_o state) ;;
  match d_rv_o state with
  | Some prev => check_compatibility result prev
  | None => ret tt
  end ;;;
  let state := {| d_type := d_type state; d_args_o := d_args_o state;
                  callable_o := callable_o state; d_rv_o := Some result |} in
  rv_i' <- collect_indices result rv_i ;;
  ret (state, rv_i').

Definition dispatch_impl (b : ad_call_run) (instances : pytree)
    (f : callable) (args_ : list pytree) (kwargs : pydict)
    : list ev * exit :=
  match tree_type instances with
  | ArrayType _ s value =>
      if negb (is_class s) || negb (bool_decide (ndim s = 1%nat))
      then early [] (Raise E_instances)
      else
        match Domain (tree_type instances) with
        | None => early [] (Raise E_domain)
        | Some domain_name =>
            match extract_mask args_ kwargs with
            | Raise e => early [] (Raise e)
            | Ok (mask, args, kwargs) =>
                record_call_masked dispatch_func d_rv_o d_args_o mask b
                  {| d_type := value;
                     d_args_o := make_tuple args kwargs;
                     callable_o := f;
                     d_rv_o := None |}
            end
        end
  | _ => early [] (Raise (E_exception 0))
  end.

End CallAggregator.

(** ** Notions used in the statements *)

(** How often an event of one kind occurs in a log. *)
Fixpoint count (p : ev -> bool) (l : list ev) : nat :=
  match l with
  | [] => 0
  | e :: l' => (if p e then 1 else 0) + count p l'
  end.

Definition is_new_State (e : ev) : bool :=
  match e with new_State => true | _ => false end.
Definition is_delete_State (e : ev) : bool :=
  match e with delete_State => true | _ => false end.
Definition is_callable_call (e : ev) : bool :=
  match e with callable_call _ _ _ => true | _ => false end.
Definition is_check (e : ev) : bool :=
  match e with check_compatibility_call => true | _ => false end.

(** The handles that a log releases, in order. *)
Fixpoint released (l : list ev) : list handle :=
  match l with
  | [] => []
  | ad_var_dec_ref h :: l' => h :: released l'
  | _ :: l' => released l'
  end.

(** The handles that a log acquires, in order. *)
Fixpoint acquired (l : list ev) : list handle :=
  match l with
  | [] => []
  | ad_var_inc_ref h :: l' => h :: acquired l'
  | _ :: l' => acquired l'
  end.

(** A log in which no Call State is created or destroyed and no
    reference is released. *)
Definition quiet (l : list ev) : Prop :=
  count is_new_State l = 0%nat /\ count is_delete_State l = 0%nat /\
  released l = [].



(** The result of one group, taken by itself: the callable that [self]
    selects, applied to the captured arguments with the handles of the
    group's argument vector. *)
Definition group_result (args0 : pytree) (lookup : N -> option callable)
    (g : N * list handle) : result sw_error pytree :=
  match update_indices args0 (snd g) with
  | Raise e => Raise e
  | Ok a =>
      match lookup (fst g) with
      | None => Raise (E_exception 0)
      | Some f =>
          match unpack a with
          | Some (args, kwargs) => f args kwargs
          | None => Raise (E_exception 0)
          end
      end
  end.

(** ** A reference tracer and example values *)

(** JIT leaves of booleans, floats and unsigned integers, and an
    instance array. *)
Definition Bool_tp : pytype :=
  ArrayType "drjit.llvm.Bool" (jit_supp VtBool) PyBool_Type.
Definition Float_tp : pytype :=
  ArrayType "drjit.llvm.Float" (jit_supp VtFloat32) PyFloat_Type.
Definition UInt_tp : pytype :=
  ArrayType "drjit.llvm.UInt" (jit_supp VtUInt32) PyLong_Type.
Definition BasePtr_tp : pytype :=
  ArrayType "BasePtr"
    {| meta := {| backend := BackendOther 2; type := VtUInt32; ndim := 1;
                  is_vector := false; is_complex := false;
                  is_quaternion := false; is_matrix := false;
                  is_class := true; shape := [DRJIT_DYNAMIC] |};
       has_cast := false; has_data := false; has_init := true;
       has_init_const := true; has_init_data := false;
       has_init_counter := false |}
    (OtherType "Base").

(** A tracer in which every JIT array that a constructor builds is the
    variable 1, the sum [index_ + 1] of a JIT array is a fresh variable
    of the same type, and instance arrays declare the domain "Base". *)
Definition reference_tracer : Tracer := {|
  var_index _ _ := 1%N;
  object_id _ := 0%N;
  index_plus_one o :=
    match o with
    | PtVar tp h => Some (PtVar tp (h + 1000))
    | PtBool b => Some (PtLong (if b then 2 else 1))
    | _ => None
    end;
  Domain tp :=
    match tp with
    | ArrayType _ s _ => if is_class s then Some "Base" else None
    | _ => None
    end
|}.

(** Callables: one that returns its first argument, one that raises, and
    two that return a pair of their first argument and a host integer. *)
Definition f_id : callable :=
  fun args _ => match args with x :: _ => Ok x | [] => Ok PtNone end.
Definition f_raise : callable := fun _ _ => Raise (E_exception 1).
Definition f_tag (z : Z) : callable :=
  fun args _ =>
    match args with
    | x :: _ => Ok (PtNode CTuple [x; PtLong z])
    | [] => Ok (PtLong z)
    end.

(** Induction over trees that also descends into the items of a node. *)
Section pytree_induction.
Variable P : pytree -> Prop.
Hypothesis Hnone : P PtNone.
Hypothesis Hbool : forall b, P (PtBool b).
Hypothesis Hlong : forall z, P (PtLong z).
Hypothesis Hopaque : forall tp id, P (PtOpaque tp id).
Hypothesis Hvar : forall tp h, P (PtVar tp h).
Hypothesis Hnode : forall c items, Forall P items -> P (PtNode c items).

Fixpoint pytree_rect_nested (t : pytree) : P t :=
  match t with
  | PtNone => Hnone
  | PtBool b => Hbool b
  | PtLong z => Hlong z
  | PtOpaque tp id => Hopaque tp id
  | PtVar tp h => Hvar tp h
  | PtNode c items =>
      Hnode c items
        ((fix go (l : list pytree) : Forall P l :=
            match l with
            | [] => @List.Forall_nil _ _
            | x :: l' => @List.Forall_cons _ _ x l' (pytree_rect_nested x) (go l')
            end) items)
  end.
End pytree_induction.

(** The items of a node rebuilt from a vector: the local loop of
    [update], by name. *)
Fixpoint update_items (l : list pytree) (v : list handle)
    : option (list pytree * list handle) :=
  match l with
  | [] => Some ([], v)
  | x :: l' =>
      match update x v with
      | Some (x', v') =>
          match update_items l' v' with
          | Some (l'', v'') => Some (x' :: l'', v'')
          | None => None
          end
      | None => None
      end
  end.

(** The recorded result after the callbacks of the groups [gs], taken as
    a fold over the results of the groups: each result after the first
    must be compatible with the one before it. *)
Fixpoint chain (args0 : pytree) (lookup : N -> option callable)
    (prev : option pytree) (gs : list (N * list handle))
    : result sw_error (option pytree) :=
  match gs with
  | [] => Ok prev
  | g :: gs' =>
      match group_result args0 lookup g with
      | Raise e => Raise e
      | Ok r =>
          if match prev with Some p => compatible r p | None => true end
          then chain args0 lookup (Some r) gs'
          else Raise E_incompatible
      end
  end.

(** What the callback of [switch] selects for a group, and what the
    callback of [dispatch] calls for it. *)
Definition switch_lookup (callables : list callable) (self : N) : option callable :=
  callables !! N.to_nat self.

Definition dispatch_lookup (value : pytype) (f : callable) (self : N)
    : option callable :=
  Some (fun args kwargs => f (PtOpaque value self :: args) kwargs).

(** What an invocation returns once the Call State exists, in terms of
    the results of the groups. *)
Definition merged (args0 : pytree) (lookup : N -> option callable)
    (b : ad_call_run) : result sw_error pytree :=
  match chain args0 lookup None (groups b) with
  | Raise e => Raise e
  | Ok q => if fails b then Raise E_backend else final_result q (rv b)
  end.

(** * Further entry points of [init.cpp] *)

(** ** The bindings of [export_init] *)

Section Bindings.
Context {host : Host}.

(** [empty], [zeros] and [ones] with a [size]: [full] with the invalid
    handle, with the integer 0 and with the integer 1. *)
Definition empty (dtype : pytype) (size : nat) : M pyobj :=
  full_size dtype None size.

Definition zeros (dtype : pytype) (size : nat) : M pyobj :=
  full_size dtype (Some (PyLong 0)) size.

Definition ones (dtype : pytype) (size : nat) : M pyobj :=
  full_size dtype (Some (PyLong 1)) size.

(** The overload [arange(dtype, size)]. *)
Definition arange_upto (dtype : pytype) (size : Z) : M pyobj :=
  arange dtype 0 size 1.

End Bindings.

(** ** [linspace] *)

(** The exceptions of [linspace], and those of the constructor calls and
    of [fma] that it makes. *)
Inductive linspace_error :=
| E_linspace_dtype_shape  (* drjit.linspace(): unsupported dtype -- must be a
                             dynamically sized 1D array. *)
| E_linspace_dtype_float  (* drjit.linspace(): unsupported dtype -- must be an
                             floating point type. *)
| E_linspace_dtype        (* drjit.linspace(): unsupported dtype. *)
| E_linspace_call (e : error).

Definition lift_call {A} (c : M A) : Run call linspace_error A :=
  match c with
  | (l, Ok a) => (l, Ok a)
  | (l, Raise e) => (l, Raise (E_linspace_call e))
  end.

(** [(stop - start) / (size - ((endpoint && size > 0) ? 1 : 0))] in
    double precision; the divisor is a [size_t] that is converted to
    [double]. *)
Definition linspace_step (start stop : spec_float) (size : nat)
    (endpoint : bool) : spec_float :=
  SFdiv 53 1024 (SFsub 53 1024 stop start)
    (float_of_Z (Z.of_nat size - (if endpoint && (0 <? size)%nat then 1 else 0))).

Section Linspace.
Context {host : Host}.

(** [linspace(dtype, start, stop, size, endpoint)]. The three constructor
    calls that are the arguments of [fma] are taken from left to right. *)
Definition linspace (dtype : pytype) (start stop : spec_float) (size : nat)
    (endpoint : bool) : Run call linspace_error pyobj :=
  match supp dtype with
  | None => raise (E_linspace_call E_python)
  | Some s =>
      raise_if (negb (bool_decide (ndim s = 1%nat)) ||
                negb (bool_decide (shape0 s = DRJIT_DYNAMIC)))
               E_linspace_dtype_shape ;;;
      let vt := type s in
      raise_if (negb (bool_decide (vt = VtFloat16)) &&
                negb (bool_decide (vt = VtFloat32)) &&
                negb (bool_decide (vt = VtFloat64)))
               E_linspace_dtype_float ;;;
      let counter_tp := meta_get_type (set_type s VtUInt32) in
      match supp counter_tp with
      | None => raise (E_linspace_call E_python)
      | Some counter_s =>
          raise_if (negb (has_init_counter counter_s)) E_linspace_dtype ;;;
          if (size =? 0)%nat then lift_call (tp_init_array dtype [] false)
          else
            emit (init_counter_call size) ;;;
            let result := init_counter counter_tp size in
            let step := linspace_step start stop size endpoint in
            a <- lift_call (tp_init_array dtype [result] false) ;;
            b <- lift_call (tp_init_array dtype [PyFloat step] false) ;;
            c <- lift_call (tp_init_array dtype [PyFloat start] false) ;;
            match fma a b c with
            | Some r => ret r
            | None => raise (E_linspace_call E_python)
            end
      end
  end.

End Linspace.

(** ** [tp_init_tensor] *)

(** A tensor instance: its shape vector ([s.tensor_shape], of [size_t])
    and its flat storage ([s.tensor_array]). *)
Record tensor := {
  tensor_shape : list Z;
  tensor_array : pyobj
}.

(** What the constructor reads of the supplement of a tensor type: the
    element kind and the type of the storage array. *)
Record TensorSupplement := {
  tensor_type : VarType;
  array_tp : pytype
}.

(** The [array] argument: an instance of the tensor type under
    construction, or any other object. *)
Inductive tensor_arg :=
| SameTensor (t : tensor)
| Object (o : pyobj).

Inductive tensor_error :=
| E_tensor_arguments    (* Invalid tensor constructor arguments. *)
| E_tensor_no_array     (* Input array must be specified. *)
| E_tensor_shape_tuple  (* Invalid shape tuple. *)
| E_tensor_storage      (* Tensor storage initialization failed. *)
| E_tensor_entries (got expected : Z)
                        (* Input array has the wrong number of entries (got
                           %zu, expected %zu). *)
| E_tensor_ravel.       (* an exception of [ravel] *)

Definition size_t_max : Z := (2 ^ 64 - 1)%Z.

(** [PyLong_AsSize_t]: the value of an integer object that fits
    [size_t], and [(size_t) -1] with an exception set for every other
    object. A Python boolean is an integer object. *)
Definition PyLong_AsSize_t (o : pyobj) : Z :=
  match o with
  | PyLong z => if ((0 <=? z) && (z <=? size_t_max))%Z then z else size_t_max
  | PyBool b => if b then 1%Z else 0%Z
  | _ => size_t_max
  end.

(** The loop over the shape tuple: it stops with "Invalid shape tuple."
    at the first entry for which [PyLong_AsSize_t] returns
    [(size_t) -1]. *)
Fixpoint shape_of_tuple (shape : list pyobj) : option (list Z) :=
  match shape with
  | [] => Some []
  | o :: shape' =>
      let rv := PyLong_AsSize_t o in
      if (rv =? size_t_max)%Z then None
      else match shape_of_tuple shape' with
           | Some v => Some (rv :: v)
           | None => None
           end
  end.

(** [size_exp]: the product of the shape, in [size_t]. *)
Definition size_exp (shape_vec : list Z) : Z :=
  fold_left (fun acc k => ((acc * k) mod 2 ^ 64)%Z) shape_vec 1%Z.

(** [nb::len] of a Dr.Jit array. *)
Definition len (o : pyobj) : Z :=
  match o with
  | PyArray _ items => Z.of_nat (length items)
  | _ => 0%Z
  end.

Section Tensors.
Context {host : Host}.

(** [ravel(array, 'C', &shape_vec, nullptr, &vt)], which is declared
    outside the sources: the flattened array and the shape it inferred,
    or an exception. *)
Variable ravel : pyobj -> VarType -> option (pyobj * list Z).

(** [tp_init_tensor(self, args, kwds)]. [parsed] is what
    [PyArg_ParseTupleAndKeywords] made of the arguments: nothing when it
    failed, and otherwise the optional [array] and the items of the
    optional [shape] tuple. *)
Definition tp_init_tensor (s : TensorSupplement)
    (parsed : option (option tensor_arg * option (list pyobj)))
    : Run call tensor_error tensor :=
  match parsed with
  | None => raise E_tensor_arguments
  | Some (None, None) =>
      emit nb_inst_zero_call ;;;
      ret {| tensor_shape := [0%Z]; tensor_array := zero_value (array_tp s) |}
  | Some (None, Some _) => raise E_tensor_no_array
  | Some (Some (SameTensor t), _) =>
      emit nb_inst_copy_call ;;; ret t
  | Some (Some (Object array), shape) =>
      emit nb_inst_zero_call ;;;
      p <- match shape with
           | None =>
               match ravel array (tensor_type s) with
               | Some (flat, shape_vec) => ret (flat, shape_vec)
               | None => raise E_tensor_ravel
               end
           | Some items =>
               match shape_of_tuple items with
               | Some shape_vec => ret (array, shape_vec)
               | None => raise E_tensor_shape_tuple
               end
           end ;;
      let '(arg, shape_vec) := p in
      self_array <- match tp_init_array (array_tp s) [arg] false with
                    | (l, Ok a) => (l, Ok a)
                    | (l, Raise _) => (l, Raise E_tensor_storage)
                    end ;;
      let size := len self_array in
      raise_if (negb (size =? size_exp shape_vec)%Z)
               (E_tensor_entries size (size_exp shape_vec)) ;;;
      ret {| tensor_shape := shape_vec; tensor_array := self_array |}
  end.

End Tensors.

(** ** Notions used in the further statements *)

(** A floating-point value that is a number: neither infinite nor NaN. *)
Definition is_number (x : spec_float) : bool :=
  match x with
  | S754_zero _ | S754_finite _ _ _ => true
  | _ => false
  end.

(** The entries of a tensor are as many as its shape says, in
    [size_t]. *)
Definition tensor_consistent (t : tensor) : Prop :=
  len (tensor_array t) = size_exp (tensor_shape t).

(** Array and record types whose descriptors agree with those of their
    components: the [value] of a nested array type has one axis less and
    the remaining extents, and a type that is neither an array nor a
    record ends the chain. *)
Inductive coherent : pytype -> Prop :=
| coherent_nested (n : string) (s : ArraySupplement)
      (n' : string) (s' : ArraySupplement) (v' : pytype) :
    ndim s = S (ndim s') -> shape s' = tl (shape s) ->
    coherent (ArrayType n' s' v') ->
    coherent (ArrayType n s (ArrayType n' s' v'))
| coherent_leaf (n : string) (s : ArraySupplement) (v : pytype) :
    is_drjit_type v = false -> (forall m fs, v <> StructType m fs) ->
    coherent (ArrayType n s v)
| coherent_struct (n : string) (fs : list (string * option pytype)) :
    (forall k t, In (k, Some t) fs -> coherent t) ->
    coherent (StructType n fs)
| coherent_host (tp : pytype) :
    is_drjit_type tp = false -> (forall m fs, tp <> StructType m fs) ->
    coherent tp.

(** The exceptions that leave the array constructor. *)
Definition constructor_error (e : error) : bool :=
  match e with
  | E_kwargs | E_wrong_size _ _ | E_broadcast _ | E_item_assignment
  | E_item_retrieval | E_seq_size | E_iterable | E_invalid_type | E_python => true
  | _ => false
  end.

(** Every exception that a computation can end in satisfies [p], and
    every value that it can return satisfies [P]. *)
Definition raises_only {Ev E A} (p : E -> bool) (c : Run Ev E A) : Prop :=
  forall e, outcome c = Raise e -> p e = true.

Definition returns_only {Ev E A} (P : A -> Prop) (c : Run Ev E A) : Prop :=
  forall a, outcome c = Ok a -> P a.

(** Any exception but "The provided 'shape' and 'dtype' parameters are
    incompatible.". *)
Definition not_shape_dtype (e : error) : bool :=
  match e with E_shape_dtype => false | _ => true end.

(** A shape that [full] accepts for a type: for an array type one that
    passes its test, for a record type one of a single extent. *)
Definition shape_fits (dtype : pytype) (shape' : list nat) : Prop :=
  match dtype with
  | ArrayType _ s _ => shape_mismatch s shape' = false
  | StructType _ _ => length shape' = 1%nat
  | _ => True
  end.

(** [arange] accepts the type: a 1-D dynamically sized array type of an
    arithmetic kind, for which the registry has a type with a counter.
    [linspace] accepts it when the kind is moreover a floating-point
    one. *)
Definition arange_accepts {host : Host} (dtype : pytype) (s : ArraySupplement)
    (counter_tp : pytype) : Prop :=
  supp dtype = Some s /\ dynamic_1d s /\
  type s <> VtBool /\ type s <> VtPointer /\
  counter_tp = meta_get_type (set_type s VtUInt32) /\
  exists counter_s, supp counter_tp = Some counter_s /\
                    has_init_counter counter_s = true.

Definition is_float (vt : VarType) : bool :=
  match vt with VtFloat16 | VtFloat32 | VtFloat64 => true | _ => false end.

(** The product of a shape as a number, and the objects that the shape
    loop accepts as an extent: a Python boolean, or an integer from 0 to
    [2^64 - 2]. *)
Definition product (shape_vec : list Z) : Z := fold_right Z.mul 1%Z shape_vec.

Definition valid_extent (o : pyobj) : bool :=
  match o with
  | PyLong z => ((0 <=? z) && (z <? size_t_max))%Z
  | PyBool _ => true
  | _ => false
  end.

(** The conversion that the bulk import applies to the items of a
    sequence, one after the other. *)
Definition convert_all {host : Host} (vt : VarType) (items : list pyobj)
    : option (list pyobj) :=
  mapM (from_python vt) items.

(** The callables that a log invokes, in order, by their index. *)
Fixpoint called (l : list ev) : list Z :=
  match l with
  | [] => []
  | callable_call which _ _ :: l' => which :: called l'
  | _ :: l' => called l'
  end.

(** The selector of [switch] passes the three tests of the general
    path: it is no Python integer, and adding 1 to it gives a
    JIT-compiled 1-D array of unsigned 32-bit integers. *)
Definition traced_index {tracer : Tracer} (index_ : pytree) : Prop :=
  (forall i, index_ <> PtLong i) /\
  exists index n s v,
    index_plus_one index_ = Some index /\
    tree_type index = ArrayType n s v /\
    backend s <> BackendNone /\ type s = VtUInt32 /\ ndim s = 1%nat.

(** A double-precision JIT leaf with the cast, constant and counter
    primitives. *)
Definition Float64 : pytype :=
  ArrayType "drjit.llvm.Float64" (jit_supp VtFloat64) PyFloat_Type.
(** * Properties *)

Lemma pytype_eqb_refl (t : pytype) : pytype_eqb t t = true.
Proof.
  induction t using pytype_rect_nested; simpl; try reflexivity.
  - rewrite !bool_decide_eq_true_2 by reflexivity. simpl. assumption.
  - rewrite bool_decide_eq_true_2 by reflexivity. simpl.
    induction H as [|[k [u|]] l Hu Hl IH]; simpl; try reflexivity.
    + rewrite bool_decide_eq_true_2 by reflexivity. simpl in *.
      rewrite Hu. simpl. exact IH.
    + rewrite bool_decide_eq_true_2 by reflexivity. simpl. exact IH.
  - apply bool_decide_eq_true_2. reflexivity.
Qed.

Lemma pytype_eqb_eq (a b : pytype) : pytype_eqb a b = true -> a = b.
Proof.
  revert b. induction a using pytype_rect_nested; intros b Hab;
    destruct b; simpl in Hab; try discriminate; try reflexivity.
  - apply andb_prop in Hab as [Hab Hv]. apply andb_prop in Hab as [Hn Hs].
    apply bool_decide_eq_true_1 in Hn, Hs. subst. f_equal. auto.
  - apply andb_prop in Hab as [Hn Hf]. apply bool_decide_eq_true_1 in Hn. subst.
    f_equal. revert DRJIT_STRUCT Hf.
    induction H as [|[k u] l Hu Hl IH]; intros [|[k' u'] l'] Hf;
      try discriminate; try reflexivity.
    apply andb_prop in Hf as [Hf Hl']. apply andb_prop in Hf as [Hk Hu'].
    apply bool_decide_eq_true_1 in Hk. subst.
    f_equal; [|auto].
    destruct u as [u|], u' as [u'|]; try discriminate; try reflexivity.
    simpl in Hu. f_equal. f_equal. auto.
  - apply bool_decide_eq_true_1 in Hab. subst. reflexivity.
Qed.

Lemma pytype_eqb_iff (a b : pytype) : pytype_eqb a b = true <-> a = b.
Proof.
  split; [apply pytype_eqb_eq | intros ->; apply pytype_eqb_refl].
Qed.

Lemma pytype_eqb_neq (a b : pytype) : pytype_eqb a b = false <-> a <> b.
Proof.
  rewrite <- pytype_eqb_iff. destruct (pytype_eqb a b); split; congruence.
Qed.

(** ** The monad *)

Lemma bind_ret_l {Ev E A B} (a : A) (k : A -> Run Ev E B) : bind (ret a) k = k a.
Proof. unfold bind, ret. destruct (k a). reflexivity. Qed.

Lemma bind_raise {Ev E A B} (e : E) (k : A -> Run Ev E B) :
  bind (raise e) k = raise e.
Proof. reflexivity. Qed.

Lemma bind_emit {Ev E B} (x : Ev) (k : unit -> Run Ev E B) :
  bind (emit x) k = (x :: fst (k tt), snd (k tt)).
Proof. unfold bind, emit. destruct (k tt). reflexivity. Qed.

Lemma log_bind_emit {Ev E B} (x : Ev) (k : unit -> Run Ev E B) :
  log_of (bind (emit x) k) = x :: log_of (k tt).
Proof. rewrite bind_emit. reflexivity. Qed.

Lemma outcome_bind_emit {Ev E B} (x : Ev) (k : unit -> Run Ev E B) :
  outcome (bind (emit x) k) = outcome (k tt).
Proof. rewrite bind_emit. reflexivity. Qed.

Lemma log_bind {Ev E A B} (c : Run Ev E A) (k : A -> Run Ev E B) :
  log_of (bind c k) =
  log_of c ++ match outcome c with Ok a => log_of (k a) | Raise _ => [] end.
Proof.
  destruct c as [l [a|e]]; unfold bind; simpl.
  - destruct (k a); reflexivity.
  - rewrite app_nil_r. reflexivity.
Qed.

Lemma outcome_bind {Ev E A B} (c : Run Ev E A) (k : A -> Run Ev E B) :
  outcome (bind c k) =
  match outcome c with Ok a => outcome (k a) | Raise e => Raise e end.
Proof.
  destruct c as [l [a|e]]; unfold bind; simpl; [destruct (k a)|]; reflexivity.
Qed.

(** ** The constructor on one argument *)

Section ConstructorFacts.
Context {host : Host}.

Lemma tp_init_array_single (n : string) (s : ArraySupplement) (v : pytype)
    (arg : pyobj) :
  tp_init_array (ArrayType n s v) [arg] false =
  init_single (ArrayType n s v) s v (call_value_type s v) arg.
Proof.
  unfold call_value_type, type_call. simpl. rewrite bind_ret_l.
  destruct (is_matrix s); [destruct v|]; reflexivity.
Qed.

Lemma single_arg_route_fallthrough (self_tp : pytype) (s : ArraySupplement)
    (value : pytype) (n' : string) (s_arg : ArraySupplement) (v' : pytype)
    (t : bool) :
  single_arg_route self_tp s value (ArrayType n' s_arg v') = Fallthrough t ->
  ArrayType n' s_arg v' <> self_tp /\
  (t = false <->
   (dynamic_1d s /\ dynamic_1d s_arg) \/
   in_value_chain (ArrayType n' s_arg v') value = true).
Proof.
  unfold single_arg_route, dynamic_1d.
  destruct (pytype_eqb _ self_tp) eqn:Heq; [discriminate|].
  apply pytype_eqb_neq in Heq. intros Hr. split; [exact Heq|].
  destruct (bool_decide (set_type _ _ = _) && has_cast s); [discriminate|].
  destruct (bool_decide (set_backend_vector _ _ _ = _) && _ && _); [discriminate|].
  repeat case_bool_decide; simpl in Hr; inversion Hr; subst; clear Hr;
    try (split; [intros _; left; tauto | reflexivity]);
    (split;
     [ intros Hc; apply negb_false_iff in Hc; right; exact Hc
     | intros [[[? ?] [? ?]]|Hc]; [tauto | rewrite Hc; reflexivity] ]).
Qed.

(** The scalar broadcast never opens with a call of the length slot. *)
Lemma broadcast_first_call (self_tp : pytype) (s : ArraySupplement)
    (value : pytype) (arg : pyobj) (t : bool) :
  first_call (broadcast self_tp s value (call_value_type s value) arg t)
    <> Some sq_length_call.
Proof.
  unfold broadcast, first_call, raise_if.
  case_bool_decide as Hz; [simpl; discriminate|].
  rewrite bind_ret_l.
  destruct (pytype_eqb (Py_TYPE arg) value).
  - rewrite bind_ret_l.
    destruct (shape0 s); [|destruct (has_init_const s)];
      rewrite log_bind_emit; simpl; discriminate.
  - rewrite log_bind.
    assert (Hc : forall x, head (log_of (call_value_type s value arg) ++ x)
                   <> Some sq_length_call \/
                 (log_of (call_value_type s value arg) = [] /\
                  exists e, outcome (call_value_type s value arg) = Raise e)).
    { intros x. unfold call_value_type.
      destruct (is_matrix s); [destruct value|]; simpl;
        try (right; split; [reflexivity | eexists; reflexivity]);
        left; unfold type_call; rewrite log_bind_emit; simpl; discriminate. }
    destruct (call_value_type s value arg) as [l [e|e]] eqn:Hcall; simpl in *.
    + destruct (Hc (match shape0 s with
                    | Fixed n => log_of (emit nb_inst_zero_call ;;;
                                         fill s e n (zero_value self_tp))
                    | DRJIT_DYNAMIC =>
                        log_of (if has_init_const s
                                then emit (init_const_call 1 e) ;;;
                                     ret (PyArray self_tp (replicate 1 e))
                                else emit (init_call 1) ;;;
                                     fill s e 1 (PyArray self_tp (replicate 1 uninitialized)))
                    end)) as [Hh|[_ [e' He']]]; [|discriminate].
      destruct (shape0 s); exact Hh.
    + destruct (Hc []) as [Hh|[Hl _]].
      * rewrite app_nil_r in Hh |- *. exact Hh.
      * rewrite Hl. simpl. discriminate.
Qed.

Lemma array_init_seq_slots_log (self_tp : pytype) (s : ArraySupplement)
    (len : Z) (sq_item : nat -> option pyobj) :
  exists l, log_of (array_init_seq_slots self_tp s len sq_item) = sq_length_call :: l.
Proof.
  unfold array_init_seq_slots. rewrite log_bind_emit. eexists. reflexivity.
Qed.

Lemma array_init_seq_array_log (self_tp : pytype) (s : ArraySupplement)
    (tp : pytype) (items : list pyobj) :
  exists l, log_of (array_init_seq self_tp s (PyArray tp items)) = sq_length_call :: l.
Proof.
  unfold array_init_seq. simpl.
  destruct (array_init_seq_slots_log self_tp s (Z.of_nat (length items))
              (fun i => items !! i)) as [l Hl].
  rewrite log_bind, Hl. eexists. reflexivity.
Qed.

(** C3 (as amended). A single argument that is a Dr.Jit array of another
    type, for which neither the cast nor the host-import path applies:
    the sequence import is skipped exactly when both types are 1-D with a
    dynamic extent (whatever their backend) or the argument's type is
    reached from the target's value type through nested value types.
    When it is not skipped, the first thing the constructor does is ask
    the argument for its length; when it is skipped, the construction is
    the scalar broadcast, no length is asked for first, and a failing
    element construction ends in the error that names the refusal. *)
Theorem sequence_import_unless_refused (n : string) (s : ArraySupplement)
    (value : pytype) (n' : string) (s_arg : ArraySupplement) (v' : pytype)
    (items : list pyobj) (t : bool) :
  let self_tp := ArrayType n s value in
  let arg_tp := ArrayType n' s_arg v' in
  let arg := PyArray arg_tp items in
  single_arg_route self_tp s value arg_tp = Fallthrough t ->
  arg_tp <> self_tp /\
  (t = false <->
   (dynamic_1d s /\ dynamic_1d s_arg) \/ in_value_chain arg_tp value = true) /\
  (t = true ->
   first_call (tp_init_array self_tp [arg] false) = Some sq_length_call) /\
  (t = false ->
   tp_init_array self_tp [arg] false =
     broadcast self_tp s value (call_value_type s value) arg false /\
   first_call (tp_init_array self_tp [arg] false) <> Some sq_length_call /\
   (shape0 s <> Fixed 0 -> arg_tp <> value ->
    forall e, outcome (call_value_type s value arg) = Raise e ->
    outcome (tp_init_array self_tp [arg] false) = Raise (E_broadcast true))).
Proof.
  intros self_tp arg_tp arg Hr.
  destruct (single_arg_route_fallthrough _ _ _ _ _ _ _ Hr) as [Hne Hiff].
  split; [exact Hne|]. split; [exact Hiff|].
  assert (Hinit : tp_init_array self_tp [arg] false =
                  init_single self_tp s value (call_value_type s value) arg)
    by apply tp_init_array_single.
  rewrite Hinit. unfold init_single. simpl Py_TYPE. fold arg_tp. rewrite Hr.
  split.
  - intros ->. unfold first_call. rewrite log_bind.
    destruct (array_init_seq_array_log self_tp s arg_tp items) as [l Hl].
    fold arg in Hl. rewrite Hl. reflexivity.
  - intros ->. rewrite bind_ret_l. split; [reflexivity|].
    split; [apply broadcast_first_call|].
    intros Hz Hv e He. unfold broadcast, raise_if.
    rewrite bool_decide_eq_false_2 by exact Hz. rewrite bind_ret_l.
    simpl Py_TYPE. apply pytype_eqb_neq in Hv. fold arg_tp. rewrite Hv.
    rewrite outcome_bind.
    destruct (call_value_type s value arg) as [l [x|x]]; simpl in *;
      [discriminate | reflexivity].
Qed.

End ConstructorFacts.

(** Witness of C3: a three-column array built from a JIT array of an
    unrelated kind is imported as a sequence. *)
Lemma sequence_import_unless_refused_witness :
  let s := plain_supp (BackendOther 2) VtFloat32 [Fixed 3; DRJIT_DYNAMIC] in
  let Float := ArrayType "Float" (jit_supp VtFloat32) PyFloat_Type in
  let self_tp := ArrayType "Array3f" s Float in
  let arg_tp := ArrayType "UInt" (jit_supp VtUInt32) PyLong_Type in
  first_call (tp_init_array (host := reference_host) self_tp
                [PyArray arg_tp [PyLong 1; PyLong 2; PyLong 3]] false)
  = Some sq_length_call.
Proof.
  intros s Float self_tp arg_tp.
  apply (sequence_import_unless_refused (host := reference_host)
           "Array3f" s Float "UInt" (jit_supp VtUInt32) PyLong_Type
           [PyLong 1; PyLong 2; PyLong 3] true);
    reflexivity.
Defined.

(** C3 (counterexample to the claim as stated). Two dynamically sized 1-D
    arrays of the scalar backend are not JIT arrays, and neither is the
    value type of the other; the cast and host-import paths do not
    apply. The claim has the sequence import attempted, but the
    constructor refuses it and fails in the broadcast. *)
Lemma sequence_import_refused_without_jit :
  let s := plain_supp BackendNone VtBool [DRJIT_DYNAMIC] in
  let s_arg := plain_supp BackendNone VtFloat32 [DRJIT_DYNAMIC] in
  let arg := PyArray scalar_ArrayXf [PyFloat (float_of_Z 1)] in
  single_arg_route scalar_ArrayXb s PyBool_Type scalar_ArrayXf = Fallthrough false /\
  ~ (is_jit s /\ is_jit s_arg) /\
  in_value_chain scalar_ArrayXf PyBool_Type = false /\
  tp_init_array (host := reference_host) scalar_ArrayXb [arg] false
  = ([value_type_call PyBool_Type arg], Raise (E_broadcast true)).
Proof.
  repeat split.
  intros [Hj _]. apply Hj. reflexivity.
Qed.

(** ** The sequence importer *)

Section ImporterFacts.
Context {host : Host}.

Lemma array_init_seq_slots_mismatch (self_tp : pytype) (s : ArraySupplement)
    (len : Z) (sq_item : nat -> option pyobj) (n : nat) :
  shape0 s = Fixed n -> (0 <= len)%Z -> Z.of_nat n <> len ->
  array_init_seq_slots self_tp s len sq_item
  = ([sq_length_call], Raise (E_wrong_size n len)).
Proof.
  intros Hs Hlen Hne. unfold array_init_seq_slots, raise_if.
  rewrite bind_emit.
  assert (Hlt : (len <? 0)%Z = false) by (apply Z.ltb_ge; lia).
  rewrite Hlt, bind_ret_l, Hs.
  assert (Heq : (Z.of_nat n =? len)%Z = false) by (apply Z.eqb_neq; exact Hne).
  rewrite Heq. reflexivity.
Qed.

Lemma assign_items_no_wrong_size (sq_item : nat -> option pyobj) (n : nat) :
  forall (self : pyobj) (i : nat) (x : nat) (g : Z),
  outcome (assign_items sq_item self i n) <> Raise (E_wrong_size x g).
Proof.
  induction n as [|n IH]; intros self i x g; simpl; [discriminate|].
  rewrite outcome_bind_emit.
  destruct (sq_item i) as [o|]; [|discriminate].
  rewrite outcome_bind. unfold set_item_or_raise. rewrite outcome_bind_emit.
  destruct (set_item self i o); simpl; [apply IH | discriminate].
Qed.

Lemma array_init_seq_slots_dynamic (self_tp : pytype) (s : ArraySupplement)
    (len : Z) (sq_item : nat -> option pyobj) (x : nat) (g : Z) :
  shape0 s = DRJIT_DYNAMIC ->
  outcome (array_init_seq_slots self_tp s len sq_item) <> Raise (E_wrong_size x g).
Proof.
  intros Hs. unfold array_init_seq_slots, raise_if.
  rewrite outcome_bind_emit, Hs.
  destruct (len <? 0)%Z; [discriminate|]. rewrite !bind_ret_l.
  destruct ((len =? 1)%Z && has_init_const s).
  - rewrite outcome_bind_emit. destruct (sq_item 0%nat); [|discriminate].
    rewrite outcome_bind_emit. discriminate.
  - destruct (bool_decide (ndim s = 1%nat) && has_init_data s).
    + rewrite outcome_bind.
      destruct (outcome (if from_seq_supported (type s) then _ else _)) as [[st|]|e'] eqn:Hf.
      * rewrite outcome_bind_emit. discriminate.
      * discriminate.
      * intros Habs. injection Habs as ->.
        destruct (from_seq_supported (type s)); [|discriminate].
        revert Hf. generalize 0%nat at 1. generalize (Z.to_nat len).
        induction n as [|n IH]; intros i; simpl; [discriminate|].
        rewrite outcome_bind_emit. destruct (sq_item i); [|discriminate].
        destruct (from_python (type s) p); [|discriminate].
        rewrite outcome_bind.
        destruct (outcome (FROM_SEQ_IMPL (type s) sq_item (S i) n)) eqn:Hr;
          [discriminate|].
        intros He. injection He as ->. exact (IH _ Hr).
    + rewrite outcome_bind. rewrite bool_decide_eq_true_2 by reflexivity.
      rewrite outcome_bind_emit. simpl. apply assign_items_no_wrong_size.
Qed.

Lemma array_init_seq_empty (self_tp : pytype) (s : ArraySupplement) :
  dynamic_1d s ->
  (has_init_data s = true -> from_seq_supported (type s) = true) ->
  outcome (array_init_seq self_tp s (PyList [])) = Ok (Some (PyArray self_tp [])).
Proof.
  intros [Hn Hs] Hsup. unfold array_init_seq. simpl.
  rewrite outcome_bind. unfold array_init_seq_slots, raise_if.
  rewrite outcome_bind_emit. simpl. rewrite bind_ret_l, Hs, bind_ret_l.
  rewrite (bool_decide_eq_true_2 _ Hn). simpl.
  destruct (has_init_data s).
  - rewrite (Hsup eq_refl). reflexivity.
  - reflexivity.
Qed.

(** C9 (as amended). The length that the sequence reports is checked
    against a fixed leading extent before any item is fetched: on a
    mismatch the only call made is the one of the length slot, and the
    error is the size mismatch. No such error arises for a dynamic
    extent. A fixed-size-3 target rejects a 2-element sequence in this
    way. A 1-D dynamically sized target accepts the empty sequence, with
    length 0, provided its element kind is one of the seven that the bulk
    path converts or it has no bulk import. *)
Theorem sequence_length_checked_first (self_tp : pytype) (s : ArraySupplement) :
  (forall (len : Z) (sq_item : nat -> option pyobj) (n : nat),
     shape0 s = Fixed n -> (0 <= len)%Z -> Z.of_nat n <> len ->
     array_init_seq_slots self_tp s len sq_item
     = ([sq_length_call], Raise (E_wrong_size n len))) /\
  (forall (len : Z) (sq_item : nat -> option pyobj) (x : nat) (g : Z),
     shape0 s = DRJIT_DYNAMIC ->
     outcome (array_init_seq_slots self_tp s len sq_item)
     <> Raise (E_wrong_size x g)) /\
  (forall a b : pyobj,
     shape0 s = Fixed 3 ->
     array_init_seq self_tp s (PyList [a; b])
     = ([sq_length_call], Raise (E_wrong_size 3 2))) /\
  (dynamic_1d s ->
   (has_init_data s = true -> from_seq_supported (type s) = true) ->
   outcome (array_init_seq self_tp s (PyList [])) = Ok (Some (PyArray self_tp []))).
Proof.
  split; [|split; [|split]].
  - intros. apply array_init_seq_slots_mismatch; assumption.
  - intros. apply array_init_seq_slots_dynamic; assumption.
  - intros a b Hs. unfold array_init_seq. simpl.
    rewrite (array_init_seq_slots_mismatch self_tp s 2 _ 3 Hs); [reflexivity|lia|lia].
  - apply array_init_seq_empty.
Qed.

End ImporterFacts.

(** Witness of C9: the three-float array of the scalar backend rejects
    two items, and a dynamically sized array of single-precision floats
    accepts none. *)
Lemma sequence_length_checked_first_witness :
  array_init_seq (host := reference_host) scalar_Array3f
    (plain_supp BackendNone VtFloat32 [Fixed 3]) (PyList [PyLong 1; PyLong 2])
  = ([sq_length_call], Raise (E_wrong_size 3 2)) /\
  outcome (array_init_seq (host := reference_host) scalar_ArrayXf
             (plain_supp BackendNone VtFloat32 [DRJIT_DYNAMIC]) (PyList []))
  = Ok (Some (PyArray scalar_ArrayXf [])).
Proof.
  split.
  - apply (sequence_length_checked_first (host := reference_host)
             scalar_Array3f (plain_supp BackendNone VtFloat32 [Fixed 3])).
    reflexivity.
  - apply (sequence_length_checked_first (host := reference_host)
             scalar_ArrayXf (plain_supp BackendNone VtFloat32 [DRJIT_DYNAMIC])).
    + split; reflexivity.
    + intros Hd. discriminate Hd.
Defined.

(** C9 (counterexample to the claim as stated). A 1-D dynamically sized
    half-precision JIT array has bulk import, and its element kind is not
    among those that the bulk path converts: constructing it from the
    empty sequence fails. *)
Lemma empty_sequence_rejected_for_float16 :
  dynamic_1d (jit_supp VtFloat16) /\
  tp_init_array (host := reference_host) Float16 [PyList []] false
  = ([sq_length_call], Raise E_invalid_type).
Proof. repeat split. Qed.

(** ** The scalar broadcast *)

Section BroadcastFacts.
Context {host : Host}.

Lemma array_init_seq_not_a_sequence (self_tp : pytype) (s : ArraySupplement)
    (seq : pyobj) :
  outcome (array_init_seq self_tp s seq) = Ok None ->
  array_init_seq self_tp s seq = ret None.
Proof.
  unfold array_init_seq. destruct (slots_of seq) as [len it|[items|]|].
  - rewrite outcome_bind.
    destruct (outcome (array_init_seq_slots self_tp s len it)); discriminate.
  - rewrite outcome_bind_emit, outcome_bind.
    destruct (outcome (array_init_seq_slots _ _ _ _)); discriminate.
  - rewrite outcome_bind_emit. discriminate.
  - reflexivity.
Qed.

Lemma tp_init_array_broadcast (n : string) (s : ArraySupplement)
    (value : pytype) (arg : pyobj) (t : bool) :
  reaches_broadcast (ArrayType n s value) s value arg t ->
  tp_init_array (ArrayType n s value) [arg] false
  = broadcast (ArrayType n s value) s value (call_value_type s value) arg t.
Proof.
  intros [Hr Hseq]. rewrite tp_init_array_single. unfold init_single.
  rewrite Hr. destruct t.
  - rewrite (array_init_seq_not_a_sequence _ _ _ (Hseq eq_refl)).
    rewrite bind_ret_l. reflexivity.
  - rewrite bind_ret_l. reflexivity.
Qed.

Lemma set_item_middle (tp : pytype) (pre post : list pyobj) (x v : pyobj) :
  set_item (PyArray tp (pre ++ x :: post)) (length pre) v
  = Some (PyArray tp ((pre ++ [v]) ++ post)).
Proof.
  unfold set_item. rewrite decide_True.
  - f_equal. f_equal. rewrite insert_app_r_alt, Nat.sub_diag by lia.
    rewrite <- app_assoc. reflexivity.
  - rewrite length_app. simpl. lia.
Qed.

Lemma fill_plain_spec (tp : pytype) (e : pyobj) (post : list pyobj) :
  forall pre : list pyobj,
  outcome (fill_plain e (PyArray tp (pre ++ post)) (length pre) (length post))
  = Ok (PyArray tp (pre ++ replicate (length post) e)).
Proof.
  induction post as [|x post IH]; intros pre; simpl.
  - reflexivity.
  - rewrite outcome_bind. unfold set_item_or_raise.
    rewrite outcome_bind_emit, set_item_middle. simpl.
    replace (S (length pre)) with (length (pre ++ [e]))
      by (rewrite length_app; simpl; lia).
    rewrite IH, <- app_assoc. reflexivity.
Qed.

Lemma fill_column_spec (tp : pytype) (e : pyobj) (i : nat) (post : list pyobj) :
  forall pre : list pyobj,
  outcome (fill_column e i (PyArray tp (pre ++ post)) (length pre) (length post))
  = Ok (PyArray tp (pre ++ map (fun j => if (i =? j)%nat then e else zero)
                                (seq (length pre) (length post)))).
Proof.
  induction post as [|x post IH]; intros pre; simpl.
  - reflexivity.
  - rewrite outcome_bind. unfold col_setitem.
    rewrite outcome_bind_emit, set_item_middle. simpl.
    replace (S (length pre)) with (length (pre ++ [if (i =? length pre)%nat then e else zero]))
      by (rewrite length_app; simpl; lia).
    rewrite IH, <- app_assoc. simpl. rewrite length_app. simpl.
    replace (length pre + 1)%nat with (S (length pre)) by lia. reflexivity.
Qed.

(** The columns that [fill_matrix] writes. *)
Lemma fill_matrix_spec (tp ctp : pytype) (e : pyobj) (size : nat)
    (post : list pyobj) :
  Forall (fun c => exists col, c = PyArray ctp col /\ length col = size) post ->
  forall pre : list pyobj,
  outcome (fill_matrix e size (PyArray tp (pre ++ post)) (length pre) (length post))
  = Ok (PyArray tp
          (pre ++ map (fun i => PyArray ctp
                                  (map (fun j => if (i =? j)%nat then e else zero)
                                       (seq 0 size)))
                      (seq (length pre) (length post)))).
Proof.
  induction 1 as [|c post [col [-> Hlen]] Hpost IH]; intros pre; simpl.
  - reflexivity.
  - rewrite outcome_bind_emit.
    rewrite list_lookup_middle by reflexivity.
    rewrite outcome_bind.
    pose proof (fill_column_spec ctp e (length pre) col []) as Hc.
    simpl in Hc. rewrite Hlen in Hc. rewrite Hc.
    rewrite insert_app_r_alt, Nat.sub_diag by lia. simpl.
    specialize (IH (pre ++ [PyArray ctp
                              (map (fun j => if (length pre =? j)%nat then e else zero)
                                   (seq 0 size))])).
    rewrite length_app in IH. simpl in IH.
    replace (length pre + 1)%nat with (S (length pre)) in IH by lia.
    rewrite <- !app_assoc in IH. simpl in IH. exact IH.
Qed.

Lemma broadcast_outcome (self_tp : pytype) (s : ArraySupplement)
    (value : pytype) (arg : pyobj) (t : bool) (e : pyobj) :
  shape0 s <> Fixed 0 ->
  broadcast_element s value arg = Ok e ->
  outcome (broadcast self_tp s value (call_value_type s value) arg t)
  = match shape0 s with
    | DRJIT_DYNAMIC =>
        if has_init_const s then Ok (PyArray self_tp [e])
        else outcome (fill s e 1 (PyArray self_tp (replicate 1 uninitialized)))
    | Fixed k => outcome (fill s e k (zero_value self_tp))
    end.
Proof.
  intros Hz He. unfold broadcast, raise_if, broadcast_element in *.
  rewrite bool_decide_eq_false_2 by exact Hz. rewrite bind_ret_l.
  rewrite outcome_bind.
  assert (Hel : outcome
            (if pytype_eqb (Py_TYPE arg) value then ret arg
             else match call_value_type s value arg with
                  | (l, Ok e0) => (l, Ok e0)
                  | (l, Raise _) => (l, Raise (E_broadcast (negb t)))
                  end) = Ok e).
  { destruct (pytype_eqb (Py_TYPE arg) value); [exact He|].
    destruct (call_value_type s value arg) as [l [x|x]]; simpl in *;
      [exact He | discriminate]. }
  rewrite Hel. destruct (shape0 s).
  - rewrite outcome_bind_emit. reflexivity.
  - destruct (has_init_const s); rewrite outcome_bind_emit; reflexivity.
Qed.

(** C4. A single argument that reaches the scalar broadcast. A fixed
    leading extent of zero is rejected as a size mismatch before anything
    else is done. Otherwise, with [e] the element (the argument itself if
    it has the value type, else the value type constructed from it): a
    plain target holds [e] in every slot (one slot if it is dynamically
    sized); a complex target holds [e] in slot 0 and zero in slot 1; a
    quaternion target holds zero in slots 0 to 2 and [e] in slot 3; a
    matrix target holds [e] on the diagonal and zero elsewhere. *)
Theorem scalar_broadcast_by_kind (n : string) (s : ArraySupplement)
    (value : pytype) (arg : pyobj) (t : bool) :
  let self_tp := ArrayType n s value in
  let r := tp_init_array self_tp [arg] false in
  reaches_broadcast self_tp s value arg t ->
  (shape0 s = Fixed 0 -> r = ([], Raise (E_wrong_size 0 1))) /\
  (forall e : pyobj, broadcast_element s value arg = Ok e ->
   (plain s -> forall k : nat, shape0 s = Fixed (S k) ->
    outcome r = Ok (PyArray self_tp (replicate (S k) e))) /\
   (plain s -> shape0 s = DRJIT_DYNAMIC ->
    outcome r = Ok (PyArray self_tp [e])) /\
   (is_complex s = true -> shape0 s = Fixed 2 ->
    outcome r = Ok (PyArray self_tp [e; zero])) /\
   (is_complex s = false -> is_quaternion s = true -> shape0 s = Fixed 4 ->
    outcome r = Ok (PyArray self_tp [zero; zero; zero; e])) /\
   (is_complex s = false -> is_quaternion s = false -> is_matrix s = true ->
    forall (k : nat) (cn : string) (cs : ArraySupplement) (cv : pytype),
    shape0 s = Fixed (S k) -> value = ArrayType cn cs cv ->
    shape0 cs = Fixed (S k) ->
    outcome r
    = Ok (PyArray self_tp
            (map (fun i => PyArray value
                             (map (fun j => if (i =? j)%nat then e else zero)
                                  (seq 0 (S k))))
                 (seq 0 (S k)))))).
Proof.
  intros self_tp r Hreach. subst r.
  pose proof (tp_init_array_broadcast _ _ _ _ _ Hreach) as Hb.
  fold self_tp in Hb. rewrite Hb. clear Hb. split.
  - intros Hz. unfold broadcast, raise_if.
    rewrite bool_decide_eq_true_2 by exact Hz. reflexivity.
  - intros e He.
    assert (Hplain : forall (tp : pytype) (l : list pyobj), plain s ->
              outcome (fill s e (length l) (PyArray tp l))
              = Ok (PyArray tp (replicate (length l) e))).
    { intros tp l (Hc & Hq & Hm). unfold fill. rewrite Hc, Hq, Hm.
      exact (fill_plain_spec tp e l []). }
    split; [|split; [|split; [|split]]].
    + intros Hp k Hs.
      rewrite (broadcast_outcome self_tp s value arg t e) by (rewrite ?Hs; congruence).
      rewrite Hs. unfold self_tp at 1. simpl zero_value. rewrite Hs.
      pose proof (Hplain self_tp (replicate (S k) (zero_value value)) Hp) as Hf.
      rewrite length_replicate in Hf. exact Hf.
    + intros Hp Hs.
      rewrite (broadcast_outcome self_tp s value arg t e) by (rewrite ?Hs; congruence).
      rewrite Hs. destruct (has_init_const s); [reflexivity|].
      exact (Hplain self_tp [uninitialized] Hp).
    + intros Hc Hs.
      rewrite (broadcast_outcome self_tp s value arg t e) by (rewrite ?Hs; congruence).
      rewrite Hs. unfold self_tp at 1. simpl zero_value. rewrite Hs.
      unfold fill. rewrite Hc. reflexivity.
    + intros Hc Hq Hs.
      rewrite (broadcast_outcome self_tp s value arg t e) by (rewrite ?Hs; congruence).
      rewrite Hs. unfold self_tp at 1. simpl zero_value. rewrite Hs.
      unfold fill. rewrite Hc, Hq. reflexivity.
    + intros Hc Hq Hm k cn cs cv Hs Hv Hcs.
      rewrite (broadcast_outcome self_tp s value arg t e) by (rewrite ?Hs; congruence).
      rewrite Hs. unfold self_tp at 1. simpl zero_value. rewrite Hs.
      unfold fill. rewrite Hc, Hq, Hm.
      pose proof (fill_matrix_spec self_tp value e (S k)
                    (replicate (S k) (zero_value value))) as Hf.
      rewrite length_replicate in Hf.
      assert (Hcols : Forall (fun c => exists col, c = PyArray value col /\ length col = S k)
                        (replicate (S k) (zero_value value))).
      { apply Forall_replicate. subst value. simpl. rewrite Hcs.
        eexists. split; [reflexivity|]. apply length_replicate. }
      exact (Hf Hcols []).
Qed.

End BroadcastFacts.

(** Witness of C4: a three-float array built from a float holds it three
    times, and a two-by-two matrix built from the integer 5 holds
    [float(5)] on its diagonal. *)
Lemma scalar_broadcast_by_kind_witness :
  let one := PyFloat (float_of_Z 1) in
  let five := PyFloat (float_of_Z 5) in
  outcome (tp_init_array (host := reference_host) scalar_Array3f [one] false)
  = Ok (PyArray scalar_Array3f [one; one; one]) /\
  outcome (tp_init_array (host := reference_host) scalar_Matrix2f [PyLong 5] false)
  = Ok (PyArray scalar_Matrix2f
          [PyArray scalar_Array2f [five; zero];
           PyArray scalar_Array2f [zero; five]]).
Proof.
  intros one five. split.
  - destruct (scalar_broadcast_by_kind (host := reference_host)
                "drjit.scalar.Array3f" (plain_supp BackendNone VtFloat32 [Fixed 3])
                PyFloat_Type one true) as [_ Hk].
    + split; reflexivity.
    + destruct (Hk one eq_refl) as (Hplain & _).
      apply (Hplain ltac:(repeat split) 2%nat eq_refl).
  - destruct (scalar_broadcast_by_kind (host := reference_host)
                "drjit.scalar.Matrix2f" matrix_supp scalar_Array2f (PyLong 5) true)
      as [_ Hk].
    + split; reflexivity.
    + destruct (Hk five eq_refl) as (_ & _ & _ & _ & Hmat).
      apply (Hmat eq_refl eq_refl eq_refl 1%nat "drjit.scalar.Array2f"
               (plain_supp BackendNone VtFloat32 [Fixed 2]) PyFloat_Type
               eq_refl eq_refl eq_refl).
Defined.

(** ** [full] *)

Section FullFacts.
Context {host : Host}.



End FullFacts.

Section FullTheorem.
Context {host : Host}.

Lemma shape_of_size_1d (n : string) (s : ArraySupplement) (value : pytype)
    (size : nat) :
  dynamic_1d s -> shape_of_size (ArrayType n s value) size = [size].
Proof.
  intros [Hn Hs]. unfold shape_of_size. rewrite Hn. simpl.
  unfold shape0 in Hs. rewrite Hs. reflexivity.
Qed.

Lemma shape_mismatch_1d (s : ArraySupplement) (size : nat) :
  dynamic_1d s -> shape_mismatch s [size] = false.
Proof.
  intros [Hn Hs]. unfold shape_mismatch. rewrite Hn. simpl.
  unfold shape0 in Hs. rewrite Hs. reflexivity.
Qed.

End FullTheorem.

(** ** [arange] *)

Lemma ssize_wrap_id (z : Z) : in_ssize z -> ssize_wrap z = z.
Proof.
  unfold in_ssize, ssize_wrap, ssize_min, ssize_max. intros Hz.
  rewrite Z.mod_small by lia. lia.
Qed.

Lemma arange_size_exact (start end_ step : Z) :
  step <> 0%Z ->
  arange_in_range start end_ step ->
  arange_size start end_ step
  = Z.quot (end_ - start + step - Z.sgn step) step.
Proof.
  intros Hs (_ & _ & _ & H1 & H2 & H3 & H4).
  unfold arange_size.
  rewrite (ssize_wrap_id _ H1), (ssize_wrap_id _ H2), (ssize_wrap_id _ H3),
          (ssize_wrap_id _ H4).
  destruct (step >? 0)%Z eqn:Hp.
  - rewrite Z.sgn_pos by lia. reflexivity.
  - rewrite Z.sgn_neg by lia. reflexivity.
Qed.



Section ArangeFacts.
Context {host : Host}.

(** [dtype(z)] for a Python integer: the one-lane constant. *)
Lemma dtype_of_scalar (n : string) (s : ArraySupplement) (value : pytype)
    (x e : pyobj) :
  dynamic_1d s -> has_init_const s = true ->
  slots_of x = NoSlots -> is_drjit_type (Py_TYPE x) = false ->
  broadcast_element s value x = Ok e ->
  outcome (tp_init_array (ArrayType n s value) [x] false)
  = Ok (PyArray (ArrayType n s value) [e]).
Proof.
  intros [Hn Hs] Hc Hslots Hnd He.
  assert (Hreach : reaches_broadcast (ArrayType n s value) s value x true).
  { split.
    - unfold single_arg_route. destruct (Py_TYPE x); try reflexivity; discriminate.
    - intros _. unfold array_init_seq. rewrite Hslots. reflexivity. }
  rewrite (tp_init_array_broadcast _ _ _ _ _ Hreach).
  rewrite (broadcast_outcome _ _ _ _ _ e) by (rewrite ?Hs; congruence).
  rewrite Hs, Hc. reflexivity.
Qed.

Lemma set_type_back (m : ArrayMeta) (t : VarType) :
  set_type (set_type m t) (type m) = m.
Proof. destruct m. reflexivity. Qed.

(** [dtype(result)] for the counter. *)
Lemma dtype_of_counter (dtype : pytype) (s : ArraySupplement) (value : pytype)
    (counter_tp : pytype) (lanes : list nat) :
  arange_dtype dtype s value counter_tp ->
  outcome (tp_init_array dtype
             [PyArray counter_tp (map (fun i => PyLong (Z.of_nat i)) lanes)] false)
  = Ok (PyArray dtype (map (counter_lane dtype counter_tp (type s)) lanes)).
Proof.
  intros ([n ->] & Hd & _ & _ & Hcast & _ & _ & (cn & cs & cv & -> & Hm & _)).
  rewrite tp_init_array_single. unfold init_single, counter_lane.
  simpl Py_TYPE. unfold single_arg_route.
  destruct (pytype_eqb (ArrayType cn cs cv) (ArrayType n s value)) eqn:Heq.
  - rewrite outcome_bind_emit. simpl. apply pytype_eqb_eq in Heq.
    rewrite Heq. reflexivity.
  - rewrite Hm, set_type_back, bool_decide_eq_true_2 by reflexivity.
    rewrite Hcast. simpl andb. cbv iota.
    rewrite outcome_bind_emit. simpl. unfold cast. rewrite Hm. simpl.
    rewrite map_map. reflexivity.
Qed.

Lemma fma_broadcast (tp : pytype) (s : ArraySupplement) (la : list pyobj)
    (y z : pyobj) :
  supp tp = Some s -> la <> [] ->
  fma (PyArray tp la) (PyArray tp [y]) (PyArray tp [z])
  = Some (PyArray tp (map (fun x => fma_lane (type s) x y z) la)).
Proof.
  intros Hs Hla. unfold fma. rewrite Hs. simpl length.
  replace (length la `max` (1 `max` 1))%nat with (length la)
    by (destruct la; [congruence | simpl; lia]).
  assert (Hm : mapM (fun i => x ← lane la i; y0 ← lane [y] i; z0 ← lane [z] i;
                              Some (fma_lane (type s) x y0 z0))
                 (seq 0 (length la))
               = Some (map (fun x => fma_lane (type s) x y z) la)).
  { apply mapM_Some. apply Forall2_same_length_lookup. split.
    - rewrite length_seq, length_map. reflexivity.
    - intros i j r Hj Hr. apply lookup_seq in Hj as [-> Hlt]. simpl in *.
      rewrite list_lookup_fmap in Hr.
      assert (Hl : lane la i = la !! i).
      { destruct la as [|a [|b la']]; try reflexivity.
        destruct i; [reflexivity | simpl in Hlt; lia]. }
      rewrite Hl. destruct (la !! i); [|discriminate]. simpl in *.
      injection Hr as <-. reflexivity. }
  rewrite Hm. reflexivity.
Qed.

End ArangeFacts.




(** * Further properties of [init.cpp] *)

(** ** The constructor *)

Section MoreConstructorFacts.
Context {host : Host}.

Lemma bind_assoc_some {A} (c : M pyobj) (k : option pyobj -> M A) :
  bind (bind c (fun self => ret (Some self))) k = bind c (fun self => k (Some self)).
Proof.
  destruct c as [l [a|e]]; unfold bind, ret; simpl; [|reflexivity].
  destruct (k (Some a)) as [l' r]. rewrite app_nil_r. reflexivity.
Qed.

(** X1. An argument list of two or more arguments is constructed from
    exactly as the tuple of these arguments passed as the one
    argument. *)
Theorem argument_list_is_tuple (self_tp : pytype) (args : list pyobj)
    (kwds : bool) :
  (2 <= length args)%nat ->
  tp_init_array self_tp args kwds = tp_init_array self_tp [PyTuple args] kwds.
Proof.
  intros Hlen. destruct self_tp as [| | | | | | | |n s value| |];
    try reflexivity.
  destruct args as [|a [|b r]]; simpl in Hlen; try lia.
  destruct kwds; [reflexivity|].
  rewrite (tp_init_array_single n s value (PyTuple (a :: b :: r))).
  unfold init_single. cbn [Py_TYPE single_arg_route tp_init_array].
  unfold raise_if. rewrite bind_ret_l.
  unfold array_init_seq. cbn [slots_of slots_of_list].
  rewrite !bind_assoc_some. reflexivity.
Qed.

(** *** The exceptions of the constructor *)

Lemma raises_only_bind {Ev E A B} (p : E -> bool) (c : Run Ev E A)
    (k : A -> Run Ev E B) :
  raises_only p c -> (forall a, outcome c = Ok a -> raises_only p (k a)) ->
  raises_only p (bind c k).
Proof.
  intros Hc Hk e. rewrite outcome_bind.
  destruct (outcome c) as [a|e'] eqn:Ho.
  - apply (Hk a eq_refl).
  - intros [= ->]. apply Hc. exact Ho.
Qed.

Lemma raises_only_ret {Ev E A} (p : E -> bool) (a : A) :
  raises_only p (ret a : Run Ev E A).
Proof. intros e. discriminate. Qed.

Lemma raises_only_emit {Ev E} (p : E -> bool) (x : Ev) :
  raises_only p (emit x : Run Ev E unit).
Proof. intros e. discriminate. Qed.

Lemma raises_only_raise {Ev E A} (p : E -> bool) (e : E) :
  p e = true -> raises_only p (raise e : Run Ev E A).
Proof. intros Hp e' [= <-]. exact Hp. Qed.

Lemma raises_only_raise_if {Ev E} (p : E -> bool) (b : bool) (e : E) :
  p e = true -> raises_only p (raise_if b e : Run Ev E unit).
Proof.
  intros Hp. destruct b; [apply raises_only_raise; exact Hp | apply raises_only_ret].
Qed.

Lemma set_item_or_raise_errors (self : pyobj) (i : nat) (v : pyobj) :
  raises_only constructor_error (set_item_or_raise self i v).
Proof.
  unfold set_item_or_raise. apply raises_only_bind; [apply raises_only_emit|].
  intros _ _. destruct (set_item self i v);
    [apply raises_only_ret | apply raises_only_raise; reflexivity].
Qed.

Lemma assign_items_errors (sq_item : nat -> option pyobj) (n : nat) :
  forall (self : pyobj) (i : nat),
  raises_only constructor_error (assign_items sq_item self i n).
Proof.
  induction n as [|n IH]; intros self i; cbn [assign_items].
  - apply raises_only_ret.
  - apply raises_only_bind; [apply raises_only_emit|]. intros _ _.
    destruct (sq_item i); [|apply raises_only_raise; reflexivity].
    apply raises_only_bind; [apply set_item_or_raise_errors|].
    intros self' _. apply IH.
Qed.

Lemma FROM_SEQ_IMPL_errors (vt : VarType) (sq_item : nat -> option pyobj)
    (n : nat) :
  forall i : nat, raises_only constructor_error (FROM_SEQ_IMPL vt sq_item i n).
Proof.
  induction n as [|n IH]; intros i; cbn [FROM_SEQ_IMPL].
  - apply raises_only_ret.
  - apply raises_only_bind; [apply raises_only_emit|]. intros _ _.
    destruct (sq_item i); [|apply raises_only_ret].
    destruct (from_python vt p); [|apply raises_only_ret].
    apply raises_only_bind; [apply IH|]. intros r _. apply raises_only_ret.
Qed.

Lemma array_init_seq_slots_errors (self_tp : pytype) (s : ArraySupplement)
    (sq_length : Z) (sq_item : nat -> option pyobj) :
  raises_only constructor_error (array_init_seq_slots self_tp s sq_length sq_item).
Proof.
  unfold array_init_seq_slots.
  apply raises_only_bind; [apply raises_only_emit|]. intros _ _.
  apply raises_only_bind; [apply raises_only_raise_if; reflexivity|]. intros _ _.
  apply raises_only_bind.
  { destruct (shape0 s); [apply raises_only_raise_if; reflexivity
                         |apply raises_only_ret]. }
  intros _ _.
  destruct (_ && has_init_const s).
  { apply raises_only_bind; [apply raises_only_emit|]. intros _ _.
    destruct (sq_item 0%nat); [|apply raises_only_raise; reflexivity].
    apply raises_only_bind; [apply raises_only_emit|]. intros _ _.
    apply raises_only_ret. }
  destruct (_ && has_init_data s).
  { apply raises_only_bind.
    { destruct (from_seq_supported (type s));
        [apply FROM_SEQ_IMPL_errors | apply raises_only_ret]. }
    intros [storage|] _; [|apply raises_only_raise; reflexivity].
    apply raises_only_bind; [apply raises_only_emit|]. intros _ _.
    apply raises_only_ret. }
  apply raises_only_bind.
  { destruct (bool_decide _);
      (apply raises_only_bind; [apply raises_only_emit|]); intros _ _;
      apply raises_only_ret. }
  intros self _. apply assign_items_errors.
Qed.

Lemma array_init_seq_errors (self_tp : pytype) (s : ArraySupplement)
    (seq : pyobj) :
  raises_only constructor_error (array_init_seq self_tp s seq).
Proof.
  unfold array_init_seq. destruct (slots_of seq) as [len' it|[items|]|].
  - apply raises_only_bind; [apply array_init_seq_slots_errors|].
    intros self _. apply raises_only_ret.
  - apply raises_only_bind; [apply raises_only_emit|]. intros _ _.
    apply raises_only_bind; [apply array_init_seq_slots_errors|].
    intros self _. apply raises_only_ret.
  - apply raises_only_bind; [apply raises_only_emit|]. intros _ _.
    apply raises_only_raise. reflexivity.
  - apply raises_only_ret.
Qed.

Lemma col_setitem_errors (col : pyobj) (j : nat) (x : pyobj) :
  raises_only constructor_error (col_setitem col j x).
Proof.
  unfold col_setitem. apply raises_only_bind; [apply raises_only_emit|].
  intros _ _. destruct (set_item col j x);
    [apply raises_only_ret | apply raises_only_raise; reflexivity].
Qed.

Lemma fill_column_errors (element : pyobj) (i n : nat) :
  forall (col : pyobj) (j : nat),
  raises_only constructor_error (fill_column element i col j n).
Proof.
  induction n as [|n IH]; intros col j; cbn [fill_column].
  - apply raises_only_ret.
  - apply raises_only_bind; [apply col_setitem_errors|]. intros col' _. apply IH.
Qed.

Lemma fill_matrix_errors (element : pyobj) (size n : nat) :
  forall (self : pyobj) (i : nat),
  raises_only constructor_error (fill_matrix element size self i n).
Proof.
  induction n as [|n IH]; intros self i; cbn [fill_matrix].
  - apply raises_only_ret.
  - apply raises_only_bind; [apply raises_only_emit|]. intros _ _.
    destruct (item self i); [|apply raises_only_raise; reflexivity].
    destruct self; try (apply raises_only_raise; reflexivity).
    apply raises_only_bind; [apply fill_column_errors|]. intros col' _. apply IH.
Qed.

Lemma fill_plain_errors (element : pyobj) (n : nat) :
  forall (self : pyobj) (i : nat),
  raises_only constructor_error (fill_plain element self i n).
Proof.
  induction n as [|n IH]; intros self i; cbn [fill_plain].
  - apply raises_only_ret.
  - apply raises_only_bind; [apply set_item_or_raise_errors|].
    intros self' _. apply IH.
Qed.

Lemma fill_errors (s : ArraySupplement) (element : pyobj) (size : nat)
    (self : pyobj) :
  raises_only constructor_error (fill s element size self).
Proof.
  unfold fill. destruct (is_complex s).
  { apply raises_only_bind; [apply set_item_or_raise_errors|].
    intros ? _. apply set_item_or_raise_errors. }
  destruct (is_quaternion s).
  { repeat (apply raises_only_bind; [apply set_item_or_raise_errors|]; intros ? _).
    apply set_item_or_raise_errors. }
  destruct (is_matrix s); [apply fill_matrix_errors | apply fill_plain_errors].
Qed.

Lemma broadcast_errors (self_tp : pytype) (s : ArraySupplement) (value : pytype)
    (call_value_type : pyobj -> M pyobj) (arg : pyobj) (t : bool) :
  raises_only constructor_error
    (broadcast self_tp s value call_value_type arg t).
Proof.
  unfold broadcast.
  apply raises_only_bind; [apply raises_only_raise_if; reflexivity|]. intros _ _.
  apply raises_only_bind.
  { destruct (pytype_eqb _ _); [apply raises_only_ret|].
    destruct (call_value_type arg) as [l [e|e]]; intros e'; [discriminate|].
    intros [= <-]. reflexivity. }
  intros element _. destruct (shape0 s).
  - apply raises_only_bind; [apply raises_only_emit|]. intros _ _. apply fill_errors.
  - destruct (has_init_const s);
      (apply raises_only_bind; [apply raises_only_emit|]); intros _ _;
      [apply raises_only_ret | apply fill_errors].
Qed.

Lemma init_single_errors (self_tp : pytype) (s : ArraySupplement) (value : pytype)
    (call_value_type : pyobj -> M pyobj) (arg : pyobj) :
  raises_only constructor_error
    (init_single self_tp s value call_value_type arg).
Proof.
  unfold init_single. destruct (single_arg_route _ _ _ _) as [| | |t].
  - apply raises_only_bind; [apply raises_only_emit|]. intros _ _.
    apply raises_only_ret.
  - apply raises_only_bind; [apply raises_only_emit|]. intros _ _.
    destruct arg; try (apply raises_only_raise; reflexivity).
    destruct (supp _); [apply raises_only_ret | apply raises_only_raise; reflexivity].
  - destruct arg; try (apply raises_only_raise; reflexivity).
    apply raises_only_bind; [apply raises_only_emit|]. intros _ _.
    apply raises_only_ret.
  - apply raises_only_bind.
    { destruct t; [apply array_init_seq_errors | apply raises_only_ret]. }
    intros [self|] _; [apply raises_only_ret | apply broadcast_errors].
Qed.

Lemma tp_init_array_errors (self_tp : pytype) (args : list pyobj) (kwds : bool) :
  raises_only constructor_error (tp_init_array self_tp args kwds).
Proof.
  destruct self_tp as [| | | | | | | |n s value| |];
    try (apply raises_only_raise; reflexivity).
  cbn [tp_init_array].
  apply raises_only_bind; [apply raises_only_raise_if; reflexivity|]. intros _ _.
  destruct args as [|arg [|b r]].
  - apply raises_only_bind; [apply raises_only_emit|]. intros _ _.
    apply raises_only_ret.
  - apply init_single_errors.
  - unfold array_init_seq. cbn [slots_of slots_of_list].
    rewrite bind_assoc_some.
    apply raises_only_bind; [apply array_init_seq_slots_errors|].
    intros self _. apply raises_only_ret.
Qed.

(** X2. The constructor never ends in "Could not initialize array from
    argument list.": an argument list is a tuple, which always has the
    two sequence slots. Whatever the type, the arguments and the host,
    its exception is one of the others of [tp_init_array] and
    [array_init_seq]. *)
Theorem argument_list_error_unreachable (self_tp : pytype)
    (args : list pyobj) (kwds : bool) (e : error) :
  outcome (tp_init_array self_tp args kwds) = Raise e ->
  e <> E_arglist /\ constructor_error e = true.
Proof.
  intros He. pose proof (tp_init_array_errors self_tp args kwds e He) as Hc.
  split; [|exact Hc]. intros ->. discriminate Hc.
Qed.

(** *** The type of the constructed instance *)

Lemma returns_only_bind {Ev E A B} (P : B -> Prop) (c : Run Ev E A)
    (k : A -> Run Ev E B) :
  (forall a, outcome c = Ok a -> returns_only P (k a)) ->
  returns_only P (bind c k).
Proof.
  intros Hk b. rewrite outcome_bind.
  destruct (outcome c) as [a|e] eqn:Ho; [|discriminate].
  apply (Hk a eq_refl).
Qed.

Lemma returns_only_ret {Ev E A} (P : A -> Prop) (a : A) :
  P a -> returns_only P (ret a : Run Ev E A).
Proof. intros Hp b [= <-]. exact Hp. Qed.

Lemma returns_only_raise {Ev E A} (P : A -> Prop) (e : E) :
  returns_only P (raise e : Run Ev E A).
Proof. intros b. discriminate. Qed.

Lemma set_item_type (self : pyobj) (i : nat) (v self' : pyobj) :
  set_item self i v = Some self' -> Py_TYPE self' = Py_TYPE self.
Proof.
  unfold set_item. destruct self; try discriminate.
  destruct (decide _); [|discriminate]. intros [= <-]. reflexivity.
Qed.

Lemma set_item_or_raise_type (self : pyobj) (i : nat) (v : pyobj) :
  returns_only (fun r => Py_TYPE r = Py_TYPE self) (set_item_or_raise self i v).
Proof.
  unfold set_item_or_raise. apply returns_only_bind. intros _ _.
  destruct (set_item self i v) as [self'|] eqn:Hs; [|apply returns_only_raise].
  apply returns_only_ret. exact (set_item_type _ _ _ _ Hs).
Qed.

Lemma assign_items_type (sq_item : nat -> option pyobj) (n : nat) :
  forall (self : pyobj) (i : nat),
  returns_only (fun r => Py_TYPE r = Py_TYPE self) (assign_items sq_item self i n).
Proof.
  induction n as [|n IH]; intros self i; cbn [assign_items].
  - apply returns_only_ret. reflexivity.
  - apply returns_only_bind. intros _ _.
    destruct (sq_item i); [|apply returns_only_raise].
    apply returns_only_bind. intros self' Hs r Hr.
    rewrite (IH self' (S i) r Hr). exact (set_item_or_raise_type _ _ _ _ Hs).
Qed.

Lemma zero_value_type (n : string) (s : ArraySupplement) (v : pytype) :
  Py_TYPE (zero_value (ArrayType n s v)) = ArrayType n s v.
Proof. cbn [zero_value]. destruct (shape0 s); reflexivity. Qed.

Lemma array_init_seq_slots_type (n : string) (s0 : ArraySupplement) (v : pytype)
    (s : ArraySupplement) (sq_length : Z) (sq_item : nat -> option pyobj) :
  returns_only (fun r => Py_TYPE r = ArrayType n s0 v)
    (array_init_seq_slots (ArrayType n s0 v) s sq_length sq_item).
Proof.
  unfold array_init_seq_slots.
  apply returns_only_bind. intros _ _.
  apply returns_only_bind. intros _ _.
  apply returns_only_bind. intros _ _.
  destruct (_ && has_init_const s).
  { apply returns_only_bind. intros _ _.
    destruct (sq_item 0%nat); [|apply returns_only_raise].
    apply returns_only_bind. intros _ _. apply returns_only_ret. reflexivity. }
  destruct (_ && has_init_data s).
  { apply returns_only_bind. intros [storage|] _; [|apply returns_only_raise].
    apply returns_only_bind. intros _ _. apply returns_only_ret. reflexivity. }
  apply returns_only_bind. intros self Hself r Hr.
  rewrite (assign_items_type _ _ _ _ r Hr).
  destruct (bool_decide _); rewrite outcome_bind_emit in Hself;
    injection Hself as <-; [reflexivity | apply zero_value_type].
Qed.

Lemma array_init_seq_type (n : string) (s0 : ArraySupplement) (v : pytype)
    (s : ArraySupplement) (seq : pyobj) :
  returns_only (fun r => forall self, r = Some self ->
                                      Py_TYPE self = ArrayType n s0 v)
    (array_init_seq (ArrayType n s0 v) s seq).
Proof.
  unfold array_init_seq. destruct (slots_of seq) as [len' it|[items|]|].
  - apply returns_only_bind. intros self Hs. apply returns_only_ret.
    intros ? [= <-]. exact (array_init_seq_slots_type _ _ _ _ _ _ _ Hs).
  - apply returns_only_bind. intros _ _.
    apply returns_only_bind. intros self Hs. apply returns_only_ret.
    intros ? [= <-]. exact (array_init_seq_slots_type _ _ _ _ _ _ _ Hs).
  - apply returns_only_bind. intros _ _. apply returns_only_raise.
  - apply returns_only_ret. discriminate.
Qed.

Lemma fill_column_type (element : pyobj) (i n : nat) :
  forall (col : pyobj) (j : nat),
  returns_only (fun r => Py_TYPE r = Py_TYPE col) (fill_column element i col j n).
Proof.
  induction n as [|n IH]; intros col j; cbn [fill_column].
  - apply returns_only_ret. reflexivity.
  - apply returns_only_bind. intros col' Hc r Hr.
    rewrite (IH col' (S j) r Hr). unfold col_setitem in Hc.
    rewrite outcome_bind_emit in Hc.
    destruct (set_item col j _) as [c'|] eqn:Hs; [|discriminate].
    injection Hc as <-. exact (set_item_type _ _ _ _ Hs).
Qed.

Lemma fill_matrix_type (element : pyobj) (size n : nat) :
  forall (self : pyobj) (i : nat),
  returns_only (fun r => Py_TYPE r = Py_TYPE self)
    (fill_matrix element size self i n).
Proof.
  induction n as [|n IH]; intros self i; cbn [fill_matrix].
  - apply returns_only_ret. reflexivity.
  - apply returns_only_bind. intros _ _.
    destruct (item self i); [|apply returns_only_raise].
    destruct self; try apply returns_only_raise.
    apply returns_only_bind. intros col' _ r Hr.
    rewrite (IH _ _ r Hr). reflexivity.
Qed.

Lemma fill_plain_type (element : pyobj) (n : nat) :
  forall (self : pyobj) (i : nat),
  returns_only (fun r => Py_TYPE r = Py_TYPE self) (fill_plain element self i n).
Proof.
  induction n as [|n IH]; intros self i; cbn [fill_plain].
  - apply returns_only_ret. reflexivity.
  - apply returns_only_bind. intros self' Hs r Hr.
    rewrite (IH self' (S i) r Hr). exact (set_item_or_raise_type _ _ _ _ Hs).
Qed.

Lemma fill_type (s : ArraySupplement) (element : pyobj) (size : nat)
    (self : pyobj) :
  returns_only (fun r => Py_TYPE r = Py_TYPE self) (fill s element size self).
Proof.
  unfold fill. destruct (is_complex s).
  { apply returns_only_bind. intros s1 H1 r Hr.
    rewrite (set_item_or_raise_type _ _ _ _ Hr).
    exact (set_item_or_raise_type _ _ _ _ H1). }
  destruct (is_quaternion s).
  { apply returns_only_bind. intros s1 H1.
    apply returns_only_bind. intros s2 H2.
    apply returns_only_bind. intros s3 H3 r Hr.
    rewrite (set_item_or_raise_type _ _ _ _ Hr),
            (set_item_or_raise_type _ _ _ _ H3),
            (set_item_or_raise_type _ _ _ _ H2).
    exact (set_item_or_raise_type _ _ _ _ H1). }
  destruct (is_matrix s); [apply fill_matrix_type | apply fill_plain_type].
Qed.

Lemma broadcast_type (n : string) (s0 : ArraySupplement) (v : pytype)
    (s : ArraySupplement) (value : pytype)
    (call_value_type : pyobj -> M pyobj) (arg : pyobj) (t : bool) :
  returns_only (fun r => Py_TYPE r = ArrayType n s0 v)
    (broadcast (ArrayType n s0 v) s value call_value_type arg t).
Proof.
  unfold broadcast.
  apply returns_only_bind. intros _ _.
  apply returns_only_bind. intros element _. destruct (shape0 s).
  - apply returns_only_bind. intros _ _ r Hr.
    rewrite (fill_type _ _ _ _ r Hr). apply zero_value_type.
  - destruct (has_init_const s); apply returns_only_bind; intros _ _.
    + apply returns_only_ret. reflexivity.
    + intros r Hr. rewrite (fill_type _ _ _ _ r Hr). reflexivity.
Qed.

Lemma single_arg_route_copy (self_tp : pytype) (s : ArraySupplement)
    (value arg_tp : pytype) :
  single_arg_route self_tp s value arg_tp = Copy <-> 
  is_drjit_type arg_tp = true /\ arg_tp = self_tp.
Proof.
  unfold single_arg_route. destruct arg_tp as [| | | | | | | |n' s' v'| |];
    try (split; [discriminate | intros [H _]; discriminate H]).
  destruct (pytype_eqb _ _) eqn:He.
  - apply pytype_eqb_eq in He. split; [split; [reflexivity | exact He] | reflexivity].
  - apply pytype_eqb_neq in He. split.
    + destruct (_ && has_cast s); [discriminate|].
      destruct (_ && has_init_data s && has_data s'); [discriminate|].
      destruct (_ && _ && _ && _); discriminate.
    + intros [_ H]. contradiction.
Qed.

Lemma init_single_type (n : string) (s0 : ArraySupplement) (v : pytype)
    (s : ArraySupplement) (value : pytype)
    (call_value_type : pyobj -> M pyobj) (arg : pyobj) :
  returns_only (fun r => Py_TYPE r = ArrayType n s0 v)
    (init_single (ArrayType n s0 v) s value call_value_type arg).
Proof.
  unfold init_single.
  destruct (single_arg_route _ _ _ _) as [| | |t] eqn:Hroute.
  - apply single_arg_route_copy in Hroute as [_ Hroute].
    apply returns_only_bind. intros _ _. apply returns_only_ret. exact Hroute.
  - apply returns_only_bind. intros _ _.
    destruct arg; try apply returns_only_raise.
    destruct (supp _); [apply returns_only_ret; reflexivity | apply returns_only_raise].
  - destruct arg; try apply returns_only_raise.
    apply returns_only_bind. intros _ _. apply returns_only_ret. reflexivity.
  - apply returns_only_bind. intros [self|] Hr.
    + apply returns_only_ret.
      destruct t; [|discriminate Hr].
      exact (array_init_seq_type _ _ _ _ _ _ Hr self eq_refl).
    + apply broadcast_type.
Qed.

Lemma tp_init_array_type (self_tp : pytype) (args : list pyobj) (kwds : bool) :
  returns_only (fun r => Py_TYPE r = self_tp /\ is_drjit_type self_tp = true)
    (tp_init_array self_tp args kwds).
Proof.
  destruct self_tp as [| | | | | | | |n s value| |]; try apply returns_only_raise.
  cbn [tp_init_array].
  apply returns_only_bind. intros _ _.
  destruct args as [|arg [|b r]].
  - apply returns_only_bind. intros _ _. apply returns_only_ret.
    split; [apply zero_value_type | reflexivity].
  - intros r Hr. split; [|reflexivity]. exact (init_single_type _ _ _ _ _ _ _ r Hr).
  - apply returns_only_bind. intros [self|] Hs; [|apply returns_only_raise].
    apply returns_only_ret. split; [|reflexivity].
    exact (array_init_seq_type _ _ _ _ _ _ Hs self eq_refl).
Qed.

(** X3. Whatever the constructor returns is an instance of the type
    under construction, and constructing that type again from it takes
    the copy constructor, which returns it unchanged without reading an
    entry. *)
Theorem constructed_instance_has_the_type (self_tp : pytype)
    (args : list pyobj) (kwds : bool) (r : pyobj) :
  outcome (tp_init_array self_tp args kwds) = Ok r ->
  Py_TYPE r = self_tp /\
  tp_init_array self_tp [r] false = ([nb_inst_copy_call], Ok r).
Proof.
  intros Hr. destruct (tp_init_array_type self_tp args kwds r Hr) as [Ht Hd].
  split; [exact Ht|].
  destruct self_tp as [| | | | | | | |n s value| |]; try discriminate Hd.
  rewrite tp_init_array_single. unfold init_single.
  assert (Hroute : single_arg_route (ArrayType n s value) s value (Py_TYPE r) = Copy).
  { apply single_arg_route_copy. rewrite Ht. split; reflexivity. }
  rewrite Hroute. reflexivity.
Qed.

(** *** The bulk import *)

Lemma FROM_SEQ_IMPL_all (vt : VarType) (items : list pyobj) :
  forall (pre xs : list pyobj),
  convert_all vt items = Some xs ->
  FROM_SEQ_IMPL vt (fun i => (pre ++ items) !! i) (length pre) (length items)
  = (map sq_item_call (seq (length pre) (length items)), Ok (Some xs)).
Proof.
  unfold convert_all.
  induction items as [|x items IH]; intros pre xs Hc; cbn [FROM_SEQ_IMPL length].
  - injection Hc as <-. reflexivity.
  - cbn [mapM] in Hc. rewrite list_lookup_middle by reflexivity.
    destruct (from_python vt x) as [y|]; [|discriminate Hc].
    destruct (mapM (from_python vt) items) as [ys|]; [|discriminate Hc].
    injection Hc as <-.
    specialize (IH (pre ++ [x]) ys eq_refl).
    rewrite <- app_assoc, length_app in IH. cbn [app length] in IH.
    rewrite Nat.add_1_r in IH. rewrite bind_emit, IH.
    unfold bind, ret. cbn. rewrite app_nil_r. reflexivity.
Qed.

Lemma FROM_SEQ_IMPL_stops (vt : VarType) (good : list pyobj) (bad : pyobj)
    (rest : list pyobj) :
  forall pre : list pyobj,
  is_Some (convert_all vt good) -> from_python vt bad = None ->
  FROM_SEQ_IMPL vt (fun i => (pre ++ good ++ bad :: rest) !! i) (length pre)
    (length (good ++ bad :: rest))
  = (map sq_item_call (seq (length pre) (S (length good))), Ok None).
Proof.
  unfold convert_all.
  induction good as [|x good IH]; intros pre [xs Hc] Hbad;
    cbn [FROM_SEQ_IMPL length app].
  - rewrite list_lookup_middle by reflexivity. rewrite Hbad. reflexivity.
  - cbn [mapM] in Hc. rewrite list_lookup_middle by reflexivity.
    destruct (from_python vt x) as [y|]; [|discriminate Hc].
    destruct (mapM (from_python vt) good) as [ys|] eqn:Hg; [|discriminate Hc].
    specialize (IH (pre ++ [x]) (ex_intro _ ys eq_refl) Hbad).
    rewrite <- app_assoc, length_app in IH. cbn [app length] in IH.
    rewrite Nat.add_1_r in IH. rewrite bind_emit, IH.
    unfold bind, ret. cbn. rewrite app_nil_r. reflexivity.
Qed.

Lemma bulk_import_path (self_tp : pytype) (s : ArraySupplement)
    (items : list pyobj) :
  ndim s = 1%nat -> has_init_data s = true ->
  shape0 s = DRJIT_DYNAMIC \/ shape0 s = Fixed (length items) ->
  (length items = 1%nat -> has_init_const s = false) ->
  from_seq_supported (type s) = true ->
  array_init_seq_slots self_tp s (Z.of_nat (length items)) (fun i => items !! i)
  = (emit sq_length_call ;;;
     r <- FROM_SEQ_IMPL (type s) (fun i => items !! i) 0 (length items) ;;
     match r with
     | None => raise E_invalid_type
     | Some storage =>
         emit (init_data_call (length items)) ;;;
         ret (PyArray self_tp storage)
     end).
Proof.
  intros Hn Hd Hshape Hconst Hsup.
  unfold array_init_seq_slots. rewrite !bind_emit. cbv beta.
  assert (Hneg : (Z.of_nat (length items) <? 0)%Z = false) by lia.
  rewrite Hneg. cbn [raise_if]. rewrite bind_ret_l.
  assert (Hone : ((Z.of_nat (length items) =? 1)%Z && has_init_const s) = false).
  { destruct (Z.eqb_spec (Z.of_nat (length items)) 1) as [H1|H1]; [|reflexivity].
    rewrite Hconst by lia. reflexivity. }
  rewrite Hone, (bool_decide_eq_true_2 _ Hn), Hd, Hsup, Nat2Z.id.
  destruct Hshape as [-> | ->].
  - rewrite bind_ret_l. reflexivity.
  - rewrite Z.eqb_refl. cbn [negb raise_if]. rewrite bind_ret_l. reflexivity.
Qed.

(** X4. The bulk import of a sequence into a 1-D type with the
    [init_data] primitive converts every item with the caster of the
    element kind, in order, and hands the converted items to [init_data];
    at the first item that the caster rejects it stops, fetches no later
    item, and the constructor fails with "invalid type in input". *)
Theorem bulk_import_converts_in_order (self_tp : pytype) (s : ArraySupplement)
    (items : list pyobj) :
  ndim s = 1%nat -> has_init_data s = true ->
  shape0 s = DRJIT_DYNAMIC \/ shape0 s = Fixed (length items) ->
  (length items = 1%nat -> has_init_const s = false) ->
  from_seq_supported (type s) = true ->
  (forall xs : list pyobj,
     convert_all (type s) items = Some xs ->
     array_init_seq self_tp s (PyList items)
     = (sq_length_call :: map sq_item_call (seq 0 (length items))
          ++ [init_data_call (length items)],
        Ok (Some (PyArray self_tp xs)))) /\
  (forall (good : list pyobj) (bad : pyobj) (rest : list pyobj),
     items = good ++ bad :: rest ->
     is_Some (convert_all (type s) good) -> from_python (type s) bad = None ->
     array_init_seq self_tp s (PyList items)
     = (sq_length_call :: map sq_item_call (seq 0 (S (length good))),
        Raise E_invalid_type)).
Proof.
  intros Hn Hd Hshape Hconst Hsup.
  unfold array_init_seq. cbn [slots_of slots_of_list].
  rewrite (bulk_import_path self_tp s items Hn Hd Hshape Hconst Hsup).
  split.
  - intros xs Hc.
    pose proof (FROM_SEQ_IMPL_all (type s) items [] xs Hc) as Hf.
    cbn [app length] in Hf. rewrite Hf.
    unfold bind, emit, ret. cbn. rewrite !app_nil_r. reflexivity.
  - intros good bad rest -> Hgood Hbad.
    pose proof (FROM_SEQ_IMPL_stops (type s) good bad rest [] Hgood Hbad) as Hf.
    cbn [app length] in Hf. cbn [length]. rewrite Hf.
    unfold bind, emit, ret, raise. cbn. rewrite !app_nil_r. reflexivity.
Qed.

End MoreConstructorFacts.

(** Witness of X1: three floats for the three-float array of the scalar
    backend. *)
Lemma argument_list_is_tuple_witness :
  let args := [PyLong 1; PyLong 2; PyLong 3] in
  tp_init_array (host := reference_host) scalar_Array3f args false
  = tp_init_array (host := reference_host) scalar_Array3f [PyTuple args] false.
Proof.
  intros args. apply (argument_list_is_tuple (host := reference_host)).
  simpl. lia.
Defined.

(** Witness of X3: the three-float array built from a float. *)
Lemma constructed_instance_has_the_type_witness :
  let one := PyFloat (float_of_Z 1) in
  let r := PyArray scalar_Array3f [one; one; one] in
  Py_TYPE r = scalar_Array3f /\
  tp_init_array (host := reference_host) scalar_Array3f [r] false
  = ([nb_inst_copy_call], Ok r).
Proof.
  intros one r.
  apply (constructed_instance_has_the_type (host := reference_host)
           scalar_Array3f [one] false r).
  reflexivity.
Defined.

(** Witness of X4: three integers for a JIT leaf of 32-bit integers, and
    a list whose second item is a string. *)
Lemma bulk_import_converts_in_order_witness :
  array_init_seq (host := reference_host) Int (jit_supp VtInt32)
    (PyList [PyLong 1; PyLong 2; PyLong 3])
  = ([sq_length_call; sq_item_call 0; sq_item_call 1; sq_item_call 2;
      init_data_call 3],
     Ok (Some (PyArray Int [PyLong 1; PyLong 2; PyLong 3]))) /\
  array_init_seq (host := reference_host) Int (jit_supp VtInt32)
    (PyList [PyLong 1; PyStr "a"; PyLong 3])
  = ([sq_length_call; sq_item_call 0; sq_item_call 1], Raise E_invalid_type).
Proof.
  split.
  - apply (bulk_import_converts_in_order (host := reference_host) Int
             (jit_supp VtInt32) [PyLong 1; PyLong 2; PyLong 3]);
      try reflexivity; [left; reflexivity | discriminate].
  - apply (bulk_import_converts_in_order (host := reference_host) Int
             (jit_supp VtInt32) [PyLong 1; PyStr "a"; PyLong 3]
             eq_refl eq_refl (or_introl eq_refl)
             (fun H => ltac:(discriminate H)) eq_refl)
      with (good := [PyLong 1]) (bad := PyStr "a") (rest := [PyLong 3]);
      [reflexivity | eexists; reflexivity | reflexivity].
Defined.

(** Witness of X2: keyword arguments end the constructor in the
    keyword-argument error. *)
Lemma argument_list_error_unreachable_witness :
  E_kwargs <> E_arglist /\ constructor_error E_kwargs = true.
Proof.
  apply (argument_list_error_unreachable (host := reference_host)
           scalar_Array3f [PyLong 1; PyLong 2] true E_kwargs).
  reflexivity.
Defined.

(** ** Edge cases of the sequence import *)

Section ImportEdgeFacts.
Context {host : Host}.

(** X5. A sequence of exactly one item, given to a type with the
    constant primitive, is not converted at all: the item is fetched
    once and handed to [init_const] as it is. In particular a 1-D type
    with bulk import whose element kind the bulk import does not
    support accepts a one-item list, while it rejects every list of
    another length before fetching an item. *)
Theorem one_item_sequence_is_a_constant (self_tp : pytype)
    (s : ArraySupplement) :
  has_init_const s = true ->
  shape0 s = DRJIT_DYNAMIC \/ shape0 s = Fixed 1 ->
  (forall o : pyobj,
     array_init_seq self_tp s (PyList [o])
     = ([sq_length_call; sq_item_call 0; init_const_call 1 o],
        Ok (Some (PyArray self_tp [o])))) /\
  (ndim s = 1%nat -> has_init_data s = true ->
   from_seq_supported (type s) = false -> shape0 s = DRJIT_DYNAMIC ->
   forall items : list pyobj, length items <> 1%nat ->
     array_init_seq self_tp s (PyList items)
     = ([sq_length_call], Raise E_invalid_type)).
Proof.
  intros Hconst Hshape. split.
  - intros o. unfold array_init_seq. cbn [slots_of slots_of_list length].
    unfold array_init_seq_slots. rewrite Hconst.
    destruct Hshape as [-> | ->]; reflexivity.
  - intros Hn Hd Hsup Hdyn items Hlen.
    unfold array_init_seq. cbn [slots_of slots_of_list].
    unfold array_init_seq_slots. rewrite Hdyn, Hd, Hsup.
    rewrite (bool_decide_eq_true_2 _ Hn).
    assert (Hneg : (Z.of_nat (length items) <? 0)%Z = false) by lia.
    assert (Hone : (Z.of_nat (length items) =? 1)%Z = false)
      by (apply Z.eqb_neq; lia).
    rewrite Hneg, Hone. reflexivity.
Qed.

(** X6. An iterable that is no sequence is first turned into a list
    and then imported as that list: the constructor makes the same
    calls, after the one to [PySequence_List], and ends in the same
    way. If the iteration raises, the constructor ends in "Could not
    convert iterable into a sequence.". *)
Theorem iterable_is_imported_as_list (n : string) (s : ArraySupplement)
    (value : pytype) (items : list pyobj) :
  let self_tp := ArrayType n s value in
  log_of (tp_init_array self_tp [PyGen items] false)
  = PySequence_List_call :: log_of (tp_init_array self_tp [PyList items] false) /\
  outcome (tp_init_array self_tp [PyGen items] false)
  = outcome (tp_init_array self_tp [PyList items] false) /\
  tp_init_array self_tp [PyBadGen] false
  = ([PySequence_List_call], Raise E_iterable).
Proof.
  intros self_tp. unfold self_tp. rewrite !tp_init_array_single.
  unfold init_single. cbn [Py_TYPE single_arg_route].
  unfold array_init_seq. cbn [slots_of slots_of_list].
  destruct (array_init_seq_slots (ArrayType n s value) s
              (Z.of_nat (length items)) (fun i => items !! i)) as [l [a|e]];
    repeat split; unfold bind, emit, ret; cbn; rewrite ?app_nil_r; reflexivity.
Qed.

End ImportEdgeFacts.

(** Witness of X5: the half-precision leaf accepts one item and rejects
    two. *)
Lemma one_item_sequence_is_a_constant_witness :
  let x := PyFloat (float_of_Z 1) in
  array_init_seq (host := reference_host) Float16 (jit_supp VtFloat16) (PyList [x])
  = ([sq_length_call; sq_item_call 0; init_const_call 1 x],
     Ok (Some (PyArray Float16 [x]))) /\
  array_init_seq (host := reference_host) Float16 (jit_supp VtFloat16)
    (PyList [x; x])
  = ([sq_length_call], Raise E_invalid_type).
Proof.
  intros x.
  destruct (one_item_sequence_is_a_constant (host := reference_host) Float16
              (jit_supp VtFloat16) eq_refl (or_introl eq_refl)) as [Hone Hrest].
  split; [apply Hone|].
  apply Hrest; try reflexivity. discriminate.
Defined.

(** ** Conversions and failing sequences *)

Section ConversionFacts.
Context {host : Host}.

(** X7. A single argument that is a Dr.Jit array of another type: if
    its descriptor differs from the target's in the element kind only
    and the target has the [cast] primitive, the constructor is that
    cast, lane by lane, and touches no sequence slot; if there is no
    cast, and the argument is the host vector of the target's
    descriptor and offers its data, the constructor is one bulk import
    of its entries, unchanged. *)
Theorem conversion_constructors (n : string) (s : ArraySupplement)
    (value : pytype) (n' : string) (s' : ArraySupplement) (v' : pytype)
    (items : list pyobj) :
  let self_tp := ArrayType n s value in
  let arg_tp := ArrayType n' s' v' in
  let arg := PyArray arg_tp items in
  arg_tp <> self_tp ->
  (set_type s' (type s) = meta s -> has_cast s = true ->
   tp_init_array self_tp [arg] false
   = ([cast_call], Ok (PyArray self_tp (cast (type s') (type s) items))) /\
   length (cast (type s') (type s) items) = length items) /\
  (set_type s' (type s) <> meta s \/ has_cast s = false ->
   set_backend_vector s BackendInvalid true = meta s' ->
   has_init_data s = true -> has_data s' = true ->
   tp_init_array self_tp [arg] false
   = ([init_data_call (length items)], Ok (PyArray self_tp items))).
Proof.
  intros self_tp arg_tp arg Hne. subst self_tp arg_tp arg.
  rewrite tp_init_array_single. unfold init_single.
  cbn [Py_TYPE single_arg_route supp].
  rewrite (proj2 (pytype_eqb_neq _ _) Hne).
  split.
  - intros Hm Hc. rewrite (bool_decide_eq_true_2 _ Hm), Hc. cbn [andb].
    split; [reflexivity|]. unfold cast. apply length_map.
  - intros Hno Hv Hd Hdata.
    assert (Hcast : bool_decide (set_type s' (type s) = meta s) && has_cast s = false).
    { destruct Hno as [Hm | ->]; [|apply andb_false_r].
      rewrite (bool_decide_eq_false_2 _ Hm). reflexivity. }
    rewrite Hcast, (bool_decide_eq_true_2 _ Hv), Hd, Hdata. reflexivity.
Qed.

Lemma FROM_SEQ_IMPL_short (vt : VarType) (items : list pyobj) :
  forall pre : list pyobj,
  is_Some (convert_all vt items) ->
  outcome (FROM_SEQ_IMPL vt (fun i => (pre ++ items) !! i) (length pre)
             (S (length items)))
  = Ok None.
Proof.
  unfold convert_all.
  induction items as [|x items IH]; intros pre [xs Hc].
  - cbn [FROM_SEQ_IMPL length].
    rewrite outcome_bind_emit, app_nil_r, lookup_ge_None_2 by lia. reflexivity.
  - remember (length (x :: items)) as m eqn:Hm. cbn [FROM_SEQ_IMPL].
    subst m. cbn [length].
    cbn [mapM] in Hc. rewrite outcome_bind_emit.
    rewrite list_lookup_middle by reflexivity.
    destruct (from_python vt x) as [y|]; [|discriminate Hc].
    destruct (mapM (from_python vt) items) as [ys|] eqn:Hg; [|discriminate Hc].
    specialize (IH (pre ++ [x]) (ex_intro _ ys eq_refl)).
    rewrite <- app_assoc, length_app in IH. cbn [app length] in IH.
    rewrite Nat.add_1_r in IH. rewrite outcome_bind, IH. reflexivity.
Qed.

Lemma assign_items_short (tp : pytype) (todo : list pyobj) :
  forall (pre self_items : list pyobj),
  length self_items = (length pre + S (length todo))%nat ->
  outcome (assign_items (fun i => (pre ++ todo) !! i) (PyArray tp self_items)
             (length pre) (S (length todo)))
  = Raise E_item_retrieval.
Proof.
  induction todo as [|x todo IH]; intros pre self_items Hlen.
  - cbn [assign_items length].
    rewrite outcome_bind_emit, app_nil_r, lookup_ge_None_2 by lia. reflexivity.
  - remember (length (x :: todo)) as m eqn:Hm. cbn [assign_items].
    subst m. cbn [length].
    rewrite outcome_bind_emit. rewrite list_lookup_middle by reflexivity.
    rewrite outcome_bind. unfold set_item_or_raise at 1.
    rewrite outcome_bind_emit. cbn [set_item].
    destruct (decide (length pre < length self_items)%nat) as [_|Hge];
      [|cbn [length] in Hlen; lia].
    cbn [outcome ret snd].
    specialize (IH (pre ++ [x]) (<[length pre:=x]> self_items)).
    rewrite <- app_assoc, length_app in IH. cbn [app length] in IH.
    rewrite Nat.add_1_r in IH. apply IH.
    rewrite length_insert. cbn [length] in Hlen. lia.
Qed.

(** X8. A sequence whose length slot fails ends the import in "Unable
    to determine the size of the given sequence." before any item is
    fetched. A sequence that serves fewer items than its length slot
    reports is reported differently by the two import loops of a
    dynamically sized type: the bulk import ends in "invalid type in
    input", the item-by-item import in "Item retrieval failed.". *)
Theorem sequence_slot_failures (self_tp : pytype) (s : ArraySupplement)
    (items : list pyobj) :
  (forall n : Z, (n < 0)%Z ->
   array_init_seq self_tp s (PyCustomSeq n items)
   = ([sq_length_call], Raise E_seq_size)) /\
  (let seq := PyCustomSeq (Z.of_nat (S (length items))) items in
   shape0 s = DRJIT_DYNAMIC -> items <> [] ->
   (ndim s = 1%nat -> has_init_data s = true ->
    from_seq_supported (type s) = true -> is_Some (convert_all (type s) items) ->
    outcome (array_init_seq self_tp s seq) = Raise E_invalid_type) /\
   (has_init_data s = false ->
    outcome (array_init_seq self_tp s seq) = Raise E_item_retrieval)).
Proof.
  split.
  - intros n Hn. unfold array_init_seq. cbn [slots_of].
    unfold array_init_seq_slots. rewrite (proj2 (Z.ltb_lt n 0) Hn). reflexivity.
  - intros seq Hdyn Hne. unfold seq, array_init_seq. cbn [slots_of].
    rewrite outcome_bind.
    assert (Hchoice :
      outcome (array_init_seq_slots self_tp s (Z.of_nat (S (length items)))
                 (fun i => items !! i))
      = if bool_decide (ndim s = 1%nat) && has_init_data s then
          match outcome (if from_seq_supported (type s)
                         then FROM_SEQ_IMPL (type s) (fun i => items !! i) 0
                                (S (length items))
                         else ret None) with
          | Ok (Some storage) => Ok (PyArray self_tp storage)
          | Ok None => Raise E_invalid_type
          | Raise e => Raise e
          end
        else outcome (assign_items (fun i => items !! i)
                        (PyArray self_tp
                           (replicate (S (length items)) uninitialized))
                        0 (S (length items)))).
    { unfold array_init_seq_slots. rewrite outcome_bind_emit.
      assert (Hneg : (Z.of_nat (S (length items)) <? 0)%Z = false)
        by (apply Z.ltb_ge; lia).
      assert (Hone : (Z.of_nat (S (length items)) =? 1)%Z = false).
      { apply Z.eqb_neq. destruct items; [contradiction | cbn [length]; lia]. }
      rewrite Hneg, Hone, Hdyn, Nat2Z.id. cbn [raise_if andb].
      rewrite !bind_ret_l.
      destruct (bool_decide (ndim s = 1%nat) && has_init_data s).
      - rewrite outcome_bind.
        destruct (outcome (if from_seq_supported (type s) then _ else _))
          as [[storage|]|e]; reflexivity.
      - rewrite (bool_decide_eq_true_2 _ eq_refl).
        rewrite outcome_bind, outcome_bind_emit. reflexivity. }
    rewrite Hchoice. split.
    + intros Hn Hd Hsup Hconv.
      rewrite (bool_decide_eq_true_2 _ Hn), Hd, Hsup. cbn [andb].
      pose proof (FROM_SEQ_IMPL_short (type s) items [] Hconv) as Hf.
      cbn [app length] in Hf. rewrite Hf. reflexivity.
    + intros Hd. rewrite Hd, andb_false_r.
      pose proof (assign_items_short self_tp items []
                    (replicate (S (length items)) uninitialized)) as Ha.
      cbn [app length] in Ha. rewrite Ha; [reflexivity|].
      rewrite length_replicate. reflexivity.
Qed.

End ConversionFacts.

(** Witness of X7: a JIT leaf of signed integers built from one of
    unsigned integers. *)
Lemma conversion_constructors_witness :
  tp_init_array (host := reference_host) Int
    [PyArray UInt_tp [PyLong 1; PyLong 2]] false
  = ([cast_call], Ok (PyArray Int [PyLong 1; PyLong 2])).
Proof.
  destruct (conversion_constructors (host := reference_host)
              "drjit.llvm.Int" (jit_supp VtInt32) PyLong_Type
              "drjit.llvm.UInt" (jit_supp VtUInt32) PyLong_Type
              [PyLong 1; PyLong 2] ltac:(discriminate)) as [Hcast _].
  destruct (Hcast eq_refl eq_refl) as [Hr _]. exact Hr.
Defined.

(** ** [full] and its bindings *)

Section MoreFullFacts.
Context {host : Host}.

Lemma existsb_false {A} (f : A -> bool) (l : list A) :
  (forall x, In x l -> f x = false) -> existsb f l = false.
Proof.
  intros Hf. induction l as [|x l IH]; [reflexivity|]. simpl.
  rewrite (Hf x) by (left; reflexivity). apply IH.
  intros y Hy. apply Hf. right. exact Hy.
Qed.

Lemma existsb_false_in {A} (f : A -> bool) (l : list A) (x : A) :
  existsb f l = false -> In x l -> f x = false.
Proof.
  intros He Hx. destruct (f x) eqn:Hfx; [|reflexivity].
  rewrite <- He. symmetry. apply existsb_exists. exists x. split; assumption.
Qed.

Lemma shape_of_size_fits (n : string) (s : ArraySupplement) (v : pytype)
    (size : nat) :
  shape_mismatch s (shape_of_size (ArrayType n s v) size) = false.
Proof.
  unfold shape_mismatch, shape_of_size.
  rewrite length_map, length_seq, Nat.eqb_refl. cbn [negb orb].
  apply existsb_false. intros i Hi. apply in_seq in Hi.
  destruct (nth i (shape s) (Fixed 0)) as [k|] eqn:Hk; [|reflexivity].
  apply negb_false_iff, Nat.eqb_eq.
  set (g := fun i : nat =>
              match nth i (shape s) (Fixed 0) with
              | Fixed k => k
              | DRJIT_DYNAMIC => if (i =? ndim s - 1)%nat then size else 1%nat
              end).
  rewrite (nth_indep (map g (seq 0 (ndim s))) 0%nat (g 0%nat))
    by (rewrite length_map, length_seq; lia).
  rewrite (map_nth g), seq_nth by lia. cbn [Nat.add]. unfold g.
  rewrite Hk. reflexivity.
Qed.

Lemma shape_mismatch_tl (s s' : ArraySupplement) (shape' : list nat) :
  ndim s = S (ndim s') -> shape s' = tl (shape s) ->
  shape_mismatch s shape' = false -> shape_mismatch s' (tl shape') = false.
Proof.
  unfold shape_mismatch. intros Hn Hs Hm.
  apply orb_false_elim in Hm as [Hlen Hex].
  apply negb_false_iff, Nat.eqb_eq in Hlen.
  destruct shape' as [|x sh]; [simpl in Hlen; lia|].
  cbn [tl length] in *.
  assert (Hlen' : ndim s' = length sh) by lia.
  rewrite Hlen', Nat.eqb_refl. cbn [negb orb].
  apply existsb_false. intros i Hi. apply in_seq in Hi.
  pose proof (existsb_false_in _ _ (S i) Hex) as Hsi.
  cbv beta in Hsi. rewrite Hs.
  replace (nth i (tl (shape s)) (Fixed 0)) with (nth (S i) (shape s) (Fixed 0))
    by (destruct (shape s); [destruct i|]; reflexivity).
  cbn [nth] in Hsi. apply Hsi. apply in_seq. lia.
Qed.

Lemma full_items_errors (p : error -> bool) (mk : M pyobj) (valid : bool)
    (n : nat) :
  raises_only p mk ->
  forall (result o : pyobj) (i : nat),
  raises_only p (full_items mk valid result o i n).
Proof.
  intros Hmk. induction n as [|n IH]; intros result o i; cbn [full_items].
  - apply raises_only_ret.
  - apply raises_only_bind.
    { destruct (_ || _); [exact Hmk | apply raises_only_ret]. }
    intros o' _. apply raises_only_bind; [apply raises_only_emit|].
    intros _ _. apply IH.
Qed.

Lemma full_host_errors (value : option pyobj) (tp : pytype) (shape' : list nat) :
  is_drjit_type tp = false -> (forall m fs, tp <> StructType m fs) ->
  raises_only not_shape_dtype (full tp value shape').
Proof.
  intros Hd Hs.
  destruct tp; try discriminate Hd; try (apply raises_only_raise; reflexivity);
    try (cbn [full]; destruct (host_call _ _);
         [apply raises_only_ret | apply raises_only_raise; reflexivity]).
  exfalso. exact (Hs _ _ eq_refl).
Qed.

Lemma full_array_errors (value : option pyobj) (n : string)
    (s : ArraySupplement) (v : pytype) (shape' : list nat) :
  shape_mismatch s shape' = false ->
  raises_only not_shape_dtype (full v value (tl shape')) ->
  raises_only not_shape_dtype (full (ArrayType n s v) value shape').
Proof.
  intros Hm Hv. cbn [full]. rewrite Hm. cbn [raise_if]. rewrite bind_ret_l.
  assert (Hrest :
    raises_only not_shape_dtype
      (result <- (if bool_decide (shape0 s = DRJIT_DYNAMIC)
                  then emit (init_call (nth 0 shape' 0%nat)) ;;;
                       ret (PyArray (ArrayType n s v)
                              (replicate (nth 0 shape' 0%nat) uninitialized))
                  else emit nb_inst_zero_call ;;;
                       ret (zero_value (ArrayType n s v))) ;;
       if negb (bool_decide (is_Some value)) && (length shape' =? 1)%nat
       then ret result
       else full_items (full v value (tl shape'))
              (bool_decide (is_Some value)) result PyNone 0 (nth 0 shape' 0%nat))).
  { apply raises_only_bind.
    { destruct (bool_decide _);
        (apply raises_only_bind; [apply raises_only_emit|]); intros _ _;
        apply raises_only_ret. }
    intros result _. destruct (_ && _); [apply raises_only_ret|].
    apply full_items_errors. exact Hv. }
  destruct (has_init_const s); [|exact Hrest].
  destruct value as [x|]; [|exact Hrest].
  apply raises_only_bind.
  { destruct (type s); try apply raises_only_ret.
    destruct x; try apply raises_only_ret.
    unfold int_to_bool.
    destruct ((-2147483648 <=? z) && (z <=? 2147483647))%Z;
      [apply raises_only_ret | apply raises_only_raise; reflexivity]. }
  intros x' _. apply raises_only_bind; [apply raises_only_emit|].
  intros _ _. apply raises_only_ret.
Qed.

Lemma full_shape_accepted (value : option pyobj) (dtype : pytype) :
  coherent dtype ->
  forall shape' : list nat, shape_fits dtype shape' ->
  raises_only not_shape_dtype (full dtype value shape').
Proof.
  induction 1 as [n s n' s' v' Hn Hs Hc IH|n s v Hd Hns|n fs Hc IH|tp Hd Hns];
    intros shape' Hfit.
  - apply full_array_errors; [exact Hfit|].
    apply IH. exact (shape_mismatch_tl s s' shape' Hn Hs Hfit).
  - apply full_array_errors; [exact Hfit|].
    apply full_host_errors; assumption.
  - cbn [full]. cbn [shape_fits] in Hfit.
    generalize (PyStruct (StructType n fs) []) as acc.
    induction fs as [|[k [t|]] kvs IHkvs]; intros acc.
    + apply raises_only_ret.
    + assert (Ht : forall sh, shape_fits t sh ->
                   raises_only not_shape_dtype (full t value sh)).
      { apply (IH k t). left. reflexivity. }
      apply raises_only_bind.
      { rewrite Hfit. cbn [Nat.eqb]. rewrite andb_true_r.
        destruct t as [| | | | | | | |tn ts tv|tn tfs|tn]; cbn [is_drjit_type];
          try (apply Ht; exact I).
        - apply Ht. apply shape_of_size_fits.
        - apply Ht. exact Hfit. }
      intros entry _. apply raises_only_bind; [apply raises_only_emit|].
      intros _ _. apply IHkvs.
      * intros k0 t0 Hin. apply (Hc k0 t0). right. exact Hin.
      * intros k0 t0 Hin. apply (IH k0 t0). right. exact Hin.
    + apply raises_only_raise. reflexivity.
  - apply full_host_errors; assumption.
Qed.

(** X9. For an array or record type whose descriptors agree with those
    of their components, [full] with a [size] (and with it [empty],
    [zeros] and [ones]) never raises "The provided 'shape' and 'dtype'
    parameters are incompatible.": the shape that the overload derives
    passes the test of the type and of every component. *)
Theorem size_overload_shape_accepted (dtype : pytype) (value : option pyobj)
    (size : nat) :
  coherent dtype ->
  outcome (full_size dtype value size) <> Raise E_shape_dtype /\
  outcome (empty dtype size) <> Raise E_shape_dtype /\
  outcome (zeros dtype size) <> Raise E_shape_dtype /\
  outcome (ones dtype size) <> Raise E_shape_dtype.
Proof.
  intros Hc.
  assert (H : forall v, outcome (full_size dtype v size) <> Raise E_shape_dtype).
  { intros v Hr. unfold full_size in Hr.
    assert (Hfit : shape_fits dtype (shape_of_size dtype size)).
    { destruct dtype; try exact I; [apply shape_of_size_fits | reflexivity]. }
    pose proof (full_shape_accepted v dtype Hc _ Hfit _ Hr) as Hp.
    discriminate Hp. }
  unfold empty, zeros, ones. repeat split; apply H.
Qed.

(** X10. For a 1-D dynamically sized type, [empty] allocates [size]
    entries and assigns none of them, whether or not the type has the
    constant primitive; with that primitive, [zeros] and [ones] are one
    constant broadcast of the integer 0 or 1, which is replaced by
    [False] or [True] when the element kind is Bool. *)
Theorem empty_zeros_ones_of_leaf (n : string) (s : ArraySupplement)
    (value : pytype) (size : nat) :
  let dtype := ArrayType n s value in
  let const (z : Z) :=
    if bool_decide (type s = VtBool) then PyBool (negb (z =? 0)%Z) else PyLong z in
  dynamic_1d s ->
  empty dtype size
  = ([init_call size], Ok (PyArray dtype (replicate size uninitialized))) /\
  (has_init_const s = true ->
   zeros dtype size
   = ([init_const_call size (const 0%Z)],
      Ok (PyArray dtype (replicate size (const 0%Z)))) /\
   ones dtype size
   = ([init_const_call size (const 1%Z)],
      Ok (PyArray dtype (replicate size (const 1%Z))))).
Proof.
  intros dtype const Hdyn. unfold empty, zeros, ones, full_size, dtype.
  rewrite (shape_of_size_1d n s value size Hdyn).
  cbn [full]. rewrite (shape_mismatch_1d s size Hdyn).
  cbn [raise_if]. rewrite !bind_ret_l. cbn [nth length tl].
  destruct Hdyn as [Hn Hs]. split.
  - rewrite (bool_decide_eq_true_2 _ Hs).
    destruct (has_init_const s); reflexivity.
  - intros ->. unfold const.
    destruct (type s); split; reflexivity.
Qed.

(** *** The loop over the first axis *)

Lemma full_items_log_valid (mk : M pyobj) (o : pyobj) (n : nat) :
  outcome mk = Ok o ->
  forall (result o_in : pyobj) (i : nat),
  i = 0%nat \/ o_in = o ->
  log_of (full_items mk true result o_in i n)
  = (if (i =? 0)%nat && (0 <? n)%nat then log_of mk else [])
    ++ map (fun j => set_item_call j o) (seq i n).
Proof.
  intros Hmk. induction n as [|n IH]; intros result o_in i Hi;
    cbn [full_items seq map].
  - destruct (i =? 0)%nat; reflexivity.
  - rewrite log_bind. cbn [negb]. rewrite orb_false_r.
    destruct (i =? 0)%nat eqn:Hi0.
    + rewrite Hmk, log_bind_emit, IH by (right; reflexivity).
      cbn [andb Nat.eqb Nat.ltb Nat.leb]. reflexivity.
    + destruct Hi as [-> | ->]; [discriminate Hi0|].
      cbn [outcome ret snd log_of fst app andb].
      rewrite log_bind_emit, IH by (right; reflexivity).
      cbn [Nat.eqb andb app]. reflexivity.
Qed.

Lemma full_items_log_empty (mk : M pyobj) (o : pyobj) (n : nat) :
  outcome mk = Ok o ->
  forall (result o_in : pyobj) (i : nat),
  log_of (full_items mk false result o_in i n)
  = flat_map (fun j => log_of mk ++ [set_item_call j o]) (seq i n).
Proof.
  intros Hmk. induction n as [|n IH]; intros result o_in i;
    cbn [full_items seq flat_map]; [reflexivity|].
  rewrite log_bind. cbn [negb]. rewrite orb_true_r.
  rewrite Hmk, log_bind_emit, IH, <- app_assoc. reflexivity.
Qed.

(** X11. Where [full] fills an array entry by entry, it builds the
    component once when it is given a value, and assigns that one
    component to every entry; without a value (as [empty] calls it) it
    builds a component of its own for every entry. *)
Theorem component_built_once (n : string) (s : ArraySupplement) (v : pytype)
    (value : option pyobj) (shape' : list nat) (o : pyobj) :
  let k := nth 0 shape' 0%nat in
  let mk := full v value (tl shape') in
  let alloc := if bool_decide (shape0 s = DRJIT_DYNAMIC)
               then init_call k else nb_inst_zero_call in
  shape_mismatch s shape' = false ->
  outcome mk = Ok o ->
  (forall x, value = Some x -> has_init_const s = false ->
   log_of (full (ArrayType n s v) value shape')
   = alloc :: (if (0 <? k)%nat then log_of mk else [])
           ++ map (fun j => set_item_call j o) (seq 0 k)) /\
  (value = None -> (2 <= length shape')%nat ->
   log_of (full (ArrayType n s v) value shape')
   = alloc :: flat_map (fun j => log_of mk ++ [set_item_call j o]) (seq 0 k)).
Proof.
  intros k mk alloc Hm Hmk. split.
  - intros x -> Hc. cbn [full]. rewrite Hm, Hc. cbn [raise_if].
    rewrite bind_ret_l, log_bind.
    rewrite (bool_decide_eq_true_2 (is_Some (Some x))) by (eexists; reflexivity).
    cbn [negb andb]. unfold alloc.
    destruct (bool_decide (shape0 s = DRJIT_DYNAMIC));
      rewrite log_bind_emit, outcome_bind_emit;
      cbn [ret log_of outcome fst snd app];
      rewrite (full_items_log_valid _ o _ Hmk) by (left; reflexivity);
      reflexivity.
  - intros -> Hlen. cbn [full]. rewrite Hm. cbn [raise_if].
    rewrite bind_ret_l.
    assert (Hb : bool_decide (is_Some (@None pyobj)) = false).
    { apply bool_decide_eq_false_2. intros [? H]. discriminate H. }
    assert (H1 : (length shape' =? 1)%nat = false) by (apply Nat.eqb_neq; lia).
    assert (Hlog : log_of
      (result <- (if bool_decide (shape0 s = DRJIT_DYNAMIC)
                  then emit (init_call (nth 0 shape' 0%nat)) ;;;
                       ret (PyArray (ArrayType n s v)
                              (replicate (nth 0 shape' 0%nat) uninitialized))
                  else emit nb_inst_zero_call ;;;
                       ret (zero_value (ArrayType n s v))) ;;
       if negb (bool_decide (is_Some (@None pyobj))) && (length shape' =? 1)%nat
       then ret result
       else full_items (full v None (tl shape'))
              (bool_decide (is_Some (@None pyobj))) result PyNone 0
              (nth 0 shape' 0%nat))
      = alloc :: flat_map (fun j => log_of mk ++ [set_item_call j o]) (seq 0 k)).
    { rewrite log_bind, Hb, H1. cbn [negb andb]. unfold alloc.
      destruct (bool_decide (shape0 s = DRJIT_DYNAMIC));
        rewrite log_bind_emit, outcome_bind_emit;
        cbn [ret log_of outcome fst snd app];
        rewrite (full_items_log_empty _ o _ Hmk); reflexivity. }
    destruct (has_init_const s); exact Hlog.
Qed.

End MoreFullFacts.

(** Witness of X9: a record with a three-column array and a leaf. *)
Lemma size_overload_shape_accepted_witness :
  outcome (full_size (host := reference_host) Ray None 4) <> Raise E_shape_dtype /\
  outcome (empty (host := reference_host) Ray 4) <> Raise E_shape_dtype /\
  outcome (zeros (host := reference_host) Ray 4) <> Raise E_shape_dtype /\
  outcome (ones (host := reference_host) Ray 4) <> Raise E_shape_dtype.
Proof.
  assert (Hfloat : coherent Float).
  { apply coherent_leaf; [reflexivity | discriminate]. }
  assert (Harray : coherent Array3f).
  { apply coherent_nested; [reflexivity | reflexivity | exact Hfloat]. }
  assert (Hray : coherent Ray).
  { apply coherent_struct. intros k t [H|[H|[]]]; injection H as _ <-; assumption. }
  apply (size_overload_shape_accepted (host := reference_host) Ray None 4 Hray).
Defined.

(** Witness of X10: four lanes of a JIT boolean leaf. *)
Lemma empty_zeros_ones_of_leaf_witness :
  ones (host := reference_host) Bool_tp 4
  = ([init_const_call 4 (PyBool true)],
     Ok (PyArray Bool_tp (replicate 4 (PyBool true)))).
Proof.
  destruct (empty_zeros_ones_of_leaf (host := reference_host)
              "drjit.llvm.Bool" (jit_supp VtBool) PyBool_Type 4)
    as [_ Hconst]; [split; reflexivity|].
  destruct (Hconst eq_refl) as [_ Hones]. exact Hones.
Defined.

(** Witness of X11: a three-column array of JIT leaves filled with 7 is
    one constant broadcast and three assignments. *)
Lemma component_built_once_witness :
  let v := PyFloat (float_of_Z 7) in
  let col := PyArray Float (replicate 2 v) in
  log_of (full (host := reference_host) Array3f (Some v) [3; 2]%nat)
  = [nb_inst_zero_call; init_const_call 2 v;
     set_item_call 0 col; set_item_call 1 col; set_item_call 2 col].
Proof.
  intros v col.
  destruct (component_built_once (host := reference_host)
              "drjit.llvm.Array3f"
              (plain_supp (BackendOther 2) VtFloat32 [Fixed 3; DRJIT_DYNAMIC])
              Float (Some v) [3; 2]%nat col eq_refl eq_refl) as [Hv _].
  exact (Hv v eq_refl eq_refl).
Defined.

(** ** [arange] *)

Lemma quot_sign (c step : Z) :
  step <> 0%Z ->
  ((Z.abs step <= c * Z.sgn step)%Z -> (0 < Z.quot c step)%Z) /\
  ((Z.abs c < Z.abs step)%Z -> Z.quot c step = 0%Z) /\
  ((c * Z.sgn step <= - Z.abs step)%Z -> (Z.quot c step < 0)%Z).
Proof.
  intros Hs.
  pose proof (Z.quot_rem' c step) as Hqr.
  pose proof (Z.rem_bound_abs c step Hs) as Hb.
  pose proof (Z.rem_sign_mul c step Hs) as Hsg.
  split; [|split]; intros H.
  - destruct (Z.sgn_spec step) as [[? ?]|[[? ?]|[? ?]]]; try lia; nia.
  - apply Z.quot_small_iff; assumption.
  - destruct (Z.sgn_spec step) as [[? ?]|[[? ?]|[? ?]]]; try lia; nia.
Qed.

Section MoreArangeFacts.
Context {host : Host}.
Local Arguments tp_init_array : simpl never.

Lemma arange_after_guards (dtype : pytype) (s : ArraySupplement)
    (counter_tp : pytype) (start end_ step : Z) :
  arange_accepts dtype s counter_tp -> step <> 0%Z ->
  arange dtype start end_ step
  = (if (arange_size start end_ step =? 0)%Z then tp_init_array dtype [] false
     else if (arange_size start end_ step <? 0)%Z then raise E_arange_negative
     else
       emit (init_counter_call (Z.to_nat (arange_size start end_ step))) ;;;
       let result := init_counter counter_tp
                       (Z.to_nat (arange_size start end_ step)) in
       if (start =? 0)%Z && (step =? 1)%Z then
         tp_init_array dtype [result] false
       else
         a <- tp_init_array dtype [result] false ;;
         b <- tp_init_array dtype [PyLong step] false ;;
         c <- tp_init_array dtype [PyLong start] false ;;
         match fma a b c with
         | Some r => ret r
         | None => raise E_python
         end).
Proof.
  intros (Hsupp & [Hn Hs] & Hb & Hp & -> & cs & Hc & Hcounter) Hstep.
  unfold arange. rewrite Hsupp. unfold raise_if.
  rewrite (bool_decide_eq_true_2 _ Hn), (bool_decide_eq_true_2 _ Hs).
  cbn [negb orb]. rewrite bind_ret_l.
  rewrite (bool_decide_eq_false_2 _ Hb), (bool_decide_eq_false_2 _ Hp).
  cbn [orb]. rewrite bind_ret_l.
  apply Z.eqb_neq in Hstep. rewrite Hstep. rewrite bind_ret_l.
  cbv zeta. rewrite Hc, Hcounter.
  cbn [negb]. rewrite bind_ret_l. reflexivity.
Qed.

(** X12. For an accepted type and a step other than 0, [arange] returns
    a non-empty array exactly when [stop] lies beyond [start] in the
    direction of the step. When it does not, the result is the empty
    array as long as [stop] lies less than [2 |step| - 1] behind
    [start], and the error "size cannot be negative" only from there
    on. *)
Theorem arange_empty_or_negative (dtype : pytype) (s : ArraySupplement)
    (counter_tp : pytype) (start stop step : Z) :
  let ahead := ((stop - start) * Z.sgn step)%Z in
  arange_accepts dtype s counter_tp ->
  step <> 0%Z -> arange_in_range start stop step ->
  ((1 <= ahead)%Z ->
   (0 < arange_size start stop step)%Z /\
   first_call (arange dtype start stop step)
   = Some (init_counter_call (Z.to_nat (arange_size start stop step)))) /\
  ((2 - 2 * Z.abs step <= ahead <= 0)%Z ->
   arange dtype start stop step = tp_init_array dtype [] false) /\
  ((ahead <= 1 - 2 * Z.abs step)%Z ->
   arange dtype start stop step = ([], Raise E_arange_negative)).
Proof.
  intros ahead Hacc Hstep Hrange.
  rewrite (arange_after_guards dtype s counter_tp start stop step Hacc Hstep).
  rewrite (arange_size_exact start stop step Hstep Hrange).
  destruct (quot_sign (stop - start + step - Z.sgn step) step Hstep)
    as (Hpos & Hzero & Hneg).
  assert (Hsq : (Z.sgn step * Z.sgn step = 1)%Z).
  { destruct (Z.sgn_spec step) as [[? ->]|[[? ?]|[? ->]]]; lia. }
  assert (Habs : (Z.abs step = step * Z.sgn step)%Z).
  { destruct (Z.sgn_spec step) as [[? ->]|[[? ?]|[? ->]]]; lia. }
  unfold ahead. split; [|split]; intros H.
  - assert (Hq : (0 < Z.quot (stop - start + step - Z.sgn step) step)%Z).
    { apply Hpos. nia. }
    split; [exact Hq|].
    destruct (Z.eqb_spec (Z.quot (stop - start + step - Z.sgn step) step) 0);
      [lia|].
    destruct (Z.ltb_spec (Z.quot (stop - start + step - Z.sgn step) step) 0);
      [lia|].
    unfold first_call. rewrite log_bind_emit. reflexivity.
  - rewrite Hzero; [reflexivity|].
    destruct (Z.sgn_spec step) as [[? Hsg]|[[? ?]|[? Hsg]]]; try lia;
      rewrite Hsg in *; lia.
  - assert (Hq : (Z.quot (stop - start + step - Z.sgn step) step < 0)%Z).
    { apply Hneg. nia. }
    destruct (Z.eqb_spec (Z.quot (stop - start + step - Z.sgn step) step) 0);
      [lia|].
    destruct (Z.ltb_spec (Z.quot (stop - start + step - Z.sgn step) step) 0);
      [reflexivity | lia].
Qed.

(** X13. The overload [arange(dtype, size)]: a negative [size] is the
    error "size cannot be negative", 0 gives the empty array, and a
    positive [size] gives the counter of that many lanes converted to
    [dtype], with no multiplication or addition. *)
Theorem arange_upto_counts (dtype : pytype) (s : ArraySupplement)
    (counter_tp : pytype) (size : Z) :
  arange_accepts dtype s counter_tp ->
  arange_in_range 0 size 1 ->
  ((size < 0)%Z -> arange_upto dtype size = ([], Raise E_arange_negative)) /\
  (size = 0%Z -> arange_upto dtype size = tp_init_array dtype [] false) /\
  ((0 < size)%Z ->
   arange_upto dtype size
   = (emit (init_counter_call (Z.to_nat size)) ;;;
      tp_init_array dtype [init_counter counter_tp (Z.to_nat size)] false)).
Proof.
  intros Hacc Hrange. unfold arange_upto.
  rewrite (arange_after_guards dtype s counter_tp 0 size 1 Hacc
             ltac:(discriminate)).
  rewrite (arange_size_exact 0 size 1 ltac:(discriminate) Hrange).
  replace (Z.quot (size - 0 + 1 - Z.sgn 1) 1) with size
    by (cbn [Z.sgn]; rewrite Z.quot_1_r; lia).
  split; [|split]; intros H.
  - destruct (Z.eqb_spec size 0); [lia|].
    destruct (Z.ltb_spec size 0); [reflexivity | lia].
  - subst size. reflexivity.
  - destruct (Z.eqb_spec size 0); [lia|].
    destruct (Z.ltb_spec size 0); [lia|]. reflexivity.
Qed.

End MoreArangeFacts.

Lemma reference_arange_accepts (n : string) (vt : VarType) (value : pytype) :
  vt <> VtBool -> vt <> VtPointer ->
  arange_accepts (host := reference_host)
    (ArrayType n (jit_supp vt) value) (jit_supp vt)
    (meta_get_type (Host := reference_host) (set_type (jit_supp vt) VtUInt32)).
Proof.
  intros Hb Hp. split; [reflexivity|]. split; [split; reflexivity|].
  split; [exact Hb|]. split; [exact Hp|]. split; [reflexivity|].
  eexists. split; reflexivity.
Qed.

(** Witness of X12: [arange(Int, 5, 4, 1)] is an error, while
    [arange(Int, 5, 4, 2)] is the empty array. *)
Lemma arange_empty_or_negative_witness :
  arange (host := reference_host) Int 5 4 1 = ([], Raise E_arange_negative) /\
  arange (host := reference_host) Int 5 4 2
  = tp_init_array (host := reference_host) Int [] false.
Proof.
  assert (Hacc := reference_arange_accepts "drjit.llvm.Int" VtInt32 PyLong_Type
                    ltac:(discriminate) ltac:(discriminate)).
  split.
  - destruct (arange_empty_or_negative (host := reference_host) Int _ _ 5 4 1 Hacc)
      as (_ & _ & Hneg).
    + discriminate.
    + unfold arange_in_range, in_ssize. repeat split; vm_compute; discriminate.
    + apply Hneg. vm_compute. discriminate.
  - destruct (arange_empty_or_negative (host := reference_host) Int _ _ 5 4 2 Hacc)
      as (_ & Hzero & _).
    + discriminate.
    + unfold arange_in_range, in_ssize. repeat split; vm_compute; discriminate.
    + apply Hzero. split; vm_compute; discriminate.
Defined.

(** Witness of X13: [arange(Int, 3)] is the counter of three lanes. *)
Lemma arange_upto_counts_witness :
  outcome (arange_upto (host := reference_host) Int 3)
  = Ok (PyArray Int [PyLong 0; PyLong 1; PyLong 2]).
Proof.
  assert (Hacc := reference_arange_accepts "drjit.llvm.Int" VtInt32 PyLong_Type
                    ltac:(discriminate) ltac:(discriminate)).
  destruct (arange_upto_counts (host := reference_host) Int _ _ 3 Hacc)
    as (_ & _ & Hpos).
  - unfold arange_in_range, in_ssize. repeat split; vm_compute; discriminate.
  - rewrite Hpos by lia. reflexivity.
Defined.

(** ** [linspace] *)

Lemma outcome_lift_call {A} (c : M A) :
  outcome (lift_call c)
  = match outcome c with Ok a => Ok a | Raise e => Raise (E_linspace_call e) end.
Proof. destruct c as [l [a|e]]; reflexivity. Qed.

Lemma is_float_spec (vt : VarType) :
  negb (bool_decide (vt = VtFloat16)) && negb (bool_decide (vt = VtFloat32)) &&
  negb (bool_decide (vt = VtFloat64)) = negb (is_float vt).
Proof. destruct vt; reflexivity. Qed.

Lemma division_by_zero (x : spec_float) (sign : bool) :
  is_number (SFdiv 53 1024 x (S754_zero sign)) = false.
Proof. destruct x; reflexivity. Qed.

Section LinspaceFacts.
Context {host : Host}.
Local Arguments tp_init_array : simpl never.

Lemma linspace_after_guards (dtype : pytype) (s : ArraySupplement)
    (counter_tp : pytype) (start stop : spec_float) (size : nat)
    (endpoint : bool) :
  arange_accepts dtype s counter_tp -> is_float (type s) = true ->
  linspace dtype start stop size endpoint
  = (if (size =? 0)%nat then lift_call (tp_init_array dtype [] false)
     else
       emit (init_counter_call size) ;;;
       a <- lift_call (tp_init_array dtype [init_counter counter_tp size] false) ;;
       b <- lift_call (tp_init_array dtype
                         [PyFloat (linspace_step start stop size endpoint)] false) ;;
       c <- lift_call (tp_init_array dtype [PyFloat start] false) ;;
       match fma a b c with
       | Some r => ret r
       | None => raise (E_linspace_call E_python)
       end).
Proof.
  intros (Hsupp & [Hn Hs] & _ & _ & -> & cs & Hc & Hcounter) Hf.
  unfold linspace. rewrite Hsupp.
  rewrite (bool_decide_eq_true_2 _ Hn), (bool_decide_eq_true_2 _ Hs).
  cbn [negb orb raise_if]. rewrite bind_ret_l. cbv zeta.
  rewrite is_float_spec, Hf. cbn [negb raise_if]. rewrite bind_ret_l.
  rewrite Hc, Hcounter. cbn [negb raise_if]. rewrite bind_ret_l. reflexivity.
Qed.

(** X14. [linspace] tests its [dtype] before anything else: a type that
    is not a 1-D dynamically sized array, then an element kind that is
    not a floating-point one (every integer kind), then a registry type
    without a counter, each end it in its own error with no call made.
    Past these tests, [size = 0] is the empty array [dtype()], for every
    [start], [stop] and [endpoint], and a positive [size] starts with
    the counter of [size] lanes. *)
Theorem linspace_guards (dtype : pytype) (s : ArraySupplement)
    (start stop : spec_float) (size : nat) (endpoint : bool) :
  supp dtype = Some s ->
  let r := linspace dtype start stop size endpoint in
  (~ dynamic_1d s -> r = ([], Raise E_linspace_dtype_shape)) /\
  (dynamic_1d s -> is_float (type s) = false ->
   r = ([], Raise E_linspace_dtype_float)) /\
  (dynamic_1d s -> is_float (type s) = true ->
   forall counter_s,
   supp (meta_get_type (set_type s VtUInt32)) = Some counter_s ->
   has_init_counter counter_s = false ->
   r = ([], Raise E_linspace_dtype)) /\
  (forall counter_tp,
   arange_accepts dtype s counter_tp -> is_float (type s) = true ->
   (size = 0%nat -> r = lift_call (tp_init_array dtype [] false)) /\
   ((0 < size)%nat -> first_call r = Some (init_counter_call size))).
Proof.
  intros Hsupp r. split; [|split; [|split]].
  - intros Hnd. unfold r, linspace. rewrite Hsupp.
    assert (Hg : negb (bool_decide (ndim s = 1%nat)) ||
                 negb (bool_decide (shape0 s = DRJIT_DYNAMIC)) = true).
    { unfold dynamic_1d in Hnd.
      destruct (decide (ndim s = 1%nat)) as [Hn|Hn].
      - rewrite (bool_decide_eq_true_2 _ Hn). cbn [negb orb].
        rewrite bool_decide_eq_false_2; [reflexivity|]. tauto.
      - rewrite (bool_decide_eq_false_2 _ Hn). reflexivity. }
    rewrite Hg. reflexivity.
  - intros [Hn Hs] Hf. unfold r, linspace. rewrite Hsupp.
    rewrite (bool_decide_eq_true_2 _ Hn), (bool_decide_eq_true_2 _ Hs).
    cbn [negb orb raise_if]. rewrite bind_ret_l. cbv zeta.
    rewrite is_float_spec, Hf. reflexivity.
  - intros [Hn Hs] Hf counter_s Hc Hcounter. unfold r, linspace. rewrite Hsupp.
    rewrite (bool_decide_eq_true_2 _ Hn), (bool_decide_eq_true_2 _ Hs).
    cbn [negb orb raise_if]. rewrite bind_ret_l. cbv zeta.
    rewrite is_float_spec, Hf. cbn [negb raise_if]. rewrite bind_ret_l.
    rewrite Hc, Hcounter. reflexivity.
  - intros counter_tp Hacc Hf. unfold r.
    rewrite (linspace_after_guards dtype s counter_tp start stop size endpoint
               Hacc Hf).
    split.
    + intros ->. reflexivity.
    + intros Hpos. destruct size as [|size]; [lia|].
      cbn [Nat.eqb]. unfold first_call. rewrite log_bind_emit. reflexivity.
Qed.

(** X15. For a floating-point JIT leaf and a positive [size], lane [i]
    of [linspace] is the fused multiply-add of the counter lane [i],
    the step and [start], where the step is
    [(stop - start) / (size - (endpoint ? 1 : 0))] in double precision.
    With one lane and [endpoint] set the divisor is zero, and the step
    is an infinity or a NaN, whatever [start] and [stop] are. *)
Theorem linspace_lanes (dtype : pytype) (s : ArraySupplement)
    (counter_tp : pytype) (start stop : spec_float) (size : nat)
    (endpoint : bool) :
  let step := linspace_step start stop size endpoint in
  arange_dtype dtype s PyFloat_Type counter_tp ->
  is_float (type s) = true -> (0 < size)%nat ->
  outcome (linspace dtype start stop size endpoint)
  = Ok (PyArray dtype
          (map (fun i => fma_lane (type s)
                           (counter_lane dtype counter_tp (type s) i)
                           (PyFloat step) (PyFloat start))
               (seq 0 size))) /\
  (size = 1%nat -> endpoint = true -> is_number step = false).
Proof.
  intros step Hdt Hf Hpos.
  pose proof Hdt as ([n ->] & Hd & Hb & Hp & Hcast & Hconst & Hctp
                     & (cn & cs & cv & Hc & Hm & Hcounter)).
  assert (Hacc : arange_accepts (ArrayType n s PyFloat_Type) s counter_tp).
  { split; [reflexivity|]. split; [exact Hd|]. split; [exact Hb|].
    split; [exact Hp|]. split; [exact Hctp|].
    exists cs. rewrite Hc. split; [reflexivity | exact Hcounter]. }
  split.
  - rewrite (linspace_after_guards _ s counter_tp start stop size endpoint Hacc Hf).
    destruct size as [|size']; [lia|]. cbn [Nat.eqb].
    rewrite outcome_bind_emit.
    rewrite outcome_bind, outcome_lift_call. unfold init_counter.
    rewrite (dtype_of_counter (ArrayType n s PyFloat_Type) s PyFloat_Type
               counter_tp (seq 0 (S size')) Hdt).
    rewrite outcome_bind, outcome_lift_call.
    rewrite (dtype_of_scalar n s PyFloat_Type (PyFloat _) (PyFloat _) Hd Hconst
               eq_refl eq_refl eq_refl).
    rewrite outcome_bind, outcome_lift_call.
    rewrite (dtype_of_scalar n s PyFloat_Type (PyFloat start) (PyFloat start)
               Hd Hconst eq_refl eq_refl eq_refl).
    rewrite (fma_broadcast (ArrayType n s PyFloat_Type) s _ _ _ eq_refl)
      by discriminate.
    cbn [outcome ret snd]. rewrite map_map. reflexivity.
  - intros -> ->. unfold step, linspace_step.
    apply division_by_zero.
Qed.

End LinspaceFacts.

Lemma reference_float_dtype :
  arange_dtype (host := reference_host) Float64 (jit_supp VtFloat64) PyFloat_Type
    (meta_get_type (Host := reference_host) (set_type (jit_supp VtFloat64) VtUInt32)).
Proof.
  split; [eexists; reflexivity|]. split; [split; reflexivity|].
  split; [discriminate|]. split; [discriminate|].
  split; [reflexivity|]. split; [reflexivity|]. split; [reflexivity|].
  do 3 eexists. repeat split.
Qed.

(** Witness of X14: [linspace] on a JIT leaf of 32-bit integers. *)
Lemma linspace_guards_witness :
  linspace (host := reference_host) Int (float_of_Z 0) (float_of_Z 1) 5 true
  = ([], Raise E_linspace_dtype_float).
Proof.
  destruct (linspace_guards (host := reference_host) Int (jit_supp VtInt32)
              (float_of_Z 0) (float_of_Z 1) 5 true eq_refl) as (_ & Hfloat & _).
  apply Hfloat; [split; reflexivity | reflexivity].
Defined.

(** Witness of X15: one lane from 0 to 1 with the end point. *)
Lemma linspace_lanes_witness :
  is_number (linspace_step (float_of_Z 0) (float_of_Z 1) 1 true) = false.
Proof.
  destruct (linspace_lanes (host := reference_host) Float64 _ _
              (float_of_Z 0) (float_of_Z 1) 1 true reference_float_dtype
              eq_refl ltac:(lia)) as [_ Hstep].
  exact (Hstep eq_refl eq_refl).
Defined.

(** ** [tp_init_tensor] *)

Lemma size_exp_product_from (shape_vec : list Z) :
  forall acc : Z,
  fold_left (fun acc k => ((acc * k) mod 2 ^ 64)%Z) shape_vec (acc mod 2 ^ 64)%Z
  = ((acc * product shape_vec) mod 2 ^ 64)%Z.
Proof.
  induction shape_vec as [|k l IH]; intros acc; cbn [fold_left product fold_right].
  - rewrite Z.mul_1_r. reflexivity.
  - rewrite Z.mul_mod_idemp_l by lia. rewrite IH. f_equal. fold (product l). lia.
Qed.

Lemma size_exp_product (shape_vec : list Z) :
  size_exp shape_vec = (product shape_vec mod 2 ^ 64)%Z.
Proof.
  unfold size_exp. change 1%Z with (1 mod 2 ^ 64)%Z at 1.
  rewrite size_exp_product_from. f_equal. lia.
Qed.

Lemma PyLong_AsSize_t_valid (o : pyobj) :
  (PyLong_AsSize_t o =? size_t_max)%Z = negb (valid_extent o).
Proof.
  unfold PyLong_AsSize_t, valid_extent, size_t_max.
  destruct o as [|b|z| | | | | | | | |]; try reflexivity.
  - destruct b; reflexivity.
  - destruct (Z.leb_spec 0 z); destruct (Z.leb_spec z (2 ^ 64 - 1));
      destruct (Z.ltb_spec z (2 ^ 64 - 1)); cbn [andb negb]; lia.
Qed.

Lemma shape_of_tuple_valid (items : list pyobj) :
  shape_of_tuple items
  = if forallb valid_extent items then Some (map PyLong_AsSize_t items) else None.
Proof.
  induction items as [|o items IH]; [reflexivity|].
  cbn [shape_of_tuple forallb map]. cbv zeta.
  rewrite PyLong_AsSize_t_valid, IH.
  destruct (valid_extent o); [|reflexivity].
  destruct (forallb valid_extent items); reflexivity.
Qed.

Section TensorFacts.
Context {host : Host}.
Variable ravel : pyobj -> VarType -> option (pyobj * list Z).
Local Arguments tp_init_array : simpl never.

Lemma tp_init_tensor_with_shape (s : TensorSupplement) (array : pyobj)
    (items : list pyobj) :
  tp_init_tensor ravel s (Some (Some (Object array), Some items))
  = match shape_of_tuple items with
    | None => ([nb_inst_zero_call], Raise E_tensor_shape_tuple)
    | Some shape_vec =>
        match tp_init_array (array_tp s) [array] false with
        | (l, Raise _) => (nb_inst_zero_call :: l, Raise E_tensor_storage)
        | (l, Ok a) =>
            (nb_inst_zero_call :: l,
             if (len a =? size_exp shape_vec)%Z
             then Ok {| tensor_shape := shape_vec; tensor_array := a |}
             else Raise (E_tensor_entries (len a) (size_exp shape_vec)))
        end
    end.
Proof.
  unfold tp_init_tensor. rewrite bind_emit. cbv beta.
  destruct (shape_of_tuple items) as [shape_vec|]; [|reflexivity].
  rewrite bind_ret_l.
  destruct (tp_init_array (array_tp s) [array] false) as [l [a|e]];
    [|reflexivity].
  unfold bind, raise_if, ret, raise. cbn.
  destruct (len a =? size_exp shape_vec)%Z; cbn; rewrite ?app_nil_r; reflexivity.
Qed.

(** X16. Whatever way a tensor is constructed, its storage holds as many
    entries as the product of its shape, taken modulo [2^64]: for the
    empty tensor (shape [(0)]), for a copy of a tensor that has the
    property, and for a tensor built from an array with a given or an
    inferred shape, where the constructor fails otherwise. *)
Theorem tensor_entries_match_shape (s : TensorSupplement)
    (parsed : option (option tensor_arg * option (list pyobj))) (t : tensor) :
  (exists n sa v, array_tp s = ArrayType n sa v /\ shape0 sa = DRJIT_DYNAMIC) ->
  (forall t0 shape, parsed = Some (Some (SameTensor t0), shape) ->
                    tensor_consistent t0) ->
  outcome (tp_init_tensor ravel s parsed) = Ok t ->
  tensor_consistent t /\
  len (tensor_array t) = (product (tensor_shape t) mod 2 ^ 64)%Z.
Proof.
  intros (n & sa & v & Htp & Hdyn) Hcopy Hr.
  assert (Hc : tensor_consistent t).
  { unfold tp_init_tensor in Hr.
    destruct parsed as [[[[t0|array]|] shape]|]; [| | |discriminate Hr].
    - rewrite outcome_bind_emit in Hr. injection Hr as <-.
      exact (Hcopy t0 shape eq_refl).
    - rewrite outcome_bind_emit, outcome_bind in Hr.
      destruct (outcome _) as [[arg shape_vec]|e] eqn:Hp in Hr; [|discriminate Hr].
      rewrite outcome_bind in Hr.
      destruct (tp_init_array (array_tp s) [arg] false) as [l [a|e]];
        [|discriminate Hr].
      cbn [outcome snd] in Hr. rewrite outcome_bind in Hr.
      unfold raise_if in Hr.
      destruct (len a =? size_exp shape_vec)%Z eqn:Hlen; [|discriminate Hr].
      cbn in Hr. injection Hr as <-. unfold tensor_consistent. cbn.
      apply Z.eqb_eq. exact Hlen.
    - destruct shape as [items|]; [discriminate Hr|].
      rewrite outcome_bind_emit in Hr. injection Hr as <-.
      unfold tensor_consistent. cbn [tensor_array tensor_shape].
      rewrite Htp. cbn [zero_value]. rewrite Hdyn. reflexivity. }
  split; [exact Hc|]. rewrite <- size_exp_product. exact Hc.
Qed.

(** X17. With a shape tuple, every entry must be a Python boolean or an
    integer from 0 to [2^64 - 2]: any other entry (a negative integer, a
    float, and also [2^64 - 1], which [PyLong_AsSize_t] returns on
    failure) ends the constructor in "Invalid shape tuple." before the
    storage is initialised. When all entries are accepted, that error
    does not occur and the tensor that is returned has these extents. *)
Theorem tensor_shape_entries_checked (s : TensorSupplement) (array : pyobj)
    (items : list pyobj) :
  let r := tp_init_tensor ravel s (Some (Some (Object array), Some items)) in
  (forallb valid_extent items = false ->
   r = ([nb_inst_zero_call], Raise E_tensor_shape_tuple)) /\
  (forallb valid_extent items = true ->
   outcome r <> Raise E_tensor_shape_tuple /\
   forall t, outcome r = Ok t -> tensor_shape t = map PyLong_AsSize_t items) /\
  valid_extent (PyLong size_t_max) = false.
Proof.
  intros r. unfold r. rewrite tp_init_tensor_with_shape, shape_of_tuple_valid.
  split; [|split; [|reflexivity]].
  - intros ->. reflexivity.
  - intros ->.
    destruct (tp_init_array (array_tp s) [array] false) as [l [a|e]];
      cbn [outcome snd]; [|split; [discriminate | discriminate]].
    destruct (len a =? _)%Z; split; try discriminate.
    intros t [= <-]. reflexivity.
Qed.

Lemma tp_init_array_empty_list (n : string) (sa : ArraySupplement) (v : pytype) :
  dynamic_1d sa ->
  (has_init_data sa = true -> from_seq_supported (type sa) = true) ->
  outcome (tp_init_array (ArrayType n sa v) [PyList []] false)
  = Ok (PyArray (ArrayType n sa v) []).
Proof.
  intros Hd Hk. rewrite tp_init_array_single. unfold init_single.
  cbn [Py_TYPE single_arg_route]. rewrite outcome_bind.
  rewrite (array_init_seq_empty (ArrayType n sa v) sa Hd Hk). reflexivity.
Qed.

(** X18. The expected number of entries is computed in [size_t] and
    wraps around: for a shape whose product is a multiple of [2^64], the
    constructor accepts the empty list as the array, and returns a
    tensor with that shape and no entry. *)
Theorem tensor_shape_product_wraps (s : TensorSupplement) (n : string)
    (sa : ArraySupplement) (v : pytype) (items : list pyobj) :
  array_tp s = ArrayType n sa v -> dynamic_1d sa ->
  (has_init_data sa = true -> from_seq_supported (type sa) = true) ->
  forallb valid_extent items = true ->
  (product (map PyLong_AsSize_t items) mod 2 ^ 64 = 0)%Z ->
  outcome (tp_init_tensor ravel s (Some (Some (Object (PyList [])), Some items)))
  = Ok {| tensor_shape := map PyLong_AsSize_t items;
          tensor_array := PyArray (array_tp s) [] |}.
Proof.
  intros Htp Hd Hk Hvalid Hprod.
  rewrite tp_init_tensor_with_shape, shape_of_tuple_valid, Hvalid.
  pose proof (tp_init_array_empty_list n sa v Hd Hk) as He.
  rewrite Htp.
  destruct (tp_init_array (ArrayType n sa v) [PyList []] false) as [l [a|e]];
    cbn [outcome snd] in He; [|discriminate He].
  injection He as ->. cbn [outcome snd len length].
  rewrite size_exp_product, Hprod. reflexivity.
Qed.

End TensorFacts.

(** Witness of X16: the tensor built from three integers and the shape
    [(3,)]. *)
Lemma tensor_entries_match_shape_witness :
  let s := {| tensor_type := VtInt32; array_tp := Int |} in
  let t := {| tensor_shape := [3%Z];
              tensor_array := PyArray Int [PyLong 1; PyLong 2; PyLong 3] |} in
  len (tensor_array t) = (product (tensor_shape t) mod 2 ^ 64)%Z.
Proof.
  intros s t.
  apply (tensor_entries_match_shape (host := reference_host) (fun _ _ => None) s
           (Some (Some (Object (PyList [PyLong 1; PyLong 2; PyLong 3])),
                  Some [PyLong 3])) t).
  - do 3 eexists. split; reflexivity.
  - intros t0 shape H. discriminate H.
  - reflexivity.
Defined.

(** Witness of X17: the shape [(2^64 - 1,)] is refused. *)
Lemma tensor_shape_entries_checked_witness :
  let s := {| tensor_type := VtInt32; array_tp := Int |} in
  tp_init_tensor (host := reference_host) (fun _ _ => None) s
    (Some (Some (Object (PyList [])), Some [PyLong size_t_max]))
  = ([nb_inst_zero_call], Raise E_tensor_shape_tuple).
Proof.
  intros s.
  destruct (tensor_shape_entries_checked (host := reference_host)
              (fun _ _ => None) s (PyList []) [PyLong size_t_max])
    as (Hbad & _).
  apply Hbad. reflexivity.
Defined.

(** Witness of X18: the shape [(2^32, 2^32)] with the empty list. *)
Lemma tensor_shape_product_wraps_witness :
  let s := {| tensor_type := VtInt32; array_tp := Int |} in
  outcome (tp_init_tensor (host := reference_host) (fun _ _ => None) s
             (Some (Some (Object (PyList [])),
                    Some [PyLong (2 ^ 32); PyLong (2 ^ 32)])))
  = Ok {| tensor_shape := [2 ^ 32; 2 ^ 32]%Z; tensor_array := PyArray Int [] |}.
Proof.
  intros s.
  apply (tensor_shape_product_wraps (host := reference_host) (fun _ _ => None) s
           "drjit.llvm.Int" (jit_supp VtInt32) PyLong_Type
           [PyLong (2 ^ 32); PyLong (2 ^ 32)]);
    try reflexivity.
  split; reflexivity.
Defined.

(** * Further properties of [switch.cpp] *)


(** * [full] and [arange], entry by entry *)

(** ** [full] with a value *)

Section FullReads.
Context {host : Host}.








End FullReads.
Section FullTheorem2.
Context {host : Host}.


End FullTheorem2.


(** ** [arange], lane by lane *)

Section ArangeLanes.
Context {host : Host}.
Local Arguments tp_init_array : simpl never.




End ArangeLanes.





(** ** Dictionaries and argument lists *)







(** ** The mask extractor *)



Section MaskFacts.
Context {host : Host} {tracer : Tracer}.







End MaskFacts.


(** ** The fast path of [switch] *)

Section FastPath.
Context {host : Host} {tracer : Tracer}.

(** C5. [switch] with a plain integer selector. A mask that is not a
    Python boolean is an error; a false mask gives [None] and no callable
    is invoked; otherwise the selected callable is invoked once, on the
    arguments as [extract_mask] leaves them (unchanged when there is no
    mask), and its result or exception is that of the call. *)
Theorem switch_plain_index (b : ad_call_run) (i : Z) (callables : list callable)
    (args_ : list pytree) (kwargs_ : pydict) (mask : option pytree)
    (args : list pytree) (kwargs : pydict) :
  extract_mask args_ kwargs_ = Ok (mask, args, kwargs) ->
  let r := switch_impl b (PtLong i) callables args_ kwargs_ in
  (forall m, mask = Some m -> try_cast_bool m = None ->
     r = early [] (Raise E_mask_scalar)) /\
  (mask = Some (PtBool false) ->
     r = early [] (Ok PtNone) /\ count is_callable_call (fst r) = 0%nat) /\
  (mask = None \/ mask = Some (PtBool true) ->
     forall f, getitem callables i = Some f ->
     r = early [callable_call i args kwargs] (f args kwargs) /\
     returned (snd r) = f args kwargs /\
     count is_callable_call (fst r) = 1%nat) /\
  (mask = None -> args = args_ /\ kwargs = kwargs_).
Proof.
  intros He r. subst r. unfold switch_impl. rewrite He.
  split; [|split; [|split]].
  - intros m -> Hc. simpl. rewrite Hc. reflexivity.
  - intros ->. split; reflexivity.
  - intros Hm f Hf.
    destruct Hm as [-> | ->]; simpl; rewrite Hf; repeat split.
  - intros ->. unfold extract_mask in He.
    destruct (dict_get kwargs_ mask_key); [destruct (call_type_true _); discriminate|].
    destruct (last args_) as [l|]; [|injection He as <- <-; split; reflexivity].
    destruct (is_mask_type (tree_type l));
      [destruct (call_type_true _); discriminate|].
    injection He as <- <-. split; reflexivity.
Qed.

End FastPath.

(** Witness of C5: [switch(1, [f0, f1], x)] is [f1(x)], called once. *)
Lemma switch_plain_index_witness :
  let b := {| groups := []; fails := false; rv := []; done := true |} in
  let x := PtVar Float_tp 7 in
  switch_impl (host := reference_host) (tracer := reference_tracer) b (PtLong 1)
    [f_tag 0; f_tag 1] [x] []
  = early [callable_call 1 [x] []] (f_tag 1 [x] []).
Proof.
  intros b x.
  destruct (switch_plain_index (host := reference_host)
              (tracer := reference_tracer) b 1
              [f_tag 0; f_tag 1] [x] [] None [x] [] eq_refl)
    as (_ & _ & Hcall & _).
  apply (Hcall (or_introl eq_refl) (f_tag 1) eq_refl).
Defined.

(** ** Logs of the call aggregator *)

Lemma count_app (p : ev -> bool) (l1 l2 : list ev) :
  count p (l1 ++ l2) = (count p l1 + count p l2)%nat.
Proof. induction l1 as [|e l1 IH]; simpl; [reflexivity | rewrite IH; lia]. Qed.

Lemma released_app (l1 l2 : list ev) :
  released (l1 ++ l2) = released l1 ++ released l2.
Proof.
  induction l1 as [|e l1 IH]; simpl; [reflexivity|].
  destruct e; simpl; rewrite IH; reflexivity.
Qed.

Lemma acquired_app (l1 l2 : list ev) :
  acquired (l1 ++ l2) = acquired l1 ++ acquired l2.
Proof.
  induction l1 as [|e l1 IH]; simpl; [reflexivity|].
  destruct e; simpl; rewrite IH; reflexivity.
Qed.

Lemma released_dtor (v : list handle) : released (dr_index_vector_dtor v) = v.
Proof. induction v as [|h v IH]; simpl; [reflexivity | rewrite IH; reflexivity]. Qed.

Lemma acquired_inc (v : list handle) : acquired (map ad_var_inc_ref v) = v.
Proof. induction v as [|h v IH]; simpl; [reflexivity | rewrite IH; reflexivity]. Qed.

Lemma quiet_nil : quiet [].
Proof. repeat split. Qed.

Lemma quiet_app (l1 l2 : list ev) : quiet l1 -> quiet l2 -> quiet (l1 ++ l2).
Proof.
  intros (A1 & B1 & C1) (A2 & B2 & C2). unfold quiet.
  rewrite !count_app, released_app, A1, A2, B1, B2, C1, C2. repeat split.
Qed.

Lemma quiet_inc (v : list handle) : quiet (map ad_var_inc_ref v).
Proof. induction v as [|h v IH]; [apply quiet_nil|]. exact IH. Qed.

Lemma quiet_dtor (v : list handle) :
  count is_new_State (dr_index_vector_dtor v) = 0%nat /\
  count is_delete_State (dr_index_vector_dtor v) = 0%nat.
Proof. induction v as [|h v IH]; [split; reflexivity | exact IH]. Qed.

Lemma quiet_bind {A B} (c : T A) (k : A -> T B) :
  quiet (log_of c) -> (forall a, quiet (log_of (k a))) -> quiet (log_of (bind c k)).
Proof.
  intros Hc Hk. rewrite log_bind. apply quiet_app; [exact Hc|].
  destruct (outcome c); [apply Hk | apply quiet_nil].
Qed.

Section CallbackFacts.
Context {tracer : Tracer}.

Lemma call_unpacked_quiet (which : Z) (f : callable) (t : pytree) :
  quiet (log_of (call_unpacked which f t)).
Proof.
  unfold call_unpacked. destruct (unpack t) as [[args kwargs]|].
  - rewrite log_bind_emit. repeat split.
  - apply quiet_nil.
Qed.

Lemma check_compatibility_quiet (a b : pytree) :
  quiet (log_of (check_compatibility a b)).
Proof.
  unfold check_compatibility. rewrite log_bind_emit.
  unfold raise_if. destruct (negb (compatible a b)); repeat split.
Qed.

Lemma collect_indices_quiet (t : pytree) (v : list handle) :
  quiet (log_of (collect_indices t v)).
Proof. apply quiet_inc. Qed.

Lemma switch_func_quiet (state : State) (self : N) (args_i rv_i : list handle) :
  quiet (log_of (switch_func state self args_i rv_i)).
Proof.
  unfold switch_func. apply quiet_bind; [apply quiet_nil|]. intros a. simpl.
  destruct (callables_o state !! N.to_nat self); [|apply quiet_nil].
  apply quiet_bind; [apply call_unpacked_quiet|]. intros result.
  apply quiet_bind.
  - destruct (rv_o state); [apply check_compatibility_quiet | apply quiet_nil].
  - intros _. apply quiet_bind; [apply collect_indices_quiet|].
    intros. apply quiet_nil.
Qed.

Lemma dispatch_func_quiet (state : DispatchState) (self : N)
    (args_i rv_i : list handle) :
  quiet (log_of (dispatch_func state self args_i rv_i)).
Proof.
  unfold dispatch_func. apply quiet_bind; [apply quiet_nil|]. intros a. simpl.
  apply quiet_bind; [apply call_unpacked_quiet|]. intros result.
  apply quiet_bind.
  - destruct (d_rv_o state); [apply check_compatibility_quiet | apply quiet_nil].
  - intros _. apply quiet_bind; [apply collect_indices_quiet|].
    intros. apply quiet_nil.
Qed.

Section SharedFacts.
Context {S : Type}.
Variable func : S -> N -> list handle -> list handle -> T (S * list handle).
Variable get_rv_o : S -> option pytree.
Variable get_args_o : S -> pytree.
Hypothesis func_quiet : forall st self a r, quiet (log_of (func st self a r)).

Lemma run_groups_quiet (gs : list (N * list handle)) :
  forall state : S, quiet (log_of (run_groups func state gs)).
Proof.
  induction gs as [|[self args_i] gs IH]; intros state; simpl.
  - apply quiet_nil.
  - apply quiet_bind; [apply func_quiet | intros r; apply IH].
Qed.

Lemma ad_call_quiet (b : ad_call_run) (state : S) :
  quiet (log_of (ad_call func b state)).
Proof.
  unfold ad_call. apply quiet_bind; [apply run_groups_quiet|]. intros st.
  apply quiet_bind; [unfold raise_if; destruct (fails b); apply quiet_nil|].
  intros. apply quiet_nil.
Qed.

(** What the common tail logs, besides the callbacks: one creation of
    the Call State, the release of every entry of the output vector, and
    the destruction of the Call State, now or deferred, unless the
    primitive threw or the result could not be rebuilt after a completed
    call. *)
Lemma record_call_log (b : ad_call_run) (state : S) :
  let r := record_call func get_rv_o get_args_o b state in
  count is_new_State (lifetime r) = 1%nat /\
  released (lifetime r) = rv b /\
  count is_delete_State (lifetime r)
  = match outcome (ad_call func b state) with
    | Raise _ => 0%nat
    | Ok (state', done) =>
        match final_result (get_rv_o state') (rv b), done with
        | Raise _, true => 0%nat
        | _, _ => 1%nat
        end
    end /\
  (forall t, returned (snd r) = Ok t -> count is_delete_State (lifetime r) = 1%nat) /\
  exists more, acquired (fst r) = leaves (get_args_o state) ++ more.
Proof.
  intros r. subst r. unfold record_call, lifetime.
  pose proof (ad_call_quiet b state) as (Qn & Qd & Qr).
  pose proof (quiet_inc (leaves (get_args_o state))) as (In & Id & Ir).
  pose proof (quiet_dtor (rv b)) as (Dn & Dd).
  unfold collect_indices.
  destruct (ad_call func b state) as [l2 [[state' done]|e]];
    unfold log_of, outcome in *; cbn [fst snd] in *; cbv beta iota;
    [destruct (final_result (get_rv_o state') (rv b)) as [t|e]; destruct done|];
    cbn [fst snd deferred returned negb];
    repeat first [ rewrite count_app | rewrite released_app
                 | rewrite acquired_app | rewrite acquired_inc
                 | rewrite released_dtor | rewrite app_nil_r
                 | progress cbn [count released acquired is_new_State
                                 is_delete_State app Nat.add] ];
    rewrite ?Qn, ?Qd, ?Qr, ?In, ?Id, ?Ir, ?Dn, ?Dd;
    cbn [Nat.add app];
    (split; [reflexivity|]); (split; [reflexivity|]); (split; [reflexivity|]);
    (split; [intros; try discriminate; reflexivity|]);
    eexists; reflexivity.
Qed.

(** The common tail with a mask: that without one when the read of the
    mask is defined, and otherwise an exit right after the Call State
    was created and the arguments were flattened. *)
Lemma record_call_masked_cases (mask : option pytree) (b : ad_call_run)
    (state : S) :
  (mask_index mask <> None /\
   record_call_masked func get_rv_o get_args_o mask b state
   = record_call func get_rv_o get_args_o b state) \/
  (mask_index mask = None /\
   record_call_masked func get_rv_o get_args_o mask b state
   = ([new_State] ++ map ad_var_inc_ref (leaves (get_args_o state)),
      {| returned := Raise E_undefined_read; deferred := false |})).
Proof.
  unfold record_call_masked. destruct (mask_index mask) as [h|].
  - left. split; [discriminate | reflexivity].
  - right. split; reflexivity.
Qed.

Lemma record_call_masked_log (mask : option pytree) (b : ad_call_run)
    (state : S) :
  let r := record_call_masked func get_rv_o get_args_o mask b state in
  count is_new_State (lifetime r) = 1%nat /\
  (count is_delete_State (lifetime r) <= 1)%nat /\
  (forall t, returned (snd r) = Ok t -> count is_delete_State (lifetime r) = 1%nat) /\
  (returned (snd r) <> Raise E_undefined_read -> released (lifetime r) = rv b).
Proof.
  intros r. subst r.
  destruct (record_call_masked_cases mask b state) as [[_ ->]|[_ ->]].
  - destruct (record_call_log b state) as (Hn & Hrel & Hd & Hok & _).
    split; [exact Hn|]. split; [|split; [exact Hok | intros _; exact Hrel]].
    rewrite Hd. destruct (outcome _) as [[st dn]|]; [|lia].
    destruct (final_result _ _), dn; lia.
  - pose proof (quiet_inc (leaves (get_args_o state))) as (In & Id & Ir).
    unfold lifetime. cbn [fst snd deferred returned].
    rewrite app_nil_r, !count_app. cbn [count is_new_State is_delete_State].
    rewrite In, Id. split; [reflexivity|]. split; [lia|].
    split; [discriminate|]. intros H. exfalso. apply H. reflexivity.
Qed.

End SharedFacts.
End CallbackFacts.

(** ** Lifetime of the Call State and of the trace handles *)

Section LifetimeFacts.
Context {host : Host} {tracer : Tracer}.

(** An invocation either leaves before the Call State is created,
    having logged nothing but at most the direct call, or is the common
    tail run on the extracted arguments. *)
Lemma switch_traced_cases (b : ad_call_run) (index_ : pytree)
    (mask : option pytree)
    (callables : list callable) (args : list pytree) (kwargs : pydict) :
  (exists l r, switch_traced b index_ mask callables args kwargs = early l r /\
               quiet l /\ acquired l = []) \/
  switch_traced b index_ mask callables args kwargs
  = record_call_masked switch_func rv_o args_o mask b
      {| args_o := make_tuple args kwargs; callables_o := callables;
         rv_o := None |}.
Proof.
  unfold switch_traced.
  destruct (index_plus_one index_) as [index|];
    [|left; do 2 eexists; repeat split].
  destruct (supp (tree_type index)) as [s|];
    [|left; do 2 eexists; repeat split].
  destruct (_ || _ || _); [left; do 2 eexists; repeat split|].
  right. reflexivity.
Qed.

Lemma switch_impl_cases (b : ad_call_run) (index_ : pytree)
    (callables : list callable) (args_ : list pytree) (kwargs_ : pydict) :
  (exists l r, switch_impl b index_ callables args_ kwargs_ = early l r /\
               quiet l /\ acquired l = []) \/
  (exists mask args kwargs,
     extract_mask args_ kwargs_ = Ok (mask, args, kwargs) /\
     switch_impl b index_ callables args_ kwargs_
     = record_call_masked switch_func rv_o args_o mask b
         {| args_o := make_tuple args kwargs; callables_o := callables;
            rv_o := None |}).
Proof.
  unfold switch_impl.
  destruct (extract_mask args_ kwargs_) as [[[mask args] kwargs]|e] eqn:He;
    [|left; do 2 eexists; repeat split].
  destruct index_;
    try (match goal with
         | |- context [switch_traced b ?i mask callables args kwargs] =>
             destruct (switch_traced_cases b i mask callables args kwargs)
               as [Hl|Hr];
             [left; exact Hl
             |right; do 3 eexists; split; [reflexivity | exact Hr]]
         end).
  left. destruct mask as [m|]; simpl.
  - destruct (try_cast_bool m) as [[|]|];
      [destruct (getitem callables z)| |]; do 2 eexists; repeat split.
  - destruct (getitem callables z); do 2 eexists; repeat split.
Qed.

Lemma dispatch_impl_cases (b : ad_call_run) (instances : pytree)
    (f : callable) (args_ : list pytree) (kwargs_ : pydict) :
  (exists l r, dispatch_impl b instances f args_ kwargs_ = early l r /\
               quiet l /\ acquired l = []) \/
  (exists mask args kwargs value,
     extract_mask args_ kwargs_ = Ok (mask, args, kwargs) /\
     dispatch_impl b instances f args_ kwargs_
     = record_call_masked dispatch_func d_rv_o d_args_o mask b
         {| d_type := value; d_args_o := make_tuple args kwargs;
            callable_o := f; d_rv_o := None |}).
Proof.
  unfold dispatch_impl.
  destruct (tree_type instances) as [| | | | | | | |n s value| |];
    try solve [left; do 2 eexists; repeat split].
  destruct (_ || _); [left; do 2 eexists; repeat split|].
  destruct (Domain _); [|left; do 2 eexists; repeat split].
  destruct (extract_mask args_ kwargs_) as [[[mask args] kwargs]|e];
    [|left; do 2 eexists; repeat split].
  right. do 4 eexists. split; reflexivity.
Qed.

Lemma lifetime_early (l : list ev) (r : result sw_error pytree) :
  lifetime (early l r) = l.
Proof. unfold lifetime, early. simpl. apply app_nil_r. Qed.

Lemma count_new_lifetime (r : list ev * exit) :
  count is_new_State (lifetime r) = count is_new_State (fst r).
Proof.
  unfold lifetime. rewrite count_app. destruct (deferred (snd r)); simpl; lia.
Qed.

(** The Call State is never destroyed more often than it is created,
    and it is created at most once; an invocation that creates it and
    returns a result destroys it exactly once, now or deferred. *)
Lemma call_state_destroyed_at_most_once (b : ad_call_run) (index_ : pytree)
    (callables : list callable) (args_ : list pytree) (kwargs_ : pydict) :
  let r := switch_impl b index_ callables args_ kwargs_ in
  (count is_delete_State (lifetime r) <= count is_new_State (lifetime r) <= 1)%nat /\
  (forall t, returned (snd r) = Ok t ->
     count is_delete_State (lifetime r) = count is_new_State (lifetime r)).
Proof.
  intros r. subst r.
  destruct (switch_impl_cases b index_ callables args_ kwargs_)
    as [(l & res & -> & (Hn & Hd & _) & _)|(mask & args & kwargs & _ & ->)].
  - rewrite lifetime_early, Hn, Hd. split; [lia | reflexivity].
  - destruct (record_call_masked_log switch_func rv_o args_o switch_func_quiet
                mask b
                {| args_o := make_tuple args kwargs; callables_o := callables;
                   rv_o := None |}) as (Hn & Hd & Hok & _).
    rewrite Hn. split; [lia|].
    intros t Ht. exact (Hok t Ht).
Qed.

End LifetimeFacts.

(** C1 (the code at the failing inputs). A callable that raises inside
    the call-recording primitive, for [switch] and for [dispatch], and an
    output vector that does not fit the recorded result after a completed
    call: the Call State has been created once, the invocation ends in
    the exception, and the Call State is never destroyed. *)
Theorem call_state_not_destroyed_on_exception :
  let b := {| groups := [(0%N, [7%N])]; fails := false; rv := []; done := true |} in
  let x := PtVar Float_tp 7 in
  let r := switch_impl (host := reference_host) (tracer := reference_tracer)
             b (PtVar UInt_tp 5) [f_raise] [x] [] in
  let d := dispatch_impl (host := reference_host) (tracer := reference_tracer)
             b (PtVar BasePtr_tp 5) f_raise [x] [] in
  let u := switch_impl (host := reference_host) (tracer := reference_tracer)
             b (PtVar UInt_tp 5) [f_id] [x] [] in
  (returned (snd r) = Raise (E_exception 1) /\
   count is_new_State (lifetime r) = 1%nat /\
   count is_delete_State (lifetime r) = 0%nat) /\
  (returned (snd d) = Raise (E_exception 1) /\
   count is_new_State (lifetime d) = 1%nat /\
   count is_delete_State (lifetime d) = 0%nat) /\
  (returned (snd u) = Raise E_indices /\
   count is_new_State (lifetime u) = 1%nat /\
   count is_delete_State (lifetime u) = 0%nat).
Proof. repeat split. Qed.

(** X24. On every exit of [switch] and of [dispatch], by [return] or by
    an exception, with the cleanup deferred or not, the references that
    the invocation releases are exactly the entries of the output vector
    [rv_i], each once and in order, if the Call State was created, and
    none otherwise. (An invocation that ends in the undefined read of a
    mask is left aside.) *)
Theorem output_vector_released_once {host : Host} {tracer : Tracer}
    (b : ad_call_run) (index_ instances : pytree) (callables : list callable)
    (f : callable) (args_ : list pytree) (kwargs_ : pydict) :
  let r := switch_impl b index_ callables args_ kwargs_ in
  let d := dispatch_impl b instances f args_ kwargs_ in
  (returned (snd r) <> Raise E_undefined_read ->
   released (lifetime r)
   = (if (count is_new_State (fst r) =? 0)%nat then [] else rv b)) /\
  (returned (snd d) <> Raise E_undefined_read ->
   released (lifetime d)
   = (if (count is_new_State (fst d) =? 0)%nat then [] else rv b)).
Proof.
  intros r d. split.
  - subst r.
    destruct (switch_impl_cases b index_ callables args_ kwargs_)
      as [(l & res & -> & (Hn & Hd & Hrel) & Hacq)|(mask & args & kwargs & He & ->)].
    + intros _. rewrite lifetime_early. cbn [fst early]. rewrite Hn, Hrel.
      reflexivity.
    + destruct (record_call_masked_log switch_func rv_o args_o switch_func_quiet
                  mask b
                  {| args_o := make_tuple args kwargs; callables_o := callables;
                     rv_o := None |}) as (Sn & _ & _ & Srel).
      intros Hu. rewrite <- count_new_lifetime, Sn. exact (Srel Hu).
  - subst d.
    destruct (dispatch_impl_cases b instances f args_ kwargs_)
      as [(l & res & -> & (Hn & Hd & Hrel) & Hacq)
         |(mask & args & kwargs & value & He & ->)].
    + intros _. rewrite lifetime_early. cbn [fst early]. rewrite Hn, Hrel.
      reflexivity.
    + destruct (record_call_masked_log dispatch_func d_rv_o d_args_o
                  dispatch_func_quiet mask b
                  {| d_type := value; d_args_o := make_tuple args kwargs;
                     callable_o := f; d_rv_o := None |}) as (Dn & _ & _ & Drel).
      intros Hu. rewrite <- count_new_lifetime, Dn. exact (Drel Hu).
Qed.

(** Witness of X24: a call with one traced argument and a two-entry
    output vector releases those two entries. *)
Lemma output_vector_released_once_witness :
  let b := {| groups := [(0%N, [7%N])]; fails := false; rv := [11%N; 12%N];
              done := true |} in
  let r := switch_impl (host := reference_host) (tracer := reference_tracer)
             b (PtVar UInt_tp 5) [f_tag 0] [PtVar Float_tp 7] [] in
  released (lifetime r) = [11%N; 12%N].
Proof.
  intros b r.
  destruct (output_vector_released_once (host := reference_host)
              (tracer := reference_tracer) b
              (PtVar UInt_tp 5) PtNone [f_tag 0] f_id [PtVar Float_tp 7] [])
    as (Hrel & _).
  apply Hrel. discriminate.
Defined.

(** ** Rebuilding from a vector *)

Lemma update_node (c : container) (items : list pytree) (v : list handle) :
  update (PtNode c items) v
  = match update_items items v with
    | Some (items', v') => Some (PtNode c items', v')
    | None => None
    end.
Proof. reflexivity. Qed.

(** What a tree gives when it is rebuilt depends on its structure and
    its host leaves only: a rebuilt tree is rebuilt like the original. *)
Lemma update_again (t : pytree) :
  forall v1 t1 w1, update t v1 = Some (t1, w1) ->
  forall v2, update t1 v2 = update t v2.
Proof.
  induction t as [|?|?|? ?|tpv hv|c items IH] using pytree_rect_nested;
    intros v1 t1 w1 Hu v2; try (injection Hu as <- <-; reflexivity).
  - simpl in Hu. destruct v1 as [|h v1]; [discriminate|].
    injection Hu as <- <-. reflexivity.
  - rewrite update_node in Hu.
    destruct (update_items items v1) as [[items' w]|] eqn:Hi; [|discriminate].
    injection Hu as <- <-. rewrite !update_node.
    assert (Hitems : update_items items' v2 = update_items items v2);
      [|rewrite Hitems; reflexivity].
    revert v1 items' w Hi v2.
    induction IH as [|x l Hx _ IHl]; intros v1 items' w Hi v2; simpl in Hi.
    + injection Hi as <- <-. reflexivity.
    + destruct (update x v1) as [[x' va]|] eqn:Hux; [|discriminate].
      destruct (update_items l va) as [[l' vb]|] eqn:Hul; [|discriminate].
      injection Hi as <- <-. simpl. rewrite (Hx _ _ _ Hux).
      destruct (update x v2) as [[x2 v2']|]; [|reflexivity].
      rewrite (IHl _ _ _ Hul). reflexivity.
Qed.

(** ** The callbacks, group by group *)

Lemma update_indices_ext (t t0 : pytree) (v : list handle) :
  (forall w, update t w = update t0 w) -> update_indices t v = update_indices t0 v.
Proof. intros H. unfold update_indices. rewrite H. reflexivity. Qed.

Lemma update_indices_again (t t' : pytree) (v : list handle) :
  update_indices t v = Ok t' -> forall w, update t' w = update t w.
Proof.
  unfold update_indices. destruct (update t v) as [[t1 w1]|] eqn:Hu; [|discriminate].
  destruct w1; [|discriminate]. intros He. injection He as <-.
  exact (update_again _ _ _ _ Hu).
Qed.

Section StepFacts.
Context {host : Host} {tracer : Tracer}.

Lemma call_unpacked_outcome (which : Z) (f : callable) (t : pytree) :
  outcome (call_unpacked which f t)
  = match unpack t with
    | Some (args, kwargs) => f args kwargs
    | None => Raise (E_exception 0)
    end.
Proof.
  unfold call_unpacked. destruct (unpack t) as [[args kwargs]|]; [|reflexivity].
  rewrite outcome_bind_emit. reflexivity.
Qed.

Lemma check_compatibility_outcome (a b : pytree) :
  outcome (check_compatibility a b)
  = if compatible a b then Ok tt else Raise E_incompatible.
Proof.
  unfold check_compatibility. rewrite outcome_bind_emit.
  destruct (compatible a b); reflexivity.
Qed.

Lemma switch_func_step (args0 : pytree) (st : State) (self : N)
    (a rv_i : list handle) :
  (forall v, update (args_o st) v = update args0 v) ->
  match group_result args0 (switch_lookup (callables_o st)) (self, a) with
  | Raise e => outcome (switch_func st self a rv_i) = Raise e
  | Ok r =>
      if match rv_o st with Some p => compatible r p | None => true end
      then exists st',
             outcome (switch_func st self a rv_i) = Ok (st', rv_i ++ leaves r) /\
             (forall v, update (args_o st') v = update args0 v) /\
             callables_o st' = callables_o st /\ rv_o st' = Some r
      else outcome (switch_func st self a rv_i) = Raise E_incompatible
  end.
Proof.
  intros Hinv. unfold group_result, switch_func, switch_lookup. cbn [fst snd].
  rewrite <- (update_indices_ext _ _ a Hinv).
  rewrite outcome_bind. cbn [outcome snd].
  destruct (update_indices (args_o st) a) as [t|e] eqn:Hu; [|reflexivity].
  cbn [args_o callables_o rv_o].
  destruct (callables_o st !! N.to_nat self) as [f|]; [|reflexivity].
  rewrite outcome_bind, call_unpacked_outcome.
  destruct (match unpack t with
            | Some (args, kwargs) => f args kwargs
            | None => Raise (E_exception 0)
            end) as [r|e]; [|reflexivity].
  rewrite outcome_bind.
  destruct (rv_o st) as [p|].
  - rewrite check_compatibility_outcome.
    destruct (compatible r p); [|reflexivity].
    eexists. split; [reflexivity|]. cbn [args_o callables_o rv_o].
    split; [|split; reflexivity].
    intros v. rewrite (update_indices_again _ _ _ Hu). apply Hinv.
  - eexists. split; [reflexivity|]. cbn [args_o callables_o rv_o].
    split; [|split; reflexivity].
    intros v. rewrite (update_indices_again _ _ _ Hu). apply Hinv.
Qed.

Lemma dispatch_func_step (args0 : pytree) (st : DispatchState) (self : N)
    (a rv_i : list handle) :
  (forall v, update (d_args_o st) v = update args0 v) ->
  match group_result args0 (dispatch_lookup (d_type st) (callable_o st)) (self, a) with
  | Raise e => outcome (dispatch_func st self a rv_i) = Raise e
  | Ok r =>
      if match d_rv_o st with Some p => compatible r p | None => true end
      then exists st',
             outcome (dispatch_func st self a rv_i) = Ok (st', rv_i ++ leaves r) /\
             (forall v, update (d_args_o st') v = update args0 v) /\
             (callable_o st' = callable_o st /\ d_type st' = d_type st) /\
             d_rv_o st' = Some r
      else outcome (dispatch_func st self a rv_i) = Raise E_incompatible
  end.
Proof.
  intros Hinv. unfold group_result, dispatch_func, dispatch_lookup. cbn [fst snd].
  rewrite <- (update_indices_ext _ _ a Hinv).
  rewrite outcome_bind. cbn [outcome snd].
  destruct (update_indices (d_args_o st) a) as [t|e] eqn:Hu; [|reflexivity].
  cbn [d_args_o callable_o d_rv_o d_type].
  rewrite outcome_bind, call_unpacked_outcome.
  destruct (match unpack t with
            | Some (args, kwargs) =>
                callable_o st (PtOpaque (d_type st) self :: args) kwargs
            | None => Raise (E_exception 0)
            end) as [r|e]; [|reflexivity].
  rewrite outcome_bind.
  destruct (d_rv_o st) as [p|].
  - rewrite check_compatibility_outcome.
    destruct (compatible r p); [|reflexivity].
    eexists. split; [reflexivity|]. cbn [d_args_o callable_o d_rv_o d_type].
    split; [|split; [split|]; reflexivity].
    intros v. rewrite (update_indices_again _ _ _ Hu). apply Hinv.
  - eexists. split; [reflexivity|]. cbn [d_args_o callable_o d_rv_o d_type].
    split; [|split; [split|]; reflexivity].
    intros v. rewrite (update_indices_again _ _ _ Hu). apply Hinv.
Qed.

End StepFacts.

Section ChainFacts.
Context {tracer : Tracer} {S : Type}.
Variable func : S -> N -> list handle -> list handle -> T (S * list handle).
Variable get_rv_o : S -> option pytree.
Variable get_args_o : S -> pytree.
Variable Inv : S -> Prop.
Variable args0 : pytree.
Variable lookup : N -> option callable.
Hypothesis func_step : forall st self a rv_i, Inv st ->
  match group_result args0 lookup (self, a) with
  | Raise e => outcome (func st self a rv_i) = Raise e
  | Ok r =>
      if match get_rv_o st with Some p => compatible r p | None => true end
      then exists st', outcome (func st self a rv_i) = Ok (st', rv_i ++ leaves r) /\
                       Inv st' /\ get_rv_o st' = Some r
      else outcome (func st self a rv_i) = Raise E_incompatible
  end.

Lemma run_groups_chain (gs : list (N * list handle)) :
  forall st, Inv st ->
  match chain args0 lookup (get_rv_o st) gs with
  | Raise e => outcome (run_groups func st gs) = Raise e
  | Ok q => exists st', outcome (run_groups func st gs) = Ok st' /\
                        get_rv_o st' = q
  end.
Proof.
  induction gs as [|[self a] gs IH]; intros st Hinv; cbn [chain run_groups].
  - eexists. split; reflexivity.
  - rewrite outcome_bind. pose proof (func_step st self a [] Hinv) as Hstep.
    destruct (group_result args0 lookup (self, a)) as [r|e];
      [|rewrite Hstep; reflexivity].
    destruct (match get_rv_o st with Some p => compatible r p | None => true end);
      [|rewrite Hstep; reflexivity].
    destruct Hstep as (st' & -> & Hinv' & Hrv). cbn [fst].
    specialize (IH st' Hinv'). rewrite Hrv in IH. exact IH.
Qed.

Lemma record_call_returned (b : ad_call_run) (st : S) :
  Inv st -> get_rv_o st = None ->
  returned (snd (record_call func get_rv_o get_args_o b st)) = merged args0 lookup b.
Proof.
  intros Hinv Hnone. unfold record_call, merged, collect_indices.
  pose proof (run_groups_chain (groups b) st Hinv) as Hc. rewrite Hnone in Hc.
  assert (Ha : outcome (ad_call func b st)
               = match chain args0 lookup None (groups b) with
                 | Raise e => Raise e
                 | Ok q => if fails b then Raise E_backend
                           else match outcome (run_groups func st (groups b)) with
                                | Ok st' => Ok (st', done b)
                                | Raise e => Raise e
                                end
                 end).
  { unfold ad_call. rewrite outcome_bind.
    destruct (chain args0 lookup None (groups b)) as [q|e].
    - destruct Hc as (st' & -> & _). rewrite outcome_bind. unfold raise_if.
      destruct (fails b); reflexivity.
    - rewrite Hc. reflexivity. }
  destruct (ad_call func b st) as [l2 r]. unfold outcome in Ha. cbn [snd] in Ha.
  subst r.
  destruct (chain args0 lookup None (groups b)) as [q|e]; [|reflexivity].
  destruct (fails b); [reflexivity|].
  destruct Hc as (st' & Hrun & Hq). unfold outcome in Hrun. rewrite Hrun, Hq.
  destruct (final_result q (rv b)); reflexivity.
Qed.

Lemma record_call_masked_returned (mask : option pytree) (b : ad_call_run)
    (st : S) :
  Inv st -> get_rv_o st = None ->
  returned (snd (record_call_masked func get_rv_o get_args_o mask b st))
  = merged args0 lookup b \/
  returned (snd (record_call_masked func get_rv_o get_args_o mask b st))
  = Raise E_undefined_read.
Proof.
  intros Hinv Hnone. unfold record_call_masked.
  destruct (mask_index mask) as [h|].
  - left. exact (record_call_returned b st Hinv Hnone).
  - right. reflexivity.
Qed.

(** The result recorded after a run of the callbacks is that of the
    group visited last. *)
Lemma chain_snoc (gs : list (N * list handle)) (g : N * list handle) :
  forall (prev q : option pytree),
  chain args0 lookup prev (gs ++ [g]) = Ok q ->
  exists r, q = Some r /\ group_result args0 lookup g = Ok r.
Proof.
  induction gs as [|g0 gs IH]; intros prev q Hc; cbn [app chain] in Hc.
  - destruct (group_result args0 lookup g) as [r|e]; [|discriminate].
    destruct (match prev with Some p => compatible r p | None => true end);
      [|discriminate].
    injection Hc as <-. exists r. split; reflexivity.
  - destruct (group_result args0 lookup g0) as [r0|e]; [|discriminate].
    destruct (match prev with Some p => compatible r0 p | None => true end);
      [|discriminate].
    exact (IH _ _ Hc).
Qed.

Lemma merged_last (b : ad_call_run) (gs : list (N * list handle))
    (g : N * list handle) (t : pytree) :
  groups b = gs ++ [g] -> merged args0 lookup b = Ok t ->
  exists r, group_result args0 lookup g = Ok r /\ update_indices r (rv b) = Ok t.
Proof.
  unfold merged. intros Hg Hm. rewrite Hg in Hm.
  destruct (chain args0 lookup None (gs ++ [g])) as [q|e] eqn:Hc; [|discriminate].
  destruct (chain_snoc gs g None q Hc) as (r & -> & Hr).
  destruct (fails b); [discriminate|].
  exists r. split; [exact Hr | exact Hm].
Qed.

End ChainFacts.

(** ** Checking and merging the results of the groups *)

Section MergeFacts.
Context {host : Host} {tracer : Tracer}.

Lemma count_inc (p : ev -> bool) (v : list handle) :
  (forall h, p (ad_var_inc_ref h) = false) ->
  count p (map ad_var_inc_ref v) = 0%nat.
Proof.
  intros Hp. induction v as [|h v IH]; simpl; [reflexivity|].
  rewrite Hp, IH. reflexivity.
Qed.

(** The checks that one entry of the callback of [switch] makes. *)
Lemma switch_func_checks (st : State) (self : N) (a rv_i : list handle)
    (r : pytree) :
  group_result (args_o st) (switch_lookup (callables_o st)) (self, a) = Ok r ->
  count is_check (log_of (switch_func st self a rv_i))
  = match rv_o st with Some _ => 1%nat | None => 0%nat end.
Proof.
  unfold group_result, switch_func, switch_lookup. cbn [fst snd]. intros Hg.
  rewrite log_bind. cbn [log_of outcome fst snd app].
  destruct (update_indices (args_o st) a) as [t|e]; [|discriminate].
  cbn [args_o callables_o rv_o].
  destruct (callables_o st !! N.to_nat self) as [f|]; [|discriminate].
  rewrite log_bind, count_app, call_unpacked_outcome.
  unfold call_unpacked at 1.
  destruct (unpack t) as [[args kwargs]|]; [|discriminate].
  rewrite log_bind_emit. cbn [log_of fst count is_check Nat.add].
  rewrite Hg. rewrite log_bind, count_app.
  destruct (rv_o st) as [p|].
  - rewrite check_compatibility_outcome. unfold check_compatibility.
    rewrite log_bind_emit. unfold raise_if.
    destruct (compatible r p); cbn [negb log_of fst ret raise count is_check Nat.add];
      [|reflexivity].
    rewrite log_bind. cbn [log_of outcome fst snd collect_indices].
    rewrite count_app, count_inc by reflexivity. reflexivity.
  - cbn [log_of outcome fst snd ret count Nat.add].
    rewrite log_bind. cbn [log_of outcome fst snd collect_indices].
    rewrite count_app, count_inc by reflexivity. reflexivity.
Qed.

Lemma dispatch_func_checks (st : DispatchState) (self : N) (a rv_i : list handle)
    (r : pytree) :
  group_result (d_args_o st) (dispatch_lookup (d_type st) (callable_o st)) (self, a)
  = Ok r ->
  count is_check (log_of (dispatch_func st self a rv_i))
  = match d_rv_o st with Some _ => 1%nat | None => 0%nat end.
Proof.
  unfold group_result, dispatch_func, dispatch_lookup. cbn [fst snd]. intros Hg.
  rewrite log_bind. cbn [log_of outcome fst snd app].
  destruct (update_indices (d_args_o st) a) as [t|e]; [|discriminate].
  cbn [d_args_o callable_o d_rv_o d_type].
  rewrite log_bind, count_app, call_unpacked_outcome.
  unfold call_unpacked at 1.
  destruct (unpack t) as [[args kwargs]|]; [|discriminate].
  rewrite log_bind_emit. cbn [log_of fst count is_check Nat.add].
  rewrite Hg. rewrite log_bind, count_app.
  destruct (d_rv_o st) as [p|].
  - rewrite check_compatibility_outcome. unfold check_compatibility.
    rewrite log_bind_emit. unfold raise_if.
    destruct (compatible r p); cbn [negb log_of fst ret raise count is_check Nat.add];
      [|reflexivity].
    rewrite log_bind. cbn [log_of outcome fst snd collect_indices].
    rewrite count_app, count_inc by reflexivity. reflexivity.
  - cbn [log_of outcome fst snd ret count Nat.add].
    rewrite log_bind. cbn [log_of outcome fst snd collect_indices].
    rewrite count_app, count_inc by reflexivity. reflexivity.
Qed.

(** What [switch] returns: something fixed before the Call State exists,
    or the merge of the group results (unless the read of the mask is
    undefined). *)
Lemma switch_impl_merged (index_ : pytree) (callables : list callable)
    (args_ : list pytree) (kwargs_ : pydict) :
  (exists res, forall b,
     returned (snd (switch_impl b index_ callables args_ kwargs_)) = res /\
     count is_new_State (fst (switch_impl b index_ callables args_ kwargs_)) = 0%nat) \/
  (exists mask args kwargs,
     extract_mask args_ kwargs_ = Ok (mask, args, kwargs) /\
     forall b,
       (returned (snd (switch_impl b index_ callables args_ kwargs_))
        = merged (make_tuple args kwargs) (switch_lookup callables) b \/
        returned (snd (switch_impl b index_ callables args_ kwargs_))
        = Raise E_undefined_read) /\
       count is_new_State (fst (switch_impl b index_ callables args_ kwargs_)) = 1%nat).
Proof.
  assert (Hrec : forall mask args kwargs b,
    (returned (snd (record_call_masked switch_func rv_o args_o mask b
                      {| args_o := make_tuple args kwargs; callables_o := callables;
                         rv_o := None |}))
     = merged (make_tuple args kwargs) (switch_lookup callables) b \/
     returned (snd (record_call_masked switch_func rv_o args_o mask b
                      {| args_o := make_tuple args kwargs; callables_o := callables;
                         rv_o := None |}))
     = Raise E_undefined_read) /\
    count is_new_State (fst (record_call_masked switch_func rv_o args_o mask b
                     {| args_o := make_tuple args kwargs; callables_o := callables;
                        rv_o := None |})) = 1%nat).
  { intros mask args kwargs b. split.
    - apply (record_call_masked_returned switch_func rv_o args_o
               (fun st => (forall v, update (args_o st) v
                                     = update (make_tuple args kwargs) v) /\
                          callables_o st = callables)).
      + intros st self a rv_i [Hu Hc].
        pose proof (switch_func_step (make_tuple args kwargs) st self a rv_i Hu) as Hs.
        rewrite Hc in Hs.
        destruct (group_result _ _ _) as [r|e]; [|exact Hs].
        destruct (match rv_o st with Some p => compatible r p | None => true end);
          [|exact Hs].
        destruct Hs as (st' & Ho & Hu' & Hc' & Hr').
        exists st'. split; [exact Ho|]. split; [|exact Hr'].
        split; [exact Hu' | congruence].
      + split; reflexivity.
      + reflexivity.
    - rewrite <- count_new_lifetime.
      apply (record_call_masked_log switch_func rv_o args_o switch_func_quiet). }
  unfold switch_impl.
  destruct (extract_mask args_ kwargs_) as [[[mask args] kwargs]|e] eqn:He;
    [|left; eexists; intros b; split; reflexivity].
  assert (Htr : forall i,
    (exists res, forall b,
       returned (snd (switch_traced b i mask callables args kwargs)) = res /\
       count is_new_State (fst (switch_traced b i mask callables args kwargs)) = 0%nat) \/
    (forall b,
       (returned (snd (switch_traced b i mask callables args kwargs))
        = merged (make_tuple args kwargs) (switch_lookup callables) b \/
        returned (snd (switch_traced b i mask callables args kwargs))
        = Raise E_undefined_read) /\
       count is_new_State (fst (switch_traced b i mask callables args kwargs)) = 1%nat)).
  { intros i. unfold switch_traced.
    destruct (index_plus_one i) as [index|];
      [|left; eexists; intros b; split; reflexivity].
    destruct (supp (tree_type index)) as [s|];
      [|left; eexists; intros b; split; reflexivity].
    destruct (_ || _ || _); [left; eexists; intros b; split; reflexivity|].
    right. intros b. apply Hrec. }
  destruct index_;
    try (match goal with
         | |- context [switch_traced _ ?i mask callables args kwargs] =>
             destruct (Htr i) as [Hl|Hr];
             [left; exact Hl
             |right; do 3 eexists; split; [reflexivity | exact Hr]]
         end).
  left. destruct mask as [m|]; simpl.
  - destruct (try_cast_bool m) as [[|]|];
      [destruct (getitem callables z)| |]; eexists; intros b; split; reflexivity.
  - destruct (getitem callables z); eexists; intros b; split; reflexivity.
Qed.

Lemma dispatch_impl_merged (instances : pytree) (f : callable)
    (args_ : list pytree) (kwargs_ : pydict) :
  (exists res, forall b,
     returned (snd (dispatch_impl b instances f args_ kwargs_)) = res /\
     count is_new_State (fst (dispatch_impl b instances f args_ kwargs_)) = 0%nat) \/
  (exists mask args kwargs n s value,
     tree_type instances = ArrayType n s value /\
     extract_mask args_ kwargs_ = Ok (mask, args, kwargs) /\
     forall b,
       (returned (snd (dispatch_impl b instances f args_ kwargs_))
        = merged (make_tuple args kwargs) (dispatch_lookup value f) b \/
        returned (snd (dispatch_impl b instances f args_ kwargs_))
        = Raise E_undefined_read) /\
       count is_new_State (fst (dispatch_impl b instances f args_ kwargs_)) = 1%nat).
Proof.
  unfold dispatch_impl.
  destruct (tree_type instances) as [| | | | | | | |n s value| |];
    try solve [left; eexists; intros b; split; reflexivity].
  destruct (_ || _); [left; eexists; intros b; split; reflexivity|].
  destruct (Domain _); [|left; eexists; intros b; split; reflexivity].
  destruct (extract_mask args_ kwargs_) as [[[mask args] kwargs]|e];
    [|left; eexists; intros b; split; reflexivity].
  right. exists mask, args, kwargs, n, s, value.
  split; [reflexivity|]. split; [reflexivity|]. intros b. split.
  - apply (record_call_masked_returned dispatch_func d_rv_o d_args_o
             (fun st => (forall v, update (d_args_o st) v
                                   = update (make_tuple args kwargs) v) /\
                        callable_o st = f /\ d_type st = value)).
    + intros st self a rv_i (Hu & Hc & Ht).
      pose proof (dispatch_func_step (make_tuple args kwargs) st self a rv_i Hu) as Hs.
      rewrite Hc, Ht in Hs.
      destruct (group_result _ _ _) as [r|e]; [|exact Hs].
      destruct (match d_rv_o st with Some p => compatible r p | None => true end);
        [|exact Hs].
      destruct Hs as (st' & Ho & Hu' & (Hc' & Ht') & Hr').
      exists st'. split; [exact Ho|]. split; [|exact Hr'].
      split; [exact Hu'|]. split; congruence.
    + repeat split.
    + reflexivity.
  - rewrite <- count_new_lifetime.
    apply (record_call_masked_log dispatch_func d_rv_o d_args_o dispatch_func_quiet).
Qed.

End MergeFacts.

(** X25. Every entry of the callback, in [switch] and in [dispatch],
    whose callable returned a result: the first entry makes no
    compatibility check; every later one calls [check_compatibility]
    once, on the result and the recorded one, and ends in the exception
    of the check if it raises. Otherwise the result is recorded in place
    of the previous one and its handles are appended to the vector of
    the primitive. What an invocation returns is rebuilt by
    [update_indices] from the result of the group that was visited last
    and the output vector. *)
Theorem last_group_result_is_returned {host : Host} {tracer : Tracer}
    (index_ instances : pytree) (callables : list callable) (f : callable)
    (args_ : list pytree) (kwargs_ : pydict) :
  (forall (st : State) (self : N) (a rv_i : list handle) (r : pytree),
     group_result (args_o st) (switch_lookup (callables_o st)) (self, a) = Ok r ->
     (rv_o st = None ->
      count is_check (log_of (switch_func st self a rv_i)) = 0%nat /\
      exists st', outcome (switch_func st self a rv_i) = Ok (st', rv_i ++ leaves r) /\
                  rv_o st' = Some r) /\
     (forall prev, rv_o st = Some prev ->
      count is_check (log_of (switch_func st self a rv_i)) = 1%nat /\
      (forall e, outcome (check_compatibility r prev) = Raise e ->
       outcome (switch_func st self a rv_i) = Raise e) /\
      (outcome (check_compatibility r prev) = Ok tt ->
       exists st', outcome (switch_func st self a rv_i) = Ok (st', rv_i ++ leaves r) /\
                   rv_o st' = Some r))) /\
  (forall (st : DispatchState) (self : N) (a rv_i : list handle) (r : pytree),
     group_result (d_args_o st) (dispatch_lookup (d_type st) (callable_o st)) (self, a)
     = Ok r ->
     (d_rv_o st = None ->
      count is_check (log_of (dispatch_func st self a rv_i)) = 0%nat /\
      exists st', outcome (dispatch_func st self a rv_i) = Ok (st', rv_i ++ leaves r) /\
                  d_rv_o st' = Some r) /\
     (forall prev, d_rv_o st = Some prev ->
      count is_check (log_of (dispatch_func st self a rv_i)) = 1%nat /\
      (forall e, outcome (check_compatibility r prev) = Raise e ->
       outcome (dispatch_func st self a rv_i) = Raise e) /\
      (outcome (check_compatibility r prev) = Ok tt ->
       exists st', outcome (dispatch_func st self a rv_i) = Ok (st', rv_i ++ leaves r) /\
                   d_rv_o st' = Some r))) /\
  (forall b mask args kwargs gs g t,
     extract_mask args_ kwargs_ = Ok (mask, args, kwargs) ->
     count is_new_State (fst (switch_impl b index_ callables args_ kwargs_)) <> 0%nat ->
     groups b = gs ++ [g] ->
     returned (snd (switch_impl b index_ callables args_ kwargs_)) = Ok t ->
     exists r,
       group_result (make_tuple args kwargs) (switch_lookup callables) g = Ok r /\
       update_indices r (rv b) = Ok t) /\
  (forall b mask args kwargs n s value gs g t,
     tree_type instances = ArrayType n s value ->
     extract_mask args_ kwargs_ = Ok (mask, args, kwargs) ->
     count is_new_State (fst (dispatch_impl b instances f args_ kwargs_)) <> 0%nat ->
     groups b = gs ++ [g] ->
     returned (snd (dispatch_impl b instances f args_ kwargs_)) = Ok t ->
     exists r,
       group_result (make_tuple args kwargs) (dispatch_lookup value f) g = Ok r /\
       update_indices r (rv b) = Ok t).
Proof.
  split; [|split; [|split]].
  - intros st self a rv_i r Hg.
    pose proof (switch_func_step (args_o st) st self a rv_i (fun v => eq_refl)) as Hs.
    rewrite Hg in Hs. split.
    + intros Hn. rewrite (switch_func_checks st self a rv_i r Hg), Hn.
      split; [reflexivity|]. rewrite Hn in Hs.
      destruct Hs as (st' & Ho & _ & _ & Hr). exists st'. split; assumption.
    + intros prev Hp. rewrite (switch_func_checks st self a rv_i r Hg), Hp.
      split; [reflexivity|]. rewrite Hp in Hs.
      rewrite check_compatibility_outcome.
      destruct (compatible r prev); split; intros; try discriminate.
      * destruct Hs as (st' & Ho & _ & _ & Hr). exists st'. split; assumption.
      * congruence.
  - intros st self a rv_i r Hg.
    pose proof (dispatch_func_step (d_args_o st) st self a rv_i (fun v => eq_refl))
      as Hs.
    rewrite Hg in Hs. split.
    + intros Hn. rewrite (dispatch_func_checks st self a rv_i r Hg), Hn.
      split; [reflexivity|]. rewrite Hn in Hs.
      destruct Hs as (st' & Ho & _ & _ & Hr). exists st'. split; assumption.
    + intros prev Hp. rewrite (dispatch_func_checks st self a rv_i r Hg), Hp.
      split; [reflexivity|]. rewrite Hp in Hs.
      rewrite check_compatibility_outcome.
      destruct (compatible r prev); split; intros; try discriminate.
      * destruct Hs as (st' & Ho & _ & _ & Hr). exists st'. split; assumption.
      * congruence.
  - intros b mask args kwargs gs g t He Hn Hg Ht.
    destruct (switch_impl_merged index_ callables args_ kwargs_)
      as [(res & Hres)|(mask' & args' & kwargs' & He' & Hm)].
    + destruct (Hres b) as [_ H0]. contradiction.
    + rewrite He in He'. inversion He'; subst.
      destruct (Hm b) as [[Hmerged|Hu] _]; [|congruence].
      rewrite Hmerged in Ht. exact (merged_last _ _ b gs g t Hg Ht).
  - intros b mask args kwargs n s value gs g t Hty He Hn Hg Ht.
    destruct (dispatch_impl_merged instances f args_ kwargs_)
      as [(res & Hres)|(mask' & args' & kwargs' & n' & s' & value' & Hty' & He' & Hm)].
    + destruct (Hres b) as [_ H0]. contradiction.
    + rewrite He in He'. inversion He'; subst.
      rewrite Hty in Hty'. inversion Hty'; subst.
      destruct (Hm b) as [[Hmerged|Hu] _]; [|congruence].
      rewrite Hmerged in Ht. exact (merged_last _ _ b gs g t Hg Ht).
Qed.

(** Witness of X25: two groups; the result carries the host integer of
    the callable that was visited last, with the handle of the output
    vector. *)
Lemma last_group_result_is_returned_witness :
  let b := {| groups := [(0%N, [7%N]); (1%N, [8%N])]; fails := false;
              rv := [11%N]; done := true |} in
  exists r,
    group_result (make_tuple [PtVar Float_tp 3] [])
      (switch_lookup [f_tag 0; f_tag 1]) (1%N, [8%N]) = Ok r /\
    update_indices r [11%N] = Ok (PtNode CTuple [PtVar Float_tp 11; PtLong 1]).
Proof.
  intros b.
  destruct (last_group_result_is_returned (host := reference_host)
              (tracer := reference_tracer)
              (PtVar UInt_tp 5) PtNone [f_tag 0; f_tag 1] f_id
              [PtVar Float_tp 3] []) as (_ & _ & Hlast & _).
  apply (Hlast b None [PtVar Float_tp 3] [] [(0%N, [7%N])] (1%N, [8%N])).
  - reflexivity.
  - discriminate.
  - reflexivity.
  - reflexivity.
Defined.
(** ** The mask extractor and the tests on the selector *)

Section MoreSwitchFacts.
Context {host : Host} {tracer : Tracer}.

(** X19. [extract_mask] finds no mask exactly when there is no keyword
    argument ["active"] and the last positional argument, if there is
    one, is neither a Python boolean nor a 1-D JIT boolean array; it
    then leaves both the positional and the keyword arguments as they
    are. *)
Theorem no_mask_leaves_arguments (args : list pytree) (kwargs : pydict) :
  ((dict_get kwargs mask_key = None /\
    forall x, last args = Some x -> is_mask_type (tree_type x) = false)
   <-> extract_mask args kwargs = Ok (None, args, kwargs)) /\
  (forall args' kwargs',
     extract_mask args kwargs = Ok (None, args', kwargs') ->
     args' = args /\ kwargs' = kwargs).
Proof.
  unfold extract_mask. split; [split|].
  - intros [-> Hlast]. destruct (last args) as [x|]; [|reflexivity].
    rewrite (Hlast x eq_refl). reflexivity.
  - destruct (dict_get kwargs mask_key) as [m|];
      [destruct (call_type_true _); discriminate|].
    intros He. split; [reflexivity|]. intros x Hx. rewrite Hx in He.
    destruct (is_mask_type (tree_type x)); [|reflexivity].
    destruct (call_type_true _); discriminate.
  - intros args' kwargs'.
    destruct (dict_get kwargs mask_key) as [m|];
      [destruct (call_type_true _); discriminate|].
    destruct (last args) as [x|]; [|intros [= <- <-]; split; reflexivity].
    destruct (is_mask_type (tree_type x));
      [destruct (call_type_true _); discriminate|].
    intros [= <- <-]. split; reflexivity.
Qed.

(** X20. With a plain integer selector [i] and [n] callables, and no
    mask or the mask [True]: for [0 <= i < n] the callable [i] is the
    one that is called; for [-n <= i < 0] it is the callable [n + i],
    counted from the end; every other [i] raises without any callable
    being called. *)
Theorem switch_plain_index_bounds (b : ad_call_run) (i : Z)
    (callables : list callable) (args_ : list pytree) (kwargs_ : pydict)
    (mask : option pytree) (args : list pytree) (kwargs : pydict) :
  let n := Z.of_nat (length callables) in
  let r := switch_impl b (PtLong i) callables args_ kwargs_ in
  extract_mask args_ kwargs_ = Ok (mask, args, kwargs) ->
  mask = None \/ mask = Some (PtBool true) ->
  ((0 <= i < n)%Z ->
   exists f, callables !! Z.to_nat i = Some f /\
             r = early [callable_call i args kwargs] (f args kwargs)) /\
  ((- n <= i < 0)%Z ->
   exists f, callables !! Z.to_nat (n + i) = Some f /\
             r = early [callable_call i args kwargs] (f args kwargs)) /\
  ((i < - n \/ n <= i)%Z ->
   r = early [] (Raise (E_exception 0)) /\ called (fst r) = []).
Proof.
  intros n r He Hm.
  assert (Hfast :
    r = match getitem callables i with
        | Some f => early [callable_call i args kwargs] (f args kwargs)
        | None => early [] (Raise (E_exception 0))
        end).
  { unfold r, switch_impl. rewrite He. destruct Hm as [-> | ->]; reflexivity. }
  rewrite Hfast. unfold getitem, n. split; [|split].
  - intros [Hlo Hhi]. rewrite (proj2 (Z.leb_le 0 i) Hlo).
    destruct (lookup_lt_is_Some_2 callables (Z.to_nat i) ltac:(lia)) as [f Hf].
    exists f. split; [exact Hf|]. unfold callable in *. rewrite Hf. reflexivity.
  - intros [Hlo Hhi]. rewrite (proj2 (Z.leb_gt 0 i) Hhi).
    rewrite (proj2 (Z.leb_le _ _) Hlo).
    destruct (lookup_lt_is_Some_2 callables
                (Z.to_nat (Z.of_nat (length callables) + i)) ltac:(lia)) as [f Hf].
    exists f. split; [exact Hf|]. unfold callable in *. rewrite Hf. reflexivity.
  - intros [Hlo | Hhi].
    + rewrite (proj2 (Z.leb_gt 0 i)) by lia.
      rewrite (proj2 (Z.leb_gt _ _)) by lia. split; reflexivity.
    + rewrite (proj2 (Z.leb_le 0 i)) by lia.
      rewrite lookup_ge_None_2 by lia. split; reflexivity.
Qed.

Lemma record_call_masked_new_State {S : Type}
    (func : S -> N -> list handle -> list handle -> T (S * list handle))
    (func_quiet : forall st self a r, quiet (log_of (func st self a r)))
    (get_rv_o : S -> option pytree) (get_args_o : S -> pytree)
    (mask : option pytree) (b : ad_call_run) (state : S) :
  count is_new_State
    (fst (record_call_masked func get_rv_o get_args_o mask b state)) = 1%nat.
Proof.
  rewrite <- count_new_lifetime.
  apply (record_call_masked_log func get_rv_o get_args_o func_quiet mask b state).
Qed.

(** X21. A selector of [switch] that is not a Python integer is tested
    after 1 has been added to it: if the sum is no Dr.Jit array (as for
    a Python boolean, whose sum is an integer) the call ends in "the
    'index' argument must be a Dr.Jit array", and if it is an array
    without a JIT backend, of another element kind than UInt32 or not
    1-D, in the second error. The Call State is created exactly when
    the selector passes these tests, and no callable is called
    otherwise. *)
Theorem switch_index_tests (b : ad_call_run) (index_ : pytree)
    (callables : list callable) (args_ : list pytree) (kwargs_ : pydict)
    (mask : option pytree) (args : list pytree) (kwargs : pydict) :
  let r := switch_impl b index_ callables args_ kwargs_ in
  extract_mask args_ kwargs_ = Ok (mask, args, kwargs) ->
  (forall i, index_ <> PtLong i) ->
  (forall index, index_plus_one index_ = Some index ->
   is_drjit_type (tree_type index) = false ->
   r = early [] (Raise E_index_drjit)) /\
  (forall index n s v, index_plus_one index_ = Some index ->
   tree_type index = ArrayType n s v ->
   backend s = BackendNone \/ type s <> VtUInt32 \/ ndim s <> 1%nat ->
   r = early [] (Raise E_index_kind)) /\
  (traced_index index_ <-> count is_new_State (fst r) = 1%nat) /\
  (~ traced_index index_ -> called (fst r) = []).
Proof.
  intros r He Hint.
  assert (Hr : r = switch_traced b index_ mask callables args kwargs).
  { unfold r, switch_impl. rewrite He.
    destruct index_; try reflexivity. exfalso. exact (Hint z eq_refl). }
  rewrite Hr. clear Hr r. unfold switch_traced.
  split; [|split; [|split]].
  - intros index Hp Hd. rewrite Hp.
    destruct (tree_type index); try reflexivity. discriminate Hd.
  - intros index n s v Hp Htp Hbad. rewrite Hp, Htp. cbn [supp].
    assert (Hg : bool_decide (backend s = BackendNone)
                 || negb (bool_decide (type s = VtUInt32))
                 || negb (bool_decide (ndim s = 1%nat)) = true).
    { destruct Hbad as [Hb|[Ht|Hn]].
      - rewrite (bool_decide_eq_true_2 _ Hb). reflexivity.
      - rewrite (bool_decide_eq_false_2 _ Ht). cbn [negb].
        rewrite orb_true_r. reflexivity.
      - rewrite (bool_decide_eq_false_2 _ Hn). cbn [negb].
        rewrite orb_true_r. reflexivity. }
    rewrite Hg. reflexivity.
  - split.
    + intros (_ & index & n & s & v & Hp & Htp & Hb & Ht & Hn).
      rewrite Hp, Htp. cbn [supp].
      rewrite (bool_decide_eq_false_2 _ Hb), (bool_decide_eq_true_2 _ Ht),
              (bool_decide_eq_true_2 _ Hn). cbn [negb orb].
      apply (record_call_masked_new_State switch_func switch_func_quiet).
    + destruct (index_plus_one index_) as [index|] eqn:Hp; [|discriminate].
      destruct (tree_type index) as [| | | | | | | |n s v| |] eqn:Htp;
        try discriminate. cbn [supp].
      destruct (bool_decide (backend s = BackendNone)) eqn:Hb; [discriminate|].
      destruct (bool_decide (type s = VtUInt32)) eqn:Ht; [|discriminate].
      destruct (bool_decide (ndim s = 1%nat)) eqn:Hn; [|discriminate].
      intros _. split; [exact Hint|]. exists index, n, s, v.
      apply bool_decide_eq_false_1 in Hb.
      apply bool_decide_eq_true_1 in Ht, Hn. repeat split; assumption.
  - intros Hnot.
    destruct (index_plus_one index_) as [index|] eqn:Hp; [|reflexivity].
    destruct (tree_type index) as [| | | | | | | |n s v| |] eqn:Htp;
      try reflexivity. cbn [supp].
    destruct (bool_decide (backend s = BackendNone)) eqn:Hb; [reflexivity|].
    destruct (bool_decide (type s = VtUInt32)) eqn:Ht; [|reflexivity].
    destruct (bool_decide (ndim s = 1%nat)) eqn:Hn; [|reflexivity].
    exfalso. apply Hnot. split; [exact Hint|]. exists index, n, s, v.
    apply bool_decide_eq_false_1 in Hb.
    apply bool_decide_eq_true_1 in Ht, Hn. repeat split; assumption.
Qed.

(** X22. [dispatch] tests [instances] before it looks at the arguments:
    an array that is not an instance array, or not 1-D, and then a type
    without the [Domain] attribute, each end the call in its own error,
    whatever the arguments are, and only then is the mask extracted. The
    Call State is created exactly when the two tests pass and the mask
    extraction succeeds. *)
Theorem dispatch_instances_tests (b : ad_call_run) (instances : pytree)
    (f : callable) (args_ : list pytree) (kwargs_ : pydict)
    (n : string) (s : ArraySupplement) (v : pytype) :
  let r := dispatch_impl b instances f args_ kwargs_ in
  tree_type instances = ArrayType n s v ->
  (is_class s = false \/ ndim s <> 1%nat -> r = early [] (Raise E_instances)) /\
  (is_class s = true -> ndim s = 1%nat ->
   (Domain (tree_type instances) = None -> r = early [] (Raise E_domain)) /\
   (forall e, is_Some (Domain (tree_type instances)) ->
    extract_mask args_ kwargs_ = Raise e -> r = early [] (Raise e))) /\
  (count is_new_State (fst r) = 1%nat <->
   is_class s = true /\ ndim s = 1%nat /\
   is_Some (Domain (tree_type instances)) /\
   exists m, extract_mask args_ kwargs_ = Ok m).
Proof.
  intros r Htp. unfold r, dispatch_impl. rewrite Htp.
  split; [|split].
  - intros Hbad.
    assert (Hg : negb (is_class s) || negb (bool_decide (ndim s = 1%nat)) = true).
    { destruct Hbad as [-> | Hn]; [reflexivity|].
      rewrite (bool_decide_eq_false_2 _ Hn). cbn [negb].
      apply orb_true_r. }
    rewrite Hg. reflexivity.
  - intros Hc Hn. rewrite Hc, (bool_decide_eq_true_2 _ Hn). cbn [negb orb].
    split.
    + intros ->. reflexivity.
    + intros e [d ->] ->. reflexivity.
  - destruct (is_class s); cbn [negb orb];
      [|split; [discriminate | intros [H _]; discriminate H]].
    case_bool_decide as Hn; cbn [negb];
      [|split; [discriminate | intros (_ & H & _); contradiction]].
    destruct (Domain (ArrayType n s v)) as [d|];
      [|split; [discriminate | intros (_ & _ & [? H] & _); discriminate H]].
    destruct (extract_mask args_ kwargs_) as [[[m a] k]|e];
      [|split; [discriminate | intros (_ & _ & _ & [? H]); discriminate H]].
    split.
    + intros _. repeat split; eauto.
    + intros _.
      apply (record_call_masked_new_State dispatch_func dispatch_func_quiet).
Qed.

End MoreSwitchFacts.

(** Witness of X19: a float and an integer as the arguments. *)
Lemma no_mask_leaves_arguments_witness :
  extract_mask (host := reference_host) (tracer := reference_tracer)
    [PtVar Float_tp 7; PtLong 1] []
  = Ok (None, [PtVar Float_tp 7; PtLong 1], []).
Proof.
  destruct (no_mask_leaves_arguments (host := reference_host)
              (tracer := reference_tracer)
              [PtVar Float_tp 7; PtLong 1] []) as [[Hto _] _].
  apply Hto. split; [reflexivity|]. intros x [= <-]. reflexivity.
Defined.

(** Witness of X20: [switch(-1, [f0, f1], x)] is [f1(x)]. *)
Lemma switch_plain_index_bounds_witness :
  let b := {| groups := []; fails := false; rv := []; done := true |} in
  let x := PtVar Float_tp 7 in
  switch_impl (host := reference_host) (tracer := reference_tracer)
    b (PtLong (-1)) [f_tag 0; f_tag 1] [x] []
  = early [callable_call (-1) [x] []] (f_tag 1 [x] []).
Proof.
  intros b x.
  destruct (switch_plain_index_bounds (host := reference_host)
              (tracer := reference_tracer) b (-1)
              [f_tag 0; f_tag 1] [x] [] None [x] [] eq_refl (or_introl eq_refl))
    as (_ & Hneg & _).
  destruct (Hneg ltac:(cbn; lia)) as (f & Hf & Hr).
  injection Hf as <-. exact Hr.
Defined.

(** Witness of X21: a Python boolean as the selector. *)
Lemma switch_index_tests_witness :
  let b := {| groups := []; fails := false; rv := []; done := true |} in
  switch_impl (host := reference_host) (tracer := reference_tracer)
    b (PtBool true) [f_id] [] []
  = early [] (Raise E_index_drjit).
Proof.
  intros b.
  destruct (switch_index_tests (host := reference_host)
              (tracer := reference_tracer) b (PtBool true)
              [f_id] [] [] None [] [] eq_refl ltac:(discriminate))
    as (Hdrjit & _).
  apply (Hdrjit (PtLong 2)); reflexivity.
Defined.

(** Witness of X22: a JIT leaf of floats as [instances]. *)
Lemma dispatch_instances_tests_witness :
  let b := {| groups := []; fails := false; rv := []; done := true |} in
  dispatch_impl (host := reference_host) (tracer := reference_tracer)
    b (PtVar Float_tp 3) f_id [] []
  = early [] (Raise E_instances).
Proof.
  intros b.
  destruct (dispatch_instances_tests (host := reference_host)
              (tracer := reference_tracer) b
              (PtVar Float_tp 3) f_id [] [] _ _ _ eq_refl) as (Hinst & _).
  apply Hinst. left. reflexivity.
Defined.

(** ** The callables that are called *)

Lemma called_app (l1 l2 : list ev) : called (l1 ++ l2) = called l1 ++ called l2.
Proof.
  induction l1 as [|e l1 IH]; [reflexivity|].
  destruct e; cbn [app called]; rewrite IH; reflexivity.
Qed.

Lemma called_inc (v : list handle) : called (map ad_var_inc_ref v) = [].
Proof. induction v as [|h v IH]; [reflexivity | exact IH]. Qed.

Lemma called_dtor (v : list handle) : called (dr_index_vector_dtor v) = [].
Proof. induction v as [|h v IH]; [reflexivity | exact IH]. Qed.

Lemma bind_nil_l {Ev E A B} (a : A) (k : A -> Run Ev E B) :
  bind ([], Ok a) k = k a.
Proof. unfold bind. destruct (k a). reflexivity. Qed.

Section CalledFacts.
Context {host : Host} {tracer : Tracer}.

Lemma call_unpacked_called (which : Z) (f : callable) (t : pytree) :
  (called (log_of (call_unpacked which f t)) = [which]) \/
  (called (log_of (call_unpacked which f t)) = [] /\
   exists e, outcome (call_unpacked which f t) = Raise e).
Proof.
  unfold call_unpacked. destruct (unpack t) as [[args kwargs]|].
  - left. rewrite log_bind_emit. cbn. reflexivity.
  - right. split; [reflexivity | eexists; reflexivity].
Qed.

Lemma after_call_called {A} (c : T pytree) (k : pytree -> T A) (which : Z) :
  (called (log_of c) = [which]) \/
  (called (log_of c) = [] /\ exists e, outcome c = Raise e) ->
  (forall x, called (log_of (k x)) = []) ->
  (called (log_of (bind c k)) = [which]) \/
  (called (log_of (bind c k)) = [] /\ exists e, outcome (bind c k) = Raise e).
Proof.
  intros Hc Hk. rewrite log_bind, outcome_bind, called_app.
  destruct Hc as [Hc|[Hc [e He]]].
  - left. rewrite Hc. destruct (outcome c); [rewrite Hk|]; reflexivity.
  - right. rewrite Hc, He. split; [reflexivity | eexists; reflexivity].
Qed.

Lemma after_check_called (result : pytree) (rv_o : option pytree)
    (rv_i : list handle) {A} (k : list handle -> T A) :
  (forall x, called (log_of (k x)) = []) ->
  called (log_of (match rv_o with
                  | Some prev => check_compatibility result prev
                  | None => ret tt
                  end ;;; rv_i' <- collect_indices result rv_i ;; k rv_i')) = [].
Proof.
  intros Hk. rewrite log_bind, called_app.
  assert (H1 : called (log_of (match rv_o with
                               | Some prev => check_compatibility result prev
                               | None => ret tt
                               end)) = []).
  { destruct rv_o as [prev|]; [|reflexivity].
    unfold check_compatibility. rewrite log_bind_emit.
    destruct (compatible result prev); reflexivity. }
  rewrite H1. destruct (outcome _); [|reflexivity].
  rewrite log_bind, called_app. unfold collect_indices at 1.
  cbn [log_of fst]. rewrite called_inc.
  destruct (outcome _); [apply Hk | reflexivity].
Qed.

Lemma switch_func_called (st : State) (self : N) (a rv_i : list handle) :
  (called (log_of (switch_func st self a rv_i)) = [Z.of_N self]) \/
  (called (log_of (switch_func st self a rv_i)) = [] /\
   exists e, outcome (switch_func st self a rv_i) = Raise e).
Proof.
  unfold switch_func.
  destruct (update_indices (args_o st) a) as [args|e];
    [|right; split; [reflexivity | eexists; reflexivity]].
  rewrite bind_nil_l. cbn [callables_o args_o rv_o].
  destruct (callables_o st !! N.to_nat self) as [f|];
    [|right; split; [reflexivity | eexists; reflexivity]].
  apply after_call_called; [apply call_unpacked_called|].
  intros result. apply after_check_called. intros x. reflexivity.
Qed.

Lemma dispatch_func_called (st : DispatchState) (self : N) (a rv_i : list handle) :
  (called (log_of (dispatch_func st self a rv_i)) = [Z.of_N self]) \/
  (called (log_of (dispatch_func st self a rv_i)) = [] /\
   exists e, outcome (dispatch_func st self a rv_i) = Raise e).
Proof.
  unfold dispatch_func.
  destruct (update_indices (d_args_o st) a) as [args|e];
    [|right; split; [reflexivity | eexists; reflexivity]].
  rewrite bind_nil_l. cbn [d_type d_args_o callable_o d_rv_o].
  apply after_call_called; [apply call_unpacked_called|].
  intros result. apply after_check_called. intros x. reflexivity.
Qed.

Section SharedCalled.
Context {S : Type}.
Variable func : S -> N -> list handle -> list handle -> T (S * list handle).
Variable get_rv_o : S -> option pytree.
Variable get_args_o : S -> pytree.
Hypothesis func_called : forall st self a r,
  (called (log_of (func st self a r)) = [Z.of_N self]) \/
  (called (log_of (func st self a r)) = [] /\
   exists e, outcome (func st self a r) = Raise e).

Lemma run_groups_called (gs : list (N * list handle)) :
  forall state : S,
  (exists k, called (log_of (run_groups func state gs))
             = take k (map (fun g => Z.of_N (fst g)) gs)) /\
  (forall st', outcome (run_groups func state gs) = Ok st' ->
               called (log_of (run_groups func state gs))
               = map (fun g => Z.of_N (fst g)) gs).
Proof.
  induction gs as [|[self args_i] gs IH]; intros state; cbn [run_groups map].
  - split; [exists 0%nat; reflexivity | reflexivity].
  - rewrite log_bind, outcome_bind, called_app. cbn [fst].
    destruct (func_called state self args_i []) as [Hc|[Hc [e He]]].
    + rewrite Hc. destruct (outcome (func state self args_i [])) as [r|e].
      * destruct (IH (fst r)) as [[k Hk] Hall]. split.
        -- exists (Datatypes.S k). rewrite Hk. reflexivity.
        -- intros st' Hst. rewrite (Hall st' Hst). reflexivity.
      * split; [exists 1%nat; cbn; rewrite take_0; reflexivity | discriminate].
    + rewrite Hc, He. split; [exists 0%nat; reflexivity | discriminate].
Qed.

Lemma record_call_called (b : ad_call_run) (state : S) :
  let r := record_call func get_rv_o get_args_o b state in
  let order := map (fun g => Z.of_N (fst g)) (groups b) in
  (exists k, called (fst r) = take k order) /\
  (forall t, returned (snd r) = Ok t -> called (fst r) = order).
Proof.
  intros r order. unfold r, record_call, collect_indices.
  destruct (run_groups_called (groups b) state) as [Hpre Hall].
  assert (Hlog : log_of (ad_call func b state)
                 = log_of (run_groups func state (groups b))).
  { unfold ad_call. rewrite log_bind.
    destruct (outcome (run_groups func state (groups b))); [|apply app_nil_r].
    rewrite log_bind. destruct (fails b); cbn; rewrite app_nil_r; reflexivity. }
  assert (Hout : forall st' dn, outcome (ad_call func b state) = Ok (st', dn) ->
                 outcome (run_groups func state (groups b)) = Ok st').
  { unfold ad_call. intros st' dn. rewrite outcome_bind.
    destruct (outcome (run_groups func state (groups b))) as [st|e];
      [|discriminate].
    rewrite outcome_bind. destruct (fails b); cbn; [discriminate|].
    intros [= <- _]. reflexivity. }
  destruct (ad_call func b state) as [l2 [[state' dn]|e]];
    unfold log_of, outcome in Hlog, Hout; cbn [fst snd] in Hlog, Hout.
  - destruct (final_result (get_rv_o state') (rv b)) as [t|e];
      cbn [fst snd returned];
      rewrite ?called_app, called_inc, ?called_dtor, Hlog;
      cbn [called app]; rewrite ?app_nil_r.
    + assert (Hd : called (if dn then [delete_State] else []) = [])
        by (destruct dn; reflexivity).
      rewrite Hd, app_nil_r. split; [exact Hpre|].
      intros _ _. exact (Hall state' (Hout state' dn eq_refl)).
    + split; [exact Hpre | discriminate].
  - cbn [fst snd returned].
    rewrite ?called_app, called_inc, ?called_dtor, Hlog.
    cbn [called app]. rewrite ?app_nil_r. split; [exact Hpre | discriminate].
Qed.

Lemma record_call_masked_called (mask : option pytree) (b : ad_call_run)
    (state : S) :
  let r := record_call_masked func get_rv_o get_args_o mask b state in
  let order := map (fun g => Z.of_N (fst g)) (groups b) in
  (exists k, called (fst r) = take k order) /\
  (forall t, returned (snd r) = Ok t -> called (fst r) = order).
Proof.
  intros r order. unfold r, record_call_masked.
  destruct (mask_index mask) as [h|]; [apply record_call_called|].
  unfold collect_indices. cbn [fst snd returned].
  rewrite called_app, called_inc. cbn [called app].
  split; [exists 0%nat; rewrite take_0; reflexivity | discriminate].
Qed.

End SharedCalled.

(** X23. Once the Call State exists, [switch] and [dispatch] call
    callables only from the callback, one per target in the order in
    which the backend visits the targets: the calls made are those of a
    prefix of the visited targets, and of all of them when the call
    returns a result. *)
Theorem callables_called_in_group_order (b : ad_call_run)
    (index_ instances : pytree) (callables : list callable) (f : callable)
    (args_ : list pytree) (kwargs_ : pydict) :
  let r := switch_impl b index_ callables args_ kwargs_ in
  let d := dispatch_impl b instances f args_ kwargs_ in
  let order := map (fun g => Z.of_N (fst g)) (groups b) in
  (count is_new_State (fst r) = 1%nat ->
   (exists k, called (fst r) = take k order) /\
   (forall t, returned (snd r) = Ok t -> called (fst r) = order)) /\
  (count is_new_State (fst d) = 1%nat ->
   (exists k, called (fst d) = take k order) /\
   (forall t, returned (snd d) = Ok t -> called (fst d) = order)).
Proof.
  intros r d order. split; intros Hnew.
  - unfold r in *.
    destruct (switch_impl_cases b index_ callables args_ kwargs_)
      as [(l & res & Heq & (Hn & _) & _)|(mask & args & kwargs & _ & Heq)];
      rewrite Heq in *.
    + cbn [fst early] in Hnew. rewrite Hn in Hnew. discriminate Hnew.
    + apply (record_call_masked_called switch_func rv_o args_o
               switch_func_called).
  - unfold d in *.
    destruct (dispatch_impl_cases b instances f args_ kwargs_)
      as [(l & res & Heq & (Hn & _) & _)
         |(mask & args & kwargs & value & _ & Heq)];
      rewrite Heq in *.
    + cbn [fst early] in Hnew. rewrite Hn in Hnew. discriminate Hnew.
    + apply (record_call_masked_called dispatch_func d_rv_o d_args_o
               dispatch_func_called).
Qed.

End CalledFacts.

(** Witness of X23: two targets, visited in the order 1, 0. *)
Lemma callables_called_in_group_order_witness :
  let b := {| groups := [(1%N, [8%N]); (0%N, [7%N])]; fails := false;
              rv := [11%N]; done := true |} in
  called (fst (switch_impl (host := reference_host)
                 (tracer := reference_tracer) b (PtVar UInt_tp 5)
                 [f_tag 0; f_tag 1] [PtVar Float_tp 3] []))
  = [1%Z; 0%Z].
Proof.
  intros b.
  destruct (callables_called_in_group_order (host := reference_host)
              (tracer := reference_tracer) b
              (PtVar UInt_tp 5) PtNone [f_tag 0; f_tag 1] f_id
              [PtVar Float_tp 3] []) as [Hs _].
  destruct (Hs eq_refl) as [_ Hall].
  exact (Hall _ eq_refl).
Defined.

(** ** The read of the mask on the general path *)

Section MaskReadFacts.
Context {host : Host} {tracer : Tracer}.

Lemma mask_index_defined (mask : option pytree) :
  mask_index mask <> None <->
  mask = None \/ exists tp h, mask = Some (PtVar tp h).
Proof.
  split.
  - destruct mask as [[| | | |tp h|]|]; cbn [mask_index]; intros H;
      try (exfalso; apply H; reflexivity).
    + right. exists tp, h. reflexivity.
    + left. reflexivity.
  - intros [->|(tp & h & ->)]; discriminate.
Qed.

(** X26. On the general path of [switch] and of [dispatch] the mask
    that [extract_mask] found is read as an array instance, to pass its
    trace handle to the primitive, after the Call State was created.
    For a mask that is a JIT array the call goes on as it does without a
    mask. For any other mask (a Python boolean in the last position, or
    whatever was passed as [active]) that read is undefined: no
    callable has been called, and the Call State is not destroyed. *)
Theorem mask_read_as_array (b : ad_call_run) (index_ instances : pytree)
    (callables : list callable) (f : callable)
    (args_ : list pytree) (kwargs_ : pydict)
    (mask : option pytree) (args : list pytree) (kwargs : pydict)
    (n : string) (s : ArraySupplement) (v : pytype) :
  let r := switch_impl b index_ callables args_ kwargs_ in
  let d := dispatch_impl b instances f args_ kwargs_ in
  extract_mask args_ kwargs_ = Ok (mask, args, kwargs) ->
  (traced_index index_ ->
   ((forall m, mask = Some m -> (forall tp h, m <> PtVar tp h) ->
     returned (snd r) = Raise E_undefined_read /\
     called (fst r) = [] /\
     count is_new_State (lifetime r) = 1%nat /\
     count is_delete_State (lifetime r) = 0%nat) /\
    (mask = None \/ (exists tp h, mask = Some (PtVar tp h)) ->
     r = record_call switch_func rv_o args_o b
           {| args_o := make_tuple args kwargs; callables_o := callables;
              rv_o := None |}))) /\
  (tree_type instances = ArrayType n s v -> is_class s = true ->
   ndim s = 1%nat -> is_Some (Domain (tree_type instances)) ->
   ((forall m, mask = Some m -> (forall tp h, m <> PtVar tp h) ->
     returned (snd d) = Raise E_undefined_read /\
     called (fst d) = [] /\
     count is_new_State (lifetime d) = 1%nat /\
     count is_delete_State (lifetime d) = 0%nat) /\
    (mask = None \/ (exists tp h, mask = Some (PtVar tp h)) ->
     d = record_call dispatch_func d_rv_o d_args_o b
           {| d_type := v; d_args_o := make_tuple args kwargs;
              callable_o := f; d_rv_o := None |}))).
Proof.
  intros r d He.
  assert (Hundef : forall m, mask = Some m -> (forall tp h, m <> PtVar tp h) ->
                   mask_index mask = None).
  { intros m -> Hm. destruct m; try reflexivity.
    exfalso. exact (Hm _ _ eq_refl). }
  assert (Hexit : forall l : list handle,
    let x := ([new_State] ++ map ad_var_inc_ref l,
              {| returned := Raise E_undefined_read; deferred := false |}) in
    returned (snd x) = Raise E_undefined_read /\
    called (fst x) = [] /\
    count is_new_State (lifetime x) = 1%nat /\
    count is_delete_State (lifetime x) = 0%nat).
  { intros l x. unfold x, lifetime. cbn [fst snd returned deferred].
    rewrite app_nil_r, called_app, called_inc, !count_app.
    destruct (quiet_inc l) as (Hn & Hd & _). rewrite Hn, Hd.
    repeat split. }
  split.
  - intros (Hint & index & n0 & s0 & v0 & Hp & Htp & Hb & Ht & Hn).
    assert (Hr : r = record_call_masked switch_func rv_o args_o mask b
                       {| args_o := make_tuple args kwargs;
                          callables_o := callables; rv_o := None |}).
    { unfold r, switch_impl. rewrite He.
      destruct index_; try (exfalso; exact (Hint _ eq_refl));
        unfold switch_traced; rewrite Hp, Htp; cbn [supp];
        rewrite (bool_decide_eq_false_2 _ Hb), (bool_decide_eq_true_2 _ Ht),
                (bool_decide_eq_true_2 _ Hn); reflexivity. }
    rewrite Hr. unfold record_call_masked. split.
    + intros m Hm Hno. rewrite (Hundef m Hm Hno). apply Hexit.
    + intros Hdef. apply mask_index_defined in Hdef.
      destruct (mask_index mask); [reflexivity | contradiction].
  - intros Htp Hc Hn [dom Hdom].
    assert (Hd : d = record_call_masked dispatch_func d_rv_o d_args_o mask b
                       {| d_type := v; d_args_o := make_tuple args kwargs;
                          callable_o := f; d_rv_o := None |}).
    { unfold d, dispatch_impl. rewrite Htp in Hdom |- *.
      rewrite Hc, (bool_decide_eq_true_2 _ Hn), Hdom, He. reflexivity. }
    rewrite Hd. unfold record_call_masked. split.
    + intros m Hm Hno. rewrite (Hundef m Hm Hno). apply Hexit.
    + intros Hdef. apply mask_index_defined in Hdef.
      destruct (mask_index mask); [reflexivity | contradiction].
Qed.

End MaskReadFacts.

(** Witness of X26: [switch(index, [f], x, True)] with a traced index:
    the trailing [True] is taken for the mask and read as an array. *)
Lemma mask_read_as_array_witness :
  let b := {| groups := [(0%N, [7%N])]; fails := false; rv := [11%N];
              done := true |} in
  let r := switch_impl (host := reference_host) (tracer := reference_tracer)
             b (PtVar UInt_tp 5) [f_id] [PtVar Float_tp 7; PtBool true] [] in
  returned (snd r) = Raise E_undefined_read /\
  called (fst r) = [] /\
  count is_new_State (lifetime r) = 1%nat /\
  count is_delete_State (lifetime r) = 0%nat.
Proof.
  intros b r.
  destruct (mask_read_as_array (host := reference_host)
              (tracer := reference_tracer) b (PtVar UInt_tp 5) PtNone
              [f_id] f_id [PtVar Float_tp 7; PtBool true] []
              (Some (PtBool true)) [PtVar Float_tp 7; PtBool true] []
              "" (jit_supp VtBool) PyBool_Type eq_refl) as [Hs _].
  assert (Ht : traced_index (tracer := reference_tracer) (PtVar UInt_tp 5)).
  { split; [discriminate|].
    exists (PtVar UInt_tp 1005), "drjit.llvm.UInt", (jit_supp VtUInt32), PyLong_Type.
    repeat split. discriminate. }
  destruct (Hs Ht) as [Hundef _].
  apply (Hundef (PtBool true) eq_refl). discriminate.
Defined.
